(** * Ride booking backend: fare estimation and ride lifecycle

    A shallow embedding of the fare calculator (utils/fareCalculator.js),
    of the Ride model (models/Ride.js) with its two pre-save hooks, and of
    the ride routes (routes/rides.js), followed by the properties of the
    specification that concern them.

    Numbers.  A JavaScript number is a double.  The main development
    reads a finite double as the real number it stands for and computes
    exactly (no rounding error, no infinities, no signed zero); NaN is
    kept because the code produces it from non-numeric operands and tests
    it through [||].  Every division of the modelled code has a non-zero
    divisor: a literal, or the positive page size of the history route.

    The exact reading and the doubles part ways in three places, which
    Module Binary64 computes on binary64 floats: a tie of the rounding to
    hundredths or of Math.ceil can fall on either side, a large amount
    overflows to Infinity, and between nearly antipodal points the
    distance is NaN.  The theorems on distances, quotes and bookings are
    phrased so as to hold under both readings: where it matters they take
    as a hypothesis that the distance is a number, bound the size of the
    amounts, and leave a hundredth or a minute of slack where a tie
    decides.  The auxiliary lemmas are facts of the exact reading.

    Requests.  A handler receives the id of the authenticated rider, the
    parsed request and the time of the request; it returns a response and
    the collection of rides it leaves.  Each handler runs as one step.
    Authentication, populate and logging are outside the model. *)

From Stdlib Require Import Reals Lra Lia ZArith List String Bool Arith.
From Stdlib Require Import Permutation Sorted.
From Stdlib Require Floats.

Set Warnings "-inexact-float".
Import ListNotations.

Local Open Scope R_scope.

(** ** JavaScript numbers *)

Module JsNum.

Inductive Number : Type :=
| Num (r : R)
| NaN.

Definition lift2 (f : R -> R -> R) (a b : Number) : Number :=
  match a, b with
  | Num x, Num y => Num (f x y)
  | _, _ => NaN
  end.

Definition add := lift2 Rplus.
Definition sub := lift2 Rminus.
Definition mul := lift2 Rmult.
Definition div := lift2 Rdiv.

(** [a < b]; false as soon as one side is NaN. *)
Definition ltb (a b : Number) : bool :=
  match a, b with
  | Num x, Num y => if Rlt_dec x y then true else false
  | _, _ => false
  end.

(** [a <= b] and [a >= b]. *)
Definition leb (a b : Number) : bool :=
  match a, b with
  | Num x, Num y => if Rle_dec x y then true else false
  | _, _ => false
  end.

Definition geb (a b : Number) : bool := leb b a.

(** ToBoolean on a number: 0 and NaN are falsy. *)
Definition truthy (a : Number) : bool :=
  match a with
  | Num x => if Req_dec_T x 0 then false else true
  | NaN => false
  end.

(** [a || d] on numbers. *)
Definition or_else (a d : Number) : Number :=
  if truthy a then a else d.

(** Same value, as the change tracking of the document layer compares
    numbers. *)
Definition same (a b : Number) : bool :=
  match a, b with
  | Num x, Num y => if Req_dec_T x y then true else false
  | NaN, NaN => true
  | _, _ => false
  end.


(** [a <= b] as a proposition: false as soon as one side is NaN. *)
Definition le (a b : Number) : Prop :=
  match a, b with
  | Num x, Num y => x <= y
  | _, _ => False
  end.

Definition is_finite (a : Number) : Prop :=
  match a with
  | Num _ => True
  | NaN => False
  end.

End JsNum.

Import JsNum.

Declare Scope js_scope.
Delimit Scope js_scope with js.
Infix "+" := JsNum.add : js_scope.
Infix "-" := JsNum.sub : js_scope.
Infix "*" := JsNum.mul : js_scope.
Infix "/" := JsNum.div : js_scope.

(** ** The Math object *)

Module Math.

(** Largest integer not above [x]. *)
Definition floor (x : R) : R := IZR (Int_part x).

Definition PI : Number := Num Rtrigo1.PI.

Definition sin (a : Number) : Number :=
  match a with Num x => Num (Rtrigo_def.sin x) | NaN => NaN end.

Definition cos (a : Number) : Number :=
  match a with Num x => Num (Rtrigo_def.cos x) | NaN => NaN end.

(** Math.sqrt is NaN below zero. *)
Definition sqrt (a : Number) : Number :=
  match a with
  | Num x => if Rlt_dec x 0 then NaN else Num (R_sqrt.sqrt x)
  | NaN => NaN
  end.

(** The angle of the point (x, y), in (-PI, PI]. *)
Definition atan2R (y x : R) : R :=
  if Rlt_dec 0 x then atan (y / x)
  else if Rlt_dec x 0 then
    (if Rle_dec 0 y then atan (y / x) + Rtrigo1.PI
     else atan (y / x) - Rtrigo1.PI)
  else if Rlt_dec 0 y then Rtrigo1.PI / 2
  else if Rlt_dec y 0 then - (Rtrigo1.PI / 2)
  else 0.

Definition atan2 (y x : Number) : Number := JsNum.lift2 atan2R y x.

(** Math.round: nearest integer, ties towards +infinity. *)
Definition round (a : Number) : Number :=
  match a with Num x => Num (floor (x + / 2)) | NaN => NaN end.

(** Math.ceil. *)
Definition ceil (a : Number) : Number :=
  match a with Num x => Num (- floor (- x)) | NaN => NaN end.

End Math.

(** ** Values met by the property lookup of calculateFare *)

Inductive JsValue : Type :=
| JNumber (n : Number)
| JUndefined
| JInherited (name : string).
(** [JInherited] is a member found on Object.prototype (a function, or
    the prototype object itself for __proto__). *)

Definition toBoolean (v : JsValue) : bool :=
  match v with
  | JNumber n => JsNum.truthy n
  | JUndefined => false
  | JInherited _ => true
  end.

(** ToNumber: undefined, functions and plain objects all convert to NaN. *)
Definition toNumber (v : JsValue) : Number :=
  match v with
  | JNumber n => n
  | JUndefined => NaN
  | JInherited _ => NaN
  end.

(** [v || d]. *)
Definition js_or (v d : JsValue) : JsValue :=
  if toBoolean v then v else d.

(** Property names every object literal inherits from Object.prototype. *)
Definition Object_prototype_keys : list string :=
  [ "constructor"; "toString"; "toLocaleString"; "valueOf";
    "hasOwnProperty"; "isPrototypeOf"; "propertyIsEnumerable";
    "__proto__"; "__defineGetter__"; "__defineSetter__";
    "__lookupGetter__"; "__lookupSetter__" ]%string.

Fixpoint own_property (props : list (string * Number)) (key : string)
  : option Number :=
  match props with
  | [] => None
  | (k, v) :: rest => if String.eqb k key then Some v else own_property rest key
  end.

Fixpoint mem_string (key : string) (l : list string) : bool :=
  match l with
  | [] => false
  | k :: rest => String.eqb k key || mem_string key rest
  end.

(** [obj[key]] for an object literal [obj] with the given own properties:
    own properties first, then the prototype chain. *)
Definition get_property (props : list (string * Number)) (key : string)
  : JsValue :=
  match own_property props key with
  | Some v => JNumber v
  | None =>
      if mem_string key Object_prototype_keys then JInherited key
      else JUndefined
  end.

(** A parameter with a default value: the default replaces undefined. *)
Definition with_default {A : Type} (arg : option A) (d : A) : A :=
  match arg with
  | Some a => a
  | None => d
  end.

(** ** utils/fareCalculator.js *)

Record Coordinates : Type := {
  latitude : Number;
  longitude : Number
}.

Record Location : Type := {
  address : string;
  coordinates : Coordinates
}.

Record FareBreakdown : Type := {
  fb_baseFare : Number;
  fb_gst : Number;
  fb_totalFare : Number;
  fb_distance : Number;
  fb_farePerKm : Number;
  fb_rideType : string
}.

(** The object estimateFare returns: the spread breakdown and three more
    keys. *)
Record FareEstimate : Type := {
  fareBreakdown : FareBreakdown;
  estimatedTime : Number;
  fe_pickup : string;
  fe_drop : string
}.

Definition toRadians (degrees : Number) : Number :=
  (degrees * (Math.PI / Num 180))%js.

Definition calculateDistance (lat1 lon1 lat2 lon2 : Number) : Number :=
  let R := Num 6371 in
  let dLat := toRadians (lat2 - lat1)%js in
  let dLon := toRadians (lon2 - lon1)%js in
  let a :=
    (Math.sin (dLat / Num 2) * Math.sin (dLat / Num 2) +
     Math.cos (toRadians lat1) * Math.cos (toRadians lat2) *
     Math.sin (dLon / Num 2) * Math.sin (dLon / Num 2))%js in
  let c := (Num 2 * Math.atan2 (Math.sqrt a) (Math.sqrt (Num 1 - a)))%js in
  let distance := (R * c)%js in
  (Math.round (distance * Num 100) / Num 100)%js.

Definition rideTypeMultipliers : list (string * Number) :=
  [ ("economy"%string, Num 1.0);
    ("premium"%string, Num 1.5);
    ("luxury"%string, Num 2.0) ].

Definition validateCoordinates (lat lng : Number) : bool :=
  JsNum.geb lat (Num (-90)) && JsNum.leb lat (Num 90) &&
  JsNum.geb lng (Num (-180)) && JsNum.leb lng (Num 180).

Section FareCalculator.

(** The value of [parseFloat(process.env.FARE_PER_KM)]: NaN when the
    variable is unset or does not start with a number. *)
Variable FARE_PER_KM : Number.

Definition calculateFare (distance : Number) (rideType : option string)
  : FareBreakdown :=
  let rideType := with_default rideType "economy"%string in
  let farePerKm := JsNum.or_else FARE_PER_KM (Num 15) in
  let baseFare := Num 50 in
  let minimumFare := Num 80 in
  let multiplier :=
    js_or (get_property rideTypeMultipliers rideType) (JNumber (Num 1.0)) in
  let calculatedFare :=
    (baseFare + (distance * farePerKm * toNumber multiplier))%js in
  let calculatedFare :=
    if JsNum.ltb calculatedFare minimumFare then minimumFare
    else calculatedFare in
  let gst := (calculatedFare * Num 0.18)%js in
  let totalFare := (calculatedFare + gst)%js in
  {| fb_baseFare := (Math.round (calculatedFare * Num 100) / Num 100)%js;
     fb_gst := (Math.round (gst * Num 100) / Num 100)%js;
     fb_totalFare := (Math.round (totalFare * Num 100) / Num 100)%js;
     fb_distance := distance;
     fb_farePerKm := farePerKm;
     fb_rideType := rideType |}.

Definition estimateFare (pickup drop : Location) (rideType : option string)
  : FareEstimate :=
  let rideType := with_default rideType "economy"%string in
  let distance :=
    calculateDistance
      (latitude (coordinates pickup)) (longitude (coordinates pickup))
      (latitude (coordinates drop)) (longitude (coordinates drop)) in
  let fareBreakdown := calculateFare distance (Some rideType) in
  let estimatedTime := Math.ceil ((distance / Num 30) * Num 60)%js in
  {| fareBreakdown := fareBreakdown;
     estimatedTime := estimatedTime;
     fe_pickup := address pickup;
     fe_drop := address drop |}.

End FareCalculator.

(** ** models/Ride.js *)

Inductive RideStatus : Type :=
| pending | accepted | started | completed | cancelled.

Definition status_name (s : RideStatus) : string :=
  match s with
  | pending => "pending"
  | accepted => "accepted"
  | started => "started"
  | completed => "completed"
  | cancelled => "cancelled"
  end.

Definition status_eqb (a b : RideStatus) : bool :=
  match a, b with
  | pending, pending | accepted, accepted | started, started
  | completed, completed | cancelled, cancelled => true
  | _, _ => false
  end.

(** [status: { $in: statuses }]. *)
Definition status_in (statuses : list RideStatus) (s : RideStatus) : bool :=
  existsb (status_eqb s) statuses.

Inductive PaymentStatus : Type :=
| pay_pending | pay_completed | pay_failed | pay_refunded.

Inductive PaymentMethod : Type :=
| cash | card | wallet | upi.

Inductive CancelledBy : Type :=
| by_user | by_driver | by_system.

(** rideHistorySchema.  The action is kept as the string the code pushes:
    the first hook pushes the status name itself. *)
Record HistoryEntry : Type := {
  action : string;
  timestamp : Z;
  details : string
}.

Record Fare : Type := {
  baseFare : Number;
  totalFare : Number;
  currency : string
}.

Record Rating : Type := {
  userRating : option Number;
  driverRating : option Number
}.

(** A ride document.  Object ids are natural numbers, dates are
    milliseconds, and null is [None]. *)
Record Ride : Type := {
  _id : nat;
  userId : nat;
  driverId : option nat;
  status : RideStatus;
  pickupLocation : Location;
  dropLocation : Location;
  originalDropLocation : option Location;
  distance : Number;
  estimatedDuration : option Number;
  fare : Fare;
  paymentStatus : PaymentStatus;
  paymentMethod : PaymentMethod;
  rideStartTime : option Z;
  rideEndTime : option Z;
  cancellationReason : option string;
  cancelledBy : option CancelledBy;
  rating : Rating;
  history : list HistoryEntry;
  notes : option string;
  createdAt : Z;
  updatedAt : Z
}.

(** Field assignments [ride.f = v]. *)
Definition set_status (v : RideStatus) (r : Ride) : Ride :=
  {| _id := _id r; userId := userId r; driverId := driverId r;
     status := v;
     pickupLocation := pickupLocation r; dropLocation := dropLocation r;
     originalDropLocation := originalDropLocation r;
     distance := distance r; estimatedDuration := estimatedDuration r;
     fare := fare r; paymentStatus := paymentStatus r;
     paymentMethod := paymentMethod r; rideStartTime := rideStartTime r;
     rideEndTime := rideEndTime r;
     cancellationReason := cancellationReason r;
     cancelledBy := cancelledBy r; rating := rating r;
     history := history r; notes := notes r;
     createdAt := createdAt r; updatedAt := updatedAt r |}.

Definition set_dropLocation (v : Location) (r : Ride) : Ride :=
  {| _id := _id r; userId := userId r; driverId := driverId r;
     status := status r;
     pickupLocation := pickupLocation r; dropLocation := v;
     originalDropLocation := originalDropLocation r;
     distance := distance r; estimatedDuration := estimatedDuration r;
     fare := fare r; paymentStatus := paymentStatus r;
     paymentMethod := paymentMethod r; rideStartTime := rideStartTime r;
     rideEndTime := rideEndTime r;
     cancellationReason := cancellationReason r;
     cancelledBy := cancelledBy r; rating := rating r;
     history := history r; notes := notes r;
     createdAt := createdAt r; updatedAt := updatedAt r |}.

Definition set_distance (v : Number) (r : Ride) : Ride :=
  {| _id := _id r; userId := userId r; driverId := driverId r;
     status := status r;
     pickupLocation := pickupLocation r; dropLocation := dropLocation r;
     originalDropLocation := originalDropLocation r;
     distance := v; estimatedDuration := estimatedDuration r;
     fare := fare r; paymentStatus := paymentStatus r;
     paymentMethod := paymentMethod r; rideStartTime := rideStartTime r;
     rideEndTime := rideEndTime r;
     cancellationReason := cancellationReason r;
     cancelledBy := cancelledBy r; rating := rating r;
     history := history r; notes := notes r;
     createdAt := createdAt r; updatedAt := updatedAt r |}.

Definition set_estimatedDuration (v : option Number) (r : Ride) : Ride :=
  {| _id := _id r; userId := userId r; driverId := driverId r;
     status := status r;
     pickupLocation := pickupLocation r; dropLocation := dropLocation r;
     originalDropLocation := originalDropLocation r;
     distance := distance r; estimatedDuration := v;
     fare := fare r; paymentStatus := paymentStatus r;
     paymentMethod := paymentMethod r; rideStartTime := rideStartTime r;
     rideEndTime := rideEndTime r;
     cancellationReason := cancellationReason r;
     cancelledBy := cancelledBy r; rating := rating r;
     history := history r; notes := notes r;
     createdAt := createdAt r; updatedAt := updatedAt r |}.

Definition set_fare (v : Fare) (r : Ride) : Ride :=
  {| _id := _id r; userId := userId r; driverId := driverId r;
     status := status r;
     pickupLocation := pickupLocation r; dropLocation := dropLocation r;
     originalDropLocation := originalDropLocation r;
     distance := distance r; estimatedDuration := estimatedDuration r;
     fare := v; paymentStatus := paymentStatus r;
     paymentMethod := paymentMethod r; rideStartTime := rideStartTime r;
     rideEndTime := rideEndTime r;
     cancellationReason := cancellationReason r;
     cancelledBy := cancelledBy r; rating := rating r;
     history := history r; notes := notes r;
     createdAt := createdAt r; updatedAt := updatedAt r |}.

Definition set_cancellationReason (v : option string) (r : Ride) : Ride :=
  {| _id := _id r; userId := userId r; driverId := driverId r;
     status := status r;
     pickupLocation := pickupLocation r; dropLocation := dropLocation r;
     originalDropLocation := originalDropLocation r;
     distance := distance r; estimatedDuration := estimatedDuration r;
     fare := fare r; paymentStatus := paymentStatus r;
     paymentMethod := paymentMethod r; rideStartTime := rideStartTime r;
     rideEndTime := rideEndTime r;
     cancellationReason := v;
     cancelledBy := cancelledBy r; rating := rating r;
     history := history r; notes := notes r;
     createdAt := createdAt r; updatedAt := updatedAt r |}.

Definition set_cancelledBy (v : option CancelledBy) (r : Ride) : Ride :=
  {| _id := _id r; userId := userId r; driverId := driverId r;
     status := status r;
     pickupLocation := pickupLocation r; dropLocation := dropLocation r;
     originalDropLocation := originalDropLocation r;
     distance := distance r; estimatedDuration := estimatedDuration r;
     fare := fare r; paymentStatus := paymentStatus r;
     paymentMethod := paymentMethod r; rideStartTime := rideStartTime r;
     rideEndTime := rideEndTime r;
     cancellationReason := cancellationReason r;
     cancelledBy := v; rating := rating r;
     history := history r; notes := notes r;
     createdAt := createdAt r; updatedAt := updatedAt r |}.

Definition set_history (v : list HistoryEntry) (r : Ride) : Ride :=
  {| _id := _id r; userId := userId r; driverId := driverId r;
     status := status r;
     pickupLocation := pickupLocation r; dropLocation := dropLocation r;
     originalDropLocation := originalDropLocation r;
     distance := distance r; estimatedDuration := estimatedDuration r;
     fare := fare r; paymentStatus := paymentStatus r;
     paymentMethod := paymentMethod r; rideStartTime := rideStartTime r;
     rideEndTime := rideEndTime r;
     cancellationReason := cancellationReason r;
     cancelledBy := cancelledBy r; rating := rating r;
     history := v; notes := notes r;
     createdAt := createdAt r; updatedAt := updatedAt r |}.

Definition set_timestamps (created updated : Z) (r : Ride) : Ride :=
  {| _id := _id r; userId := userId r; driverId := driverId r;
     status := status r;
     pickupLocation := pickupLocation r; dropLocation := dropLocation r;
     originalDropLocation := originalDropLocation r;
     distance := distance r; estimatedDuration := estimatedDuration r;
     fare := fare r; paymentStatus := paymentStatus r;
     paymentMethod := paymentMethod r; rideStartTime := rideStartTime r;
     rideEndTime := rideEndTime r;
     cancellationReason := cancellationReason r;
     cancelledBy := cancelledBy r; rating := rating r;
     history := history r; notes := notes r;
     createdAt := created; updatedAt := updated |}.

(** [ride.fare.baseFare = b; ride.fare.totalFare = t]. *)
Definition set_fare_amounts (b t : Number) (r : Ride) : Ride :=
  set_fare {| baseFare := b; totalFare := t; currency := currency (fare r) |} r.

(** [ride.history.push(entry)]. *)
Definition history_push (entry : HistoryEntry) (r : Ride) : Ride :=
  set_history (history r ++ [entry]) r.

(** *** The document layer

    A document in a request handler is a ride together with the state it
    was loaded in ([None] for a document built by [new Ride]).  A path is
    modified when its value differs from the loaded one; every path of a
    new document counts as modified. *)
Record Document : Type := {
  loaded : option Ride;
  doc : Ride
}.

Definition isNew (d : Document) : bool :=
  match loaded d with
  | None => true
  | Some _ => false
  end.

Definition isModified_status (d : Document) : bool :=
  match loaded d with
  | None => true
  | Some old => negb (status_eqb (status old) (status (doc d)))
  end.

Definition isModified_distance (d : Document) : bool :=
  match loaded d with
  | None => true
  | Some old => negb (JsNum.same (distance old) (distance (doc d)))
  end.

Definition update_doc (f : Ride -> Ride) (d : Document) : Document :=
  {| loaded := loaded d; doc := f (doc d) |}.

(** First pre-save hook: the history entry. *)
Definition pre_save_history (now : Z) (d : Document) : Document :=
  if isNew d then
    update_doc
      (history_push {| action := "created"; timestamp := now;
                       details := "Ride request created" |}) d
  else if isModified_status d then
    update_doc
      (history_push
         {| action := status_name (status (doc d)); timestamp := now;
            details :=
              ("Ride status changed to " ++ status_name (status (doc d)))%string
         |}) d
  else d.

(** Second pre-save hook: the estimated duration, at 30 km/h. *)
Definition pre_save_duration (d : Document) : Document :=
  if isModified_distance d && JsNum.truthy (distance (doc d)) then
    update_doc
      (set_estimatedDuration
         (Some (Math.ceil ((distance (doc d) / Num 30) * Num 60)%js))) d
  else d.

(** Schema validation, which runs before the pre-save hooks, on the
    required paths and on the modified ones: required addresses are
    non-empty, a Number path does not hold NaN, and notes hold at most 500
    characters.  No handler assigns originalDropLocation or notes after
    the constructor, so these two are checked on a new document. *)
Definition nonempty (s : string) : bool := negb (String.eqb s EmptyString).

Definition validate_location (l : Location) : bool := nonempty (address l).

Definition castable (n : Number) : bool :=
  match n with
  | Num _ => true
  | NaN => false
  end.

Definition notes_ok (n : option string) : bool :=
  match n with
  | Some s => Nat.leb (String.length s) 500
  | None => true
  end.

Definition validate (d : Document) : bool :=
  validate_location (pickupLocation (doc d)) &&
  validate_location (dropLocation (doc d)) &&
  castable (distance (doc d)) &&
  castable (baseFare (fare (doc d))) &&
  castable (totalFare (fare (doc d))) &&
  (if isNew d then
     match originalDropLocation (doc d) with
     | Some l => validate_location l
     | None => true
     end &&
     notes_ok (notes (doc d))
   else true).

(** The collection, in insertion order. *)
Definition Store : Type := list Ride.

(** [Ride.findOne(query)]: the first document that matches. *)
Definition findOne (query : Ride -> bool) (db : Store) : option Ride :=
  List.find query db.

(** The write of an existing document, addressed by its id. *)
Fixpoint update_by_id (r' : Ride) (db : Store) : Store :=
  match db with
  | [] => []
  | r :: rest =>
      if Nat.eqb (_id r) (_id r') then r' :: rest
      else r :: update_by_id r' rest
  end.

(** A fresh object id: above every id of the collection. *)
Definition fresh_id (db : Store) : nat :=
  S (fold_right Nat.max 0%nat (map _id db)).

(** [doc.save()]: validation, the two hooks in the order they are
    registered, then the write.  [None] is a rejected save (the handler's
    catch block). *)
Definition save (now : Z) (d : Document) (db : Store)
  : option (Ride * Store) :=
  if validate d then
    let d1 := pre_save_history now d in
    let d2 := pre_save_duration d1 in
    match loaded d with
    | None =>
        let r := set_timestamps now now (doc d2) in
        Some (r, db ++ [r])
    | Some _ =>
        let r := set_timestamps (createdAt (doc d2)) now (doc d2) in
        Some (r, update_by_id r db)
    end
  else None.

(** ** routes/rides.js *)

Record EstimateQuery : Type := {
  fromLat : Number;
  fromLng : Number;
  toLat : Number;
  toLng : Number;
  fromAddress : string;
  toAddress : string;
  query_rideType : option string
}.

Record BookingBody : Type := {
  body_pickupLocation : Location;
  body_dropLocation : Location;
  body_rideType : option string;
  body_notes : option string
}.

(** [isFloat({ min, max })]. *)
Definition isFloat (min max : R) (x : Number) : bool :=
  JsNum.leb (Num min) x && JsNum.leb x (Num max).

Definition validate_body_location (l : Location) : bool :=
  nonempty (address l) &&
  isFloat (-90) 90 (latitude (coordinates l)) &&
  isFloat (-180) 180 (longitude (coordinates l)).

Definition validateRideBooking (b : BookingBody) : bool :=
  validate_body_location (body_pickupLocation b) &&
  validate_body_location (body_dropLocation b) &&
  match body_rideType b with
  | None => true
  | Some t => mem_string t ["economy"; "premium"; "luxury"]%string
  end.

Definition validateDestinationUpdate (dropLocation : Location) : bool :=
  validate_body_location dropLocation.

Definition validateFareEstimate (q : EstimateQuery) : bool :=
  isFloat (-90) 90 (fromLat q) && isFloat (-180) 180 (fromLng q) &&
  isFloat (-90) 90 (toLat q) && isFloat (-180) 180 (toLng q) &&
  nonempty (fromAddress q) && nonempty (toAddress q).

(** The responses of the ride routes, by what they carry. *)
Inductive Response : Type :=
| ValidationFailed
| FareEstimated (data : FareEstimate)
| ActiveRideConflict (activeRideId : nat)
| RideBooked (ride : Ride) (fareBreakdown : FareEstimate)
| NotFound (message : string)
| DestinationUpdated (ride : Ride) (fareBreakdown : FareEstimate)
| RideCancelled (ride : Ride)
| ServerError (message : string).

Definition statusCode (r : Response) : Z :=
  match r with
  | ValidationFailed => 400
  | FareEstimated _ => 200
  | ActiveRideConflict _ => 409
  | RideBooked _ _ => 201
  | NotFound _ => 404
  | DestinationUpdated _ _ => 200
  | RideCancelled _ => 200
  | ServerError _ => 500
  end.

(** [new Ride({ userId, pickupLocation, dropLocation, originalDropLocation,
    distance, fare, notes })] with the defaults of the schema. *)
Definition new_Ride (id user : nat) (pickup drop : Location)
    (original : Location) (dist : Number) (base total : Number)
    (note : option string) : Ride :=
  {| _id := id; userId := user; driverId := None;
     status := pending;
     pickupLocation := pickup; dropLocation := drop;
     originalDropLocation := Some original;
     distance := dist; estimatedDuration := None;
     fare := {| baseFare := base; totalFare := total; currency := "INR" |};
     paymentStatus := pay_pending; paymentMethod := cash;
     rideStartTime := None; rideEndTime := None;
     cancellationReason := None; cancelledBy := None;
     rating := {| userRating := None; driverRating := None |};
     history := []; notes := note;
     createdAt := 0; updatedAt := 0 |}.

Definition active_statuses : list RideStatus := [pending; accepted; started].

(** [reason || 'Cancelled by user']: undefined and the empty string are
    falsy. *)
Definition reason_or_default (reason : option string) : string :=
  match reason with
  | Some s => if nonempty s then s else "Cancelled by user"%string
  | None => "Cancelled by user"%string
  end.

Section Routes.

Variable FARE_PER_KM : Number.

(** GET /rides/estimate *)
Definition estimate (q : EstimateQuery) : Response :=
  if negb (validateFareEstimate q) then ValidationFailed
  else
    let rideType := with_default (query_rideType q) "economy"%string in
    let pickup :=
      {| address := fromAddress q;
         coordinates := {| latitude := fromLat q; longitude := fromLng q |} |} in
    let drop :=
      {| address := toAddress q;
         coordinates := {| latitude := toLat q; longitude := toLng q |} |} in
    FareEstimated (estimateFare FARE_PER_KM pickup drop (Some rideType)).

(** POST /rides/book *)
Definition book (now : Z) (user : nat) (b : BookingBody) (db : Store)
  : Response * Store :=
  if negb (validateRideBooking b) then (ValidationFailed, db)
  else
    let pickupLocation := body_pickupLocation b in
    let dropLocation := body_dropLocation b in
    let rideType := with_default (body_rideType b) "economy"%string in
    match findOne (fun r => Nat.eqb (userId r) user &&
                            status_in active_statuses (status r)) db with
    | Some activeRide => (ActiveRideConflict (_id activeRide), db)
    | None =>
        let distance :=
          calculateDistance
            (latitude (coordinates pickupLocation))
            (longitude (coordinates pickupLocation))
            (latitude (coordinates dropLocation))
            (longitude (coordinates dropLocation)) in
        let fareEstimate :=
          estimateFare FARE_PER_KM pickupLocation dropLocation (Some rideType) in
        let ride :=
          new_Ride (fresh_id db) user pickupLocation dropLocation dropLocation
            distance
            (fb_baseFare (fareBreakdown fareEstimate))
            (fb_totalFare (fareBreakdown fareEstimate))
            (body_notes b) in
        match save now {| loaded := None; doc := ride |} db with
        | Some (ride', db') => (RideBooked ride' fareEstimate, db')
        | None => (ServerError "Failed to book ride", db)
        end
    end.

(** PUT /rides/:id/update-destination *)
Definition updateDestination (now : Z) (user id : nat)
    (dropLocation : Location) (db : Store) : Response * Store :=
  if negb (validateDestinationUpdate dropLocation) then (ValidationFailed, db)
  else
    match findOne (fun r => Nat.eqb (_id r) id && Nat.eqb (userId r) user &&
                            status_in [accepted; started] (status r)) db with
    | None => (NotFound "Active ride not found or cannot be modified", db)
    | Some ride =>
        let newDistance :=
          calculateDistance
            (latitude (coordinates (pickupLocation ride)))
            (longitude (coordinates (pickupLocation ride)))
            (latitude (coordinates dropLocation))
            (longitude (coordinates dropLocation)) in
        let newFareEstimate :=
          estimateFare FARE_PER_KM (pickupLocation ride) dropLocation None in
        let ride1 := set_dropLocation dropLocation ride in
        let ride2 := set_distance newDistance ride1 in
        let ride3 :=
          set_fare_amounts
            (fb_baseFare (fareBreakdown newFareEstimate))
            (fb_totalFare (fareBreakdown newFareEstimate)) ride2 in
        let ride4 :=
          history_push
            {| action := "destination_updated"; timestamp := now;
               details :=
                 ("Destination updated to " ++ address dropLocation)%string |}
            ride3 in
        match save now {| loaded := Some ride; doc := ride4 |} db with
        | Some (ride', db') => (DestinationUpdated ride' newFareEstimate, db')
        | None => (ServerError "Failed to update destination", db)
        end
    end.

(** POST /rides/:id/cancel *)
Definition cancel (now : Z) (user id : nat) (reason : option string)
    (db : Store) : Response * Store :=
  match findOne (fun r => Nat.eqb (_id r) id && Nat.eqb (userId r) user &&
                          status_in [pending; accepted] (status r)) db with
  | None => (NotFound "Ride not found or cannot be cancelled", db)
  | Some ride =>
      let ride1 := set_status cancelled ride in
      let reason' := reason_or_default reason in
      let ride2 := set_cancellationReason (Some reason') ride1 in
      let ride3 := set_cancelledBy (Some by_user) ride2 in
      let ride4 :=
        history_push
          {| action := "cancelled"; timestamp := now; details := reason' |}
          ride3 in
      match save now {| loaded := Some ride; doc := ride4 |} db with
      | Some (ride', db') => (RideCancelled ride', db')
      | None => (ServerError "Failed to cancel ride", db)
      end
  end.

(** The commands that write to the collection, and a run of them. *)
Inductive Command : Type :=
| Book (user : nat) (b : BookingBody)
| UpdateDestination (user id : nat) (dropLocation : Location)
| Cancel (user id : nat) (reason : option string).

Definition exec (now : Z) (c : Command) (db : Store) : Response * Store :=
  match c with
  | Book user b => book now user b db
  | UpdateDestination user id dropLocation =>
      updateDestination now user id dropLocation db
  | Cancel user id reason => cancel now user id reason db
  end.

Fixpoint run (cmds : list (Z * Command)) (db : Store) : Store :=
  match cmds with
  | [] => db
  | (now, c) :: rest => run rest (snd (exec now c db))
  end.

(** The collections the routes can build from an empty one. *)
Inductive reachable : Store -> Prop :=
| reachable_empty : reachable []
| reachable_exec : forall db now c,
    reachable db -> reachable (snd (exec now c db)).

End Routes.

(** ** Notions used by the statements *)

(** *** Real-valued readings of the calculator

    [rad], [haversine_a] and [haversine_km] are the values of toRadians and
    of the locals [a] and [distance] of calculateDistance on finite
    arguments; [round2_up] is [Math.round(x * 100) / 100]. *)

Definition rad (deg : R) : R := deg * (PI / 180).

Definition haversine_a (lat1 lon1 lat2 lon2 : R) : R :=
  sin (rad (lat2 - lat1) / 2) * sin (rad (lat2 - lat1) / 2) +
  cos (rad lat1) * cos (rad lat2) *
  sin (rad (lon2 - lon1) / 2) * sin (rad (lon2 - lon1) / 2).

Definition haversine_km (lat1 lon1 lat2 lon2 : R) : R :=
  let a := haversine_a lat1 lon1 lat2 lon2 in
  6371 * (2 * Math.atan2R (sqrt a) (sqrt (1 - a))).

Definition round2_up (x : R) : R := Math.floor (x * 100 + / 2) / 100.

(** The rate in force: the configured one, 15 when it is missing, not a
    number or zero. *)
Definition farePerKmRate (env : Number) : R :=
  match env with
  | Num r => if Req_dec_T r 0 then 15 else r
  | NaN => 15
  end.

(** The local [calculatedFare] once the minimum fare is applied. *)
Definition adjustedFare (rate d m : R) : R := Rmax (50 + d * rate * m) 80.

(** *** The fare rules in the words of the specification *)

Inductive RideCategory : Type := economy | premium | luxury.

Definition category_name (c : RideCategory) : string :=
  match c with
  | economy => "economy"
  | premium => "premium"
  | luxury => "luxury"
  end.

Definition multiplier (c : RideCategory) : R :=
  match c with
  | economy => 1.0
  | premium => 1.5
  | luxury => 2.0
  end.

(** Nearest integer, ties away from zero. *)
Definition round_half_away (x : R) : R :=
  if Rle_dec 0 x then Math.floor (x + / 2) else - Math.floor (- x + / 2).

(** Rounding to two decimal places. *)
Definition round2 (x : R) : R := round_half_away (x * 100) / 100.

(** Least integer not below [x]. *)
Definition ceiling (x : R) : R :=
  if Req_dec_T (Math.floor x) x then x else Math.floor x + 1.

(** The finite value of a number. *)
Definition value_of (n : Number) : R :=
  match n with
  | Num x => x
  | NaN => 0
  end.

(** The haversine formula on a sphere of radius 6371 km. *)
Definition haversine (a b : Coordinates) : R :=
  let lat1 := rad (value_of (latitude a)) in
  let lat2 := rad (value_of (latitude b)) in
  let dLat := rad (value_of (latitude b) - value_of (latitude a)) in
  let dLon := rad (value_of (longitude b) - value_of (longitude a)) in
  let h := Rsqr (sin (dLat / 2)) +
           cos lat1 * cos lat2 * Rsqr (sin (dLon / 2)) in
  2 * 6371 * asin (sqrt h).

(** The distance of the specification: haversine, to two decimals. *)
Definition distanceKm (a b : Coordinates) : R := round2 (haversine a b).

(** The quote of the specification: the distance, the raw fare, the
    minimum fare, the 18% tax, the total, each amount rounded on its own,
    and the minutes at 30 km/h. *)
Definition spec_quote (rate : R) (pickup drop : Location) (c : RideCategory)
  : FareEstimate :=
  let d := distanceKm (coordinates pickup) (coordinates drop) in
  let raw := 50 + d * rate * multiplier c in
  let adjusted := Rmax raw 80 in
  let tax := adjusted * 0.18 in
  let total := adjusted + tax in
  {| fareBreakdown :=
       {| fb_baseFare := Num (round2 adjusted);
          fb_gst := Num (round2 tax);
          fb_totalFare := Num (round2 total);
          fb_distance := Num d;
          fb_farePerKm := Num rate;
          fb_rideType := category_name c |};
     estimatedTime := Num (ceiling (d / 30 * 60));
     fe_pickup := address pickup;
     fe_drop := address drop |}.

(** *** Rides and collections *)

Definition is_active (r : Ride) : bool := status_in active_statuses (status r).

Definition find_by_id (id : nat) (db : Store) : option Ride :=
  List.find (fun r => Nat.eqb (_id r) id) db.

Definition unique_ids (db : Store) : Prop := NoDup (map _id db).

Definition active_rides_of (user : nat) (db : Store) : list Ride :=
  filter (fun r => Nat.eqb (userId r) user && is_active r) db.

(** At most one ride of a rider is pending, accepted or started. *)
Definition one_active_ride_per_rider (db : Store) : Prop :=
  forall user, (List.length (active_rides_of user db) <= 1)%nat.

Definition histories_nonempty (db : Store) : Prop :=
  forall r, In r db -> history r <> [].

(** [r'] agrees with [cur] on every field the pre-save hooks and the
    timestamps leave alone: all but history, estimatedDuration, createdAt
    and updatedAt. *)
Definition hooks_frame (cur r' : Ride) : Prop :=
  _id r' = _id cur /\ userId r' = userId cur /\ driverId r' = driverId cur /\
  status r' = status cur /\ pickupLocation r' = pickupLocation cur /\
  dropLocation r' = dropLocation cur /\
  originalDropLocation r' = originalDropLocation cur /\
  distance r' = distance cur /\ fare r' = fare cur /\
  paymentStatus r' = paymentStatus cur /\ paymentMethod r' = paymentMethod cur /\
  rideStartTime r' = rideStartTime cur /\ rideEndTime r' = rideEndTime cur /\
  cancellationReason r' = cancellationReason cur /\
  cancelledBy r' = cancelledBy cur /\ rating r' = rating cur /\
  notes r' = notes cur.

(** The history entries the code writes. *)
Definition created_entry (now : Z) : HistoryEntry :=
  {| action := "created"; timestamp := now; details := "Ride request created" |}.

Definition status_entry (now : Z) (s : RideStatus) : HistoryEntry :=
  {| action := status_name s; timestamp := now;
     details := ("Ride status changed to " ++ status_name s)%string |}.

Definition cancelled_entry (now : Z) (reason : option string) : HistoryEntry :=
  {| action := "cancelled"; timestamp := now;
     details := reason_or_default reason |}.

Definition destination_entry (now : Z) (newDrop : Location) : HistoryEntry :=
  {| action := "destination_updated"; timestamp := now;
     details := ("Destination updated to " ++ address newDrop)%string |}.

(** The document POST /rides/book hands to save. *)
Definition booking_ride (env : Number) (id user : nat) (b : BookingBody) : Ride :=
  let fe := estimateFare env (body_pickupLocation b) (body_dropLocation b)
              (Some (with_default (body_rideType b) "economy"%string)) in
  new_Ride id user (body_pickupLocation b) (body_dropLocation b)
    (body_dropLocation b)
    (calculateDistance
       (latitude (coordinates (body_pickupLocation b)))
       (longitude (coordinates (body_pickupLocation b)))
       (latitude (coordinates (body_dropLocation b)))
       (longitude (coordinates (body_dropLocation b))))
    (fb_baseFare (fareBreakdown fe)) (fb_totalFare (fareBreakdown fe))
    (body_notes b).

(** What one command can do to the collection: nothing, the insertion of
    a new ride with a fresh id for a rider without an active ride, or the
    rewrite of one ride that keeps its id, rider and originalDropLocation,
    does not make it active, and extends its history. *)
Inductive store_step (db : Store) : Store -> Prop :=
| step_none : store_step db db
| step_insert : forall r,
    _id r = fresh_id db ->
    active_rides_of (userId r) db = [] ->
    (exists e, history r = [e] /\ action e = "created"%string) ->
    store_step db (db ++ [r])
| step_update : forall r r' extra,
    In r db ->
    _id r' = _id r -> userId r' = userId r ->
    originalDropLocation r' = originalDropLocation r ->
    (is_active r' = true -> is_active r = true) ->
    history r' = history r ++ extra ->
    store_step db (update_by_id r' db).

(** *** Sample requests

    [testRide] is the booking of test-api.js; the other locations lie on
    the equator, where the distance has a closed form. *)

Definition bandra : Location :=
  {| address := "Bandra West, Mumbai";
     coordinates := {| latitude := Num 19.0760; longitude := Num 72.8777 |} |}.

Definition andheri : Location :=
  {| address := "Andheri East, Mumbai";
     coordinates := {| latitude := Num 19.0896; longitude := Num 72.8656 |} |}.

Definition testRide : BookingBody :=
  {| body_pickupLocation := bandra; body_dropLocation := andheri;
     body_rideType := Some "economy"%string; body_notes := None |}.

Definition null_island : Location :=
  {| address := "Null Island";
     coordinates := {| latitude := Num 0; longitude := Num 0 |} |}.

Definition midway : Location :=
  {| address := "Equator 90E";
     coordinates := {| latitude := Num 0; longitude := Num 90 |} |}.

Definition date_line : Location :=
  {| address := "Equator 180E";
     coordinates := {| latitude := Num 0; longitude := Num 180 |} |}.

Definition luxury_booking : BookingBody :=
  {| body_pickupLocation := null_island; body_dropLocation := midway;
     body_rideType := Some "luxury"%string; body_notes := None |}.

(** A request to GET /rides/estimate whose rideType is the name of a
    member of Object.prototype; the route does not validate rideType. *)
Definition constructor_query : EstimateQuery :=
  {| fromLat := Num 0; fromLng := Num 0; toLat := Num 0; toLng := Num 0;
     fromAddress := "Home"; toAddress := "Office";
     query_rideType := Some "constructor"%string |}.

(** The ride the sample booking stores, as the first document of a
    collection. *)
Definition pending_testRide : Ride :=
  history_push (created_entry 1000) (booking_ride NaN 1 7 testRide).

(** ** Code beside the booking flow

    The distance mock of the fare calculator, the duration virtual of the
    Ride model and the three routes of routes/rides.js that only read. *)

(** *** utils/fareCalculator.js: getDistanceFromGoogleMaps

    The draw of [Math.random()] is an argument; the addresses are not
    used. *)

Record MapsResponse : Type := {
  maps_distance : Number;
  maps_duration : Number;
  maps_status : string
}.

Definition getDistanceFromGoogleMaps (random : Number)
    (origin destination : string) : MapsResponse :=
  let mockDistance := (random * Num 20 + Num 2)%js in
  let mockDuration := Math.ceil ((mockDistance / Num 25) * Num 60)%js in
  {| maps_distance := (Math.round (mockDistance * Num 100) / Num 100)%js;
     maps_duration := mockDuration;
     maps_status := "OK" |}.

(** *** models/Ride.js: the virtual actualDuration

    Dates are milliseconds; a Date is truthy, null is not; [None] is the
    null the getter returns. *)
Definition actualDuration (r : Ride) : option Number :=
  match rideStartTime r, rideEndTime r with
  | Some s, Some e =>
      Some (Math.ceil (Num (IZR (e - s)) / (Num 1000 * Num 60))%js)
  | _, _ => None
  end.

(** *** routes/rides.js: the routes that read *)

(** [.sort({ createdAt: -1 })]: newest first; rides created at the same
    instant keep the order of the collection. *)
Fixpoint insert_by_createdAt (r : Ride) (sorted : list Ride) : list Ride :=
  match sorted with
  | [] => [r]
  | x :: rest =>
      if Z.leb (createdAt x) (createdAt r) then r :: x :: rest
      else x :: insert_by_createdAt r rest
  end.

Definition sort_createdAt_desc (l : list Ride) : list Ride :=
  fold_right insert_by_createdAt [] l.

Record Pagination : Type := {
  currentPage : Number;
  totalPages : Number;
  totalRides : Number;
  hasNextPage : bool;
  hasPrevPage : bool
}.

(** The responses of the reading routes, by what they carry. *)
Inductive ReadResponse : Type :=
| RideRetrieved (message : string) (ride : Ride)
| ReadNotFound (message : string)
| HistoryRetrieved (rides : list Ride) (pagination : Pagination).

(** GET /rides/:id/status *)
Definition getRideStatus (user id : nat) (db : Store) : ReadResponse :=
  match findOne (fun r => Nat.eqb (_id r) id && Nat.eqb (userId r) user) db with
  | None => ReadNotFound "Ride not found"
  | Some ride => RideRetrieved "Ride status retrieved successfully" ride
  end.

(** GET /rides/active *)
Definition getActiveRide (user : nat) (db : Store) : ReadResponse :=
  match sort_createdAt_desc
          (filter (fun r => Nat.eqb (userId r) user &&
                            status_in active_statuses (status r)) db) with
  | [] => ReadNotFound "No active ride found"
  | activeRide :: _ =>
      RideRetrieved "Active ride retrieved successfully" activeRide
  end.

(** The query of GET /rides/history: the rider, and the status when the
    request names one (the empty string is falsy). *)
Definition history_query (user : nat) (status_filter : option string) (r : Ride)
  : bool :=
  Nat.eqb (userId r) user &&
  match status_filter with
  | Some s => if nonempty s then String.eqb (status_name (status r)) s else true
  | None => true
  end.

(** GET /rides/history, for [page] and [limit] that parse to positive
    integers; [None] is an absent parameter, which takes the default 1
    or 10. *)
Definition getRideHistory (user : nat) (page limit : option positive)
    (status_filter : option string) (db : Store) : ReadResponse :=
  let page := Pos.to_nat (match page with Some p => p | None => 1%positive end) in
  let limit := Pos.to_nat (match limit with Some l => l | None => 10%positive end) in
  let skip := ((page - 1) * limit)%nat in
  let rides :=
    firstn limit
      (skipn skip
         (sort_createdAt_desc (filter (history_query user status_filter) db))) in
  let totalRides := List.length (filter (history_query user status_filter) db) in
  let totalPages := Math.ceil (Num (INR totalRides) / Num (INR limit))%js in
  HistoryRetrieved rides
    {| currentPage := Num (INR page);
       totalPages := totalPages;
       totalRides := Num (INR totalRides);
       hasNextPage := JsNum.ltb (Num (INR page)) totalPages;
       hasPrevPage := JsNum.ltb (Num 1) (Num (INR page)) |}.

(** *** Notions used by the further statements *)

(** The rider a command acts for. *)
Definition command_user (c : Command) : nat :=
  match c with
  | Book user _ => user
  | UpdateDestination user _ _ => user
  | Cancel user _ _ => user
  end.

(** The query of GET /rides/estimate for the trip of a booking. *)
Definition estimate_query_of (b : BookingBody) : EstimateQuery :=
  {| fromLat := latitude (coordinates (body_pickupLocation b));
     fromLng := longitude (coordinates (body_pickupLocation b));
     toLat := latitude (coordinates (body_dropLocation b));
     toLng := longitude (coordinates (body_dropLocation b));
     fromAddress := address (body_pickupLocation b);
     toAddress := address (body_dropLocation b);
     query_rideType := body_rideType b |}.

Definition set_query_rideType (t : option string) (q : EstimateQuery)
  : EstimateQuery :=
  {| fromLat := fromLat q; fromLng := fromLng q;
     toLat := toLat q; toLng := toLng q;
     fromAddress := fromAddress q; toAddress := toAddress q;
     query_rideType := t |}.

(** The minutes both the quote and the second pre-save hook compute. *)
Definition duration_of (distance : Number) : Number :=
  Math.ceil ((distance / Num 30) * Num 60)%js.

(** The fields no rider request assigns. *)
Definition immutable_fields (r r' : Ride) : Prop :=
  _id r' = _id r /\ userId r' = userId r /\ driverId r' = driverId r /\
  pickupLocation r' = pickupLocation r /\
  originalDropLocation r' = originalDropLocation r /\
  paymentStatus r' = paymentStatus r /\ paymentMethod r' = paymentMethod r /\
  rideStartTime r' = rideStartTime r /\ rideEndTime r' = rideEndTime r /\
  rating r' = rating r /\ notes r' = notes r /\ createdAt r' = createdAt r.

(** The fields of the trip. *)
Definition trip_fields_kept (r r' : Ride) : Prop :=
  dropLocation r' = dropLocation r /\ distance r' = distance r /\
  fare r' = fare r /\ estimatedDuration r' = estimatedDuration r.

(** One write of a rider request to a stored ride: a destination update
    of an accepted or started ride, or the cancellation of a pending or
    accepted one. *)
Definition rider_write (r r' : Ride) : Prop :=
  immutable_fields r r' /\
  ((status_in [accepted; started] (status r) = true /\ status r' = status r /\
    cancellationReason r' = cancellationReason r /\
    cancelledBy r' = cancelledBy r) \/
   (status_in [pending; accepted] (status r) = true /\ status r' = cancelled /\
    trip_fields_kept r r')).

(** What any number of such writes can make of a ride. *)
Definition ride_evolves (r r' : Ride) : Prop :=
  immutable_fields r r' /\
  (status r' = status r \/
   (status_in [pending; accepted] (status r) = true /\ status r' = cancelled)) /\
  (status r = pending -> trip_fields_kept r r') /\
  (status_in [completed; cancelled] (status r) = true -> r' = r).

(** A stored ride whose numbers fit its locations: both locations pass
    the validators of the routes, the distance is the one of
    calculateDistance between them and is a number, and the fare is the
    one of calculateFare for that distance in one of the three
    categories. *)
Definition ride_consistent (env : Number) (r : Ride) : Prop :=
  validate_body_location (pickupLocation r) = true /\
  validate_body_location (dropLocation r) = true /\
  distance r =
    calculateDistance
      (latitude (coordinates (pickupLocation r)))
      (longitude (coordinates (pickupLocation r)))
      (latitude (coordinates (dropLocation r)))
      (longitude (coordinates (dropLocation r))) /\
  castable (distance r) = true /\
  exists c : RideCategory,
    baseFare (fare r) =
      fb_baseFare (calculateFare env (distance r) (Some (category_name c))) /\
    totalFare (fare r) =
      fb_totalFare (calculateFare env (distance r) (Some (category_name c))).

Definition ride_amounts_bounded (r : Ride) : Prop :=
  exists d,
    distance r = Num d /\ 0 <= d <= 20015.09 /\
    JsNum.le (Num 80) (baseFare (fare r)) /\
    JsNum.le (Num 94.4) (totalFare (fare r)).

(** The distance of the trip a booking asks for, and of the trip a ride
    becomes under a new destination. *)
Definition booking_distance (b : BookingBody) : Number :=
  calculateDistance
    (latitude (coordinates (body_pickupLocation b)))
    (longitude (coordinates (body_pickupLocation b)))
    (latitude (coordinates (body_dropLocation b)))
    (longitude (coordinates (body_dropLocation b))).


(** The rides of a page, and the order of a page. *)
Definition page_rides (resp : ReadResponse) : list Ride :=
  match resp with
  | HistoryRetrieved rides _ => rides
  | _ => []
  end.

Definition newest_first (l : list Ride) : Prop :=
  StronglySorted (fun a b => (createdAt b <= createdAt a)%Z) l.

(** *** Further sample requests and rides *)

(** A request to GET /rides/estimate with a ride type the booking
    validator would refuse. *)
Definition suv_query : EstimateQuery :=
  {| fromLat := Num 19.0760; fromLng := Num 72.8777;
     toLat := Num 19.0896; toLng := Num 72.8656;
     fromAddress := "Bandra West, Mumbai"; toAddress := "Andheri East, Mumbai";
     query_rideType := Some "suv"%string |}.

(** A location whose latitude did not parse. *)
Definition unlocated : Location :=
  {| address := "Somewhere";
     coordinates := {| latitude := NaN; longitude := Num 72.8777 |} |}.

(** The sample ride once a driver has accepted it, and once it is over. *)
Definition accepted_testRide : Ride := set_status accepted pending_testRide.

Definition completed_testRide : Ride := set_status completed pending_testRide.




(** A second ride of the same rider, booked later. *)
Definition later_ride : Ride :=
  set_timestamps 5000 5000
    (history_push (created_entry 5000) (booking_ride NaN 2 7 luxury_booking)).

(** ** The fare calculator over binary64

    The numbers of the engine are IEEE 754 doubles.  This module
    translates utils/fareCalculator.js a second time, operation for
    operation, over binary64 floats: [+], [-], [*], [/] and the square
    root round to nearest, ties to even, as in the engine; infinities,
    signed zeros and NaN are those of the format.  ECMAScript leaves the
    last digits of Math.sin, Math.cos and Math.atan2 to the engine:
    calculateDistance and estimateFare take the three functions as
    parameters.  The module is where the exact reading of the sections
    above and the doubles part ways: on ties of the rounding to
    hundredths, on overflow, and between points that are nearly
    antipodal. *)

Module Binary64.

Import Floats.

Local Open Scope float_scope.

Definition two52 : float := 0x1p+52.

(** [Math.floor]: below 2^52 in magnitude, adding and subtracting 2^52
    rounds to a neighbouring integer; from 2^52 on every double is an
    integer. *)
Definition floor (x : float) : float :=
  if PrimFloat.is_nan x then x
  else if two52 <=? PrimFloat.abs x then x
  else if 0 <=? x then
    let t := (x + two52) - two52 in
    if x <? t then t - 1 else t
  else
    let t := (x - two52) + two52 in
    if x <? t then t - 1 else t.

(** [Math.ceil]. *)
Definition ceil (x : float) : float := - floor (- x).

(** [Math.round]: the nearest integer, a tie going towards +infinity. *)
Definition round (x : float) : float :=
  let c := ceil x in
  if c - 0.5 <=? x then c else c - 1.

(** [Math.PI], the double nearest to pi. *)
Definition PI : float := 0x1.921fb54442d18p+1.

(** ToBoolean on a number. *)
Definition truthy (x : float) : bool :=
  negb (PrimFloat.is_nan x || PrimFloat.is_zero x).

(** [a || d] on numbers. *)
Definition or_else (a d : float) : float := if truthy a then a else d.

(** What a lookup in the table of multipliers can return: a number of
    the table, nothing, or a member of Object.prototype. *)
Inductive Value : Type :=
| VNumber (x : float)
| VUndefined
| VInherited (name : string).

Definition toBoolean (v : Value) : bool :=
  match v with
  | VNumber x => truthy x
  | VUndefined => false
  | VInherited _ => true
  end.

Definition toNumber (v : Value) : float :=
  match v with
  | VNumber x => x
  | VUndefined => nan
  | VInherited _ => nan
  end.

Definition js_or (v d : Value) : Value := if toBoolean v then v else d.

Definition rideTypeMultipliers : list (string * float) :=
  [ ("economy"%string, 1.0); ("premium"%string, 1.5); ("luxury"%string, 2.0) ].

Fixpoint own_property (props : list (string * float)) (key : string)
  : option float :=
  match props with
  | [] => None
  | (k, v) :: rest => if String.eqb k key then Some v else own_property rest key
  end.

Definition get_property (props : list (string * float)) (key : string) : Value :=
  match own_property props key with
  | Some v => VNumber v
  | None =>
      if mem_string key Object_prototype_keys then VInherited key
      else VUndefined
  end.

Record Coordinates : Type := {
  latitude : float;
  longitude : float
}.

Record Location : Type := {
  address : string;
  coordinates : Coordinates
}.

Record FareBreakdown : Type := {
  fb_baseFare : float;
  fb_gst : float;
  fb_totalFare : float;
  fb_distance : float;
  fb_farePerKm : float;
  fb_rideType : string
}.

Record FareEstimate : Type := {
  fareBreakdown : FareBreakdown;
  estimatedTime : float;
  fe_pickup : string;
  fe_drop : string
}.

Definition toRadians (degrees : float) : float := degrees * (PI / 180).

(** [FARE_PER_KM] is [parseFloat(process.env.FARE_PER_KM)], NaN when the
    variable is not set. *)
Definition calculateFare (FARE_PER_KM : float) (distance : float)
    (rideType : option string) : FareBreakdown :=
  let rideType := with_default rideType "economy"%string in
  let farePerKm := or_else FARE_PER_KM 15 in
  let baseFare := 50 in
  let minimumFare := 80 in
  let multiplier :=
    js_or (get_property rideTypeMultipliers rideType) (VNumber 1.0) in
  let calculatedFare := baseFare + (distance * farePerKm * toNumber multiplier) in
  let calculatedFare :=
    if calculatedFare <? minimumFare then minimumFare else calculatedFare in
  let gst := calculatedFare * 0.18 in
  let totalFare := calculatedFare + gst in
  {| fb_baseFare := round (calculatedFare * 100) / 100;
     fb_gst := round (gst * 100) / 100;
     fb_totalFare := round (totalFare * 100) / 100;
     fb_distance := distance;
     fb_farePerKm := farePerKm;
     fb_rideType := rideType |}.

(** Both arguments are doubles here, so the two [typeof] tests hold. *)
Definition validateCoordinates (latitude longitude : float) : bool :=
  (-90 <=? latitude) && (latitude <=? 90) &&
  (-180 <=? longitude) && (longitude <=? 180).

Section Runtime.

Variables Math_sin Math_cos : float -> float.
Variable Math_atan2 : float -> float -> float.

Definition calculateDistance (lat1 lon1 lat2 lon2 : float) : float :=
  let R := 6371 in
  let dLat := toRadians (lat2 - lat1) in
  let dLon := toRadians (lon2 - lon1) in
  let a :=
    Math_sin (dLat / 2) * Math_sin (dLat / 2) +
    Math_cos (toRadians lat1) * Math_cos (toRadians lat2) *
    Math_sin (dLon / 2) * Math_sin (dLon / 2) in
  let c := 2 * Math_atan2 (PrimFloat.sqrt a) (PrimFloat.sqrt (1 - a)) in
  let distance := R * c in
  round (distance * 100) / 100.

Definition estimateFare (FARE_PER_KM : float) (pickup drop : Location)
    (rideType : option string) : FareEstimate :=
  let rideType := with_default rideType "economy"%string in
  let distance :=
    calculateDistance
      (latitude (coordinates pickup)) (longitude (coordinates pickup))
      (latitude (coordinates drop)) (longitude (coordinates drop)) in
  let fareBreakdown := calculateFare FARE_PER_KM distance (Some rideType) in
  let estimatedTime := ceil ((distance / 30) * 60) in
  {| fareBreakdown := fareBreakdown;
     estimatedTime := estimatedTime;
     fe_pickup := address pickup;
     fe_drop := address drop |}.

End Runtime.

(** *** A sample of the runtime

    The values of Math.sin, Math.cos and Math.atan2 at the arguments the
    sample trips below reach, each the double nearest to the exact value;
    NaN stands for every argument outside the sample. *)

Definition sin_samples : list (float * float) :=
  [ (0, 0);
    (0x1.d01db170563c7p-14, 0x1.d01db160725a9p-14);
    (0x1.0b1ac794fdf20p-12, 0x1.0b1ac76487576p-12);
    (0x1.3ec8480bbbd67p-10, 0x1.3ec842e590341p-10);
    (0x1.6e6127ff9d971p+0, 0x1.fb046a930947ap-1);
    (0x1.921fb54442d18p+0, 1) ].

Definition cos_samples : list (float * float) :=
  [ (0, 1);
    (0x1.6e6127ff9d971p+0, 0x1.1d06c968d9e1ap-3);
    (-0x1.6e6127ff9d971p+0, 0x1.1d06c968d9e1ap-3) ].

Definition atan2_samples : list (float * float * float) :=
  [ (0x1.d01db160725a9p-14, 0x1.ffffffcb69459p-1, 0x1.d01db170563c8p-14);
    (0x1.0b1ac76487576p-12, 0x1.fffffee94f210p-1, 0x1.0b1ac794fdf20p-12);
    (0x1.3ec842e590341p-10, 0x1.ffffe7309d387p-1, 0x1.3ec8480bbbd67p-10) ].

Fixpoint sampled (table : list (float * float)) (x : float) : float :=
  match table with
  | [] => nan
  | (k, v) :: rest => if k =? x then v else sampled rest x
  end.

Fixpoint sampled2 (table : list (float * float * float)) (y x : float) : float :=
  match table with
  | [] => nan
  | (ky, kx, v) :: rest =>
      if (ky =? y) && (kx =? x) then v else sampled2 rest y x
  end.

Definition sampled_sin : float -> float := sampled sin_samples.
Definition sampled_cos : float -> float := sampled cos_samples.
Definition sampled_atan2 : float -> float -> float := sampled2 atan2_samples.




End Binary64.

(** * Proofs *)

(** Closes a goal that is one of the equations of a [hooks_frame]
    hypothesis. *)
Ltac by_frame F := solve [unfold hooks_frame in F; cbn in F; intuition].

(** ** Rounding *)

Lemma floor_bounds x : Math.floor x <= x < Math.floor x + 1.
Proof.
  unfold Math.floor. destruct (base_Int_part x) as [H1 H2]. lra.
Qed.

Lemma floor_unique x z : IZR z <= x < IZR z + 1 -> Math.floor x = IZR z.
Proof.
  intros [H1 H2]. unfold Math.floor. f_equal. symmetry.
  apply Int_part_spec. lra.
Qed.

Lemma floor_mono x y : x <= y -> Math.floor x <= Math.floor y.
Proof.
  intros H. unfold Math.floor.
  destruct (base_Int_part x) as [H1 H2]. destruct (base_Int_part y) as [H3 H4].
  apply IZR_le. apply Z.lt_succ_r. apply lt_IZR. rewrite succ_IZR. lra.
Qed.

Lemma floor_IZR z : Math.floor (IZR z) = IZR z.
Proof. apply floor_unique. lra. Qed.

Lemma round2_up_mono x y : x <= y -> round2_up x <= round2_up y.
Proof.
  intros H. unfold round2_up.
  assert (Math.floor (x * 100 + / 2) <= Math.floor (y * 100 + / 2))
    by (apply floor_mono; lra).
  lra.
Qed.


Lemma round2_up_0 : round2_up 0 = 0.
Proof.
  unfold round2_up. rewrite (floor_unique (0 * 100 + / 2) 0); lra.
Qed.

Lemma round2_up_nonneg_val x : 0 <= x -> 0 <= round2_up x.
Proof.
  intros H. unfold round2_up.
  assert (Hf : Math.floor 0 <= Math.floor (x * 100 + / 2))
    by (apply floor_mono; lra).
  change 0 with (IZR 0) in Hf at 1. rewrite floor_IZR in Hf. lra.
Qed.




(** ** Coordinates and distance *)

Lemma isFloat_intro lo hi x : lo <= x <= hi -> isFloat lo hi (Num x) = true.
Proof.
  intros H. unfold isFloat. cbn.
  destruct (Rle_dec lo x); [|lra]. destruct (Rle_dec x hi); [|lra]. reflexivity.
Qed.

Lemma isFloat_true lo hi n :
  isFloat lo hi n = true -> exists x, n = Num x /\ lo <= x <= hi.
Proof.
  unfold isFloat. destruct n as [x|]; cbn; [|discriminate].
  destruct (Rle_dec lo x); [|discriminate]. destruct (Rle_dec x hi); [|discriminate].
  intros _. exists x. split; [reflexivity|lra].
Qed.

Lemma validateCoordinates_intro x y :
  -90 <= x <= 90 -> -180 <= y <= 180 -> validateCoordinates (Num x) (Num y) = true.
Proof.
  intros Hx Hy. unfold validateCoordinates, JsNum.geb. cbn.
  repeat match goal with
         | |- context [Rle_dec ?a ?b] => destruct (Rle_dec a b); [|lra]
         end.
  reflexivity.
Qed.

Lemma validateCoordinates_true lat lng :
  validateCoordinates lat lng = true ->
  exists x y, lat = Num x /\ lng = Num y /\ -90 <= x <= 90 /\ -180 <= y <= 180.
Proof.
  unfold validateCoordinates, JsNum.geb, JsNum.leb.
  destruct lat as [x|], lng as [y|]; cbn; try discriminate.
  - repeat match goal with |- context [Rle_dec ?a ?b] => destruct (Rle_dec a b) end;
      cbn; try discriminate.
    intros _. exists x, y. repeat split; lra.
  - repeat match goal with |- context [Rle_dec ?a ?b] => destruct (Rle_dec a b) end;
      cbn; discriminate.
Qed.

Lemma atan2R_nonneg y x : 0 <= y -> 0 <= x -> 0 <= Math.atan2R y x <= PI / 2.
Proof.
  intros Hy Hx. unfold Math.atan2R.
  pose proof PI_RGT_0.
  destruct (Rlt_dec 0 x).
  - destruct (atan_bound (y / x)).
    split; [|lra].
    destruct (Req_dec y 0) as [->|Hne].
    + rewrite Rdiv_0_l, atan_0. lra.
    + rewrite <- atan_0. left. apply atan_increasing.
      apply Rdiv_lt_0_compat; lra.
  - destruct (Rlt_dec x 0); [lra|].
    destruct (Rlt_dec 0 y); [lra|].
    destruct (Rlt_dec y 0); lra.
Qed.

Lemma cos_rad_nonneg x : -90 <= x <= 90 -> 0 <= cos (rad x).
Proof.
  intros H. pose proof PI_RGT_0. apply cos_ge_0; unfold rad; nra.
Qed.

(** The haversine term lies in [0, 1] as soon as the two cosines have the
    same sign, so neither square root of calculateDistance is NaN. *)
Lemma hav_le_1 x y s : 0 <= cos x * cos y -> 0 <= s <= 1 ->
  sin ((y - x) / 2) * sin ((y - x) / 2) + cos x * cos y * s <= 1.
Proof.
  intros Hc Hs.
  set (p := (y - x) / 2). set (q := (y + x) / 2).
  assert (Hx : x = q - p) by (unfold p, q; field).
  assert (Hy : y = q + p) by (unfold p, q; field).
  assert (Hprod : cos x * cos y = cos q * cos q * (cos p * cos p) - sin q * sin q * (sin p * sin p)).
  { rewrite Hx, Hy. rewrite cos_minus, cos_plus. ring. }
  pose proof (sin2_cos2 p) as Hp. pose proof (sin2_cos2 q) as Hq.
  unfold Rsqr in Hp, Hq.
  assert (cos x * cos y * s <= cos x * cos y) by nra.
  assert (0 <= cos q * cos q) by nra.
  assert (0 <= sin q * sin q) by nra.
  assert (0 <= sin p * sin p) by nra.
  nra.
Qed.

Lemma haversine_a_bounds lat1 lon1 lat2 lon2 :
  0 <= cos (rad lat1) * cos (rad lat2) ->
  0 <= haversine_a lat1 lon1 lat2 lon2 <= 1.
Proof.
  intros Hc. unfold haversine_a.
  replace (rad (lat2 - lat1)) with (rad lat2 - rad lat1)
    by (unfold rad; ring).
  pose proof (sin2_cos2 (rad (lon2 - lon1) / 2)) as E. unfold Rsqr in E.
  remember (sin (rad (lon2 - lon1) / 2)) as s.
  remember (cos (rad (lon2 - lon1) / 2)) as u.
  assert (Hs : 0 <= s * s <= 1) by nra.
  pose proof (hav_le_1 (rad lat1) (rad lat2) (s * s) Hc Hs) as Hle.
  remember (sin ((rad lat2 - rad lat1) / 2)) as t.
  remember (cos (rad lat1) * cos (rad lat2)) as k.
  split.
  - assert (0 <= t * t) by nra. assert (0 <= k * (s * s)) by nra. nra.
  - nra.
Qed.

Lemma calculateDistance_Num lat1 lon1 lat2 lon2 :
  0 <= cos (rad lat1) * cos (rad lat2) ->
  calculateDistance (Num lat1) (Num lon1) (Num lat2) (Num lon2) =
  Num (round2_up (haversine_km lat1 lon1 lat2 lon2)).
Proof.
  intros Hc.
  destruct (haversine_a_bounds lat1 lon1 lat2 lon2 Hc) as [H0 H1].
  unfold calculateDistance, toRadians, Math.PI. cbn.
  fold (rad (lat2 - lat1)) (rad (lon2 - lon1)) (rad lat1) (rad lat2).
  fold (haversine_a lat1 lon1 lat2 lon2).
  destruct (Rlt_dec (haversine_a lat1 lon1 lat2 lon2) 0); [lra|].
  destruct (Rlt_dec (1 - haversine_a lat1 lon1 lat2 lon2) 0); [lra|].
  cbn. reflexivity.
Qed.

Lemma haversine_km_nonneg lat1 lon1 lat2 lon2 :
  0 <= cos (rad lat1) * cos (rad lat2) ->
  0 <= haversine_km lat1 lon1 lat2 lon2.
Proof.
  intros Hc. unfold haversine_km.
  destruct (haversine_a_bounds lat1 lon1 lat2 lon2 Hc) as [H0 H1].
  destruct (atan2R_nonneg (sqrt (haversine_a lat1 lon1 lat2 lon2))
              (sqrt (1 - haversine_a lat1 lon1 lat2 lon2))) as [Ha _].
  - apply sqrt_pos.
  - apply sqrt_pos.
  - cbv zeta. nra.
Qed.

Lemma valid_distance a b :
  validateCoordinates (latitude a) (longitude a) = true ->
  validateCoordinates (latitude b) (longitude b) = true ->
  exists d, calculateDistance (latitude a) (longitude a) (latitude b) (longitude b) = Num d
            /\ 0 <= d.
Proof.
  intros Ha Hb.
  apply validateCoordinates_true in Ha, Hb.
  destruct Ha as (x1 & y1 & -> & -> & Hx1 & _), Hb as (x2 & y2 & -> & -> & Hx2 & _).
  assert (Hc : 0 <= cos (rad x1) * cos (rad x2)).
  { apply Rmult_le_pos; apply cos_rad_nonneg; assumption. }
  eexists. split; [apply calculateDistance_Num; exact Hc|].
  apply round2_up_nonneg_val, haversine_km_nonneg, Hc.
Qed.


Lemma haversine_a_diag lat lon : haversine_a lat lon lat lon = 0.
Proof.
  unfold haversine_a.
  replace (rad (lat - lat) / 2) with 0 by (unfold rad; field).
  replace (rad (lon - lon) / 2) with 0 by (unfold rad; field).
  rewrite sin_0. ring.
Qed.

Lemma haversine_km_diag lat lon : haversine_km lat lon lat lon = 0.
Proof.
  unfold haversine_km. rewrite haversine_a_diag.
  replace (1 - 0) with 1 by ring. rewrite sqrt_0, sqrt_1.
  unfold Math.atan2R. destruct (Rlt_dec 0 1); [|lra].
  rewrite Rdiv_0_l, atan_0. ring.
Qed.

Lemma calculateDistance_diag lat lon :
  -90 <= lat <= 90 ->
  calculateDistance (Num lat) (Num lon) (Num lat) (Num lon) = Num 0.
Proof.
  intros H. pose proof (cos_rad_nonneg lat H) as C.
  rewrite calculateDistance_Num by (apply Rmult_le_pos; assumption).
  rewrite haversine_km_diag, round2_up_0. reflexivity.
Qed.



(** Half of the equator, from 0E to 180E. *)
Lemma haversine_km_half_equator : haversine_km 0 0 0 180 = 6371 * PI.
Proof.
  unfold haversine_km.
  assert (Ha : haversine_a 0 0 0 180 = 1).
  { unfold haversine_a.
    replace (rad (0 - 0) / 2) with 0 by (unfold rad; field).
    replace (rad 0) with 0 by (unfold rad; field).
    replace (rad (180 - 0) / 2) with (PI / 2) by (unfold rad; field).
    rewrite sin_0, cos_0, sin_PI2. ring. }
  rewrite Ha. replace (1 - 1) with 0 by ring. rewrite sqrt_1, sqrt_0.
  unfold Math.atan2R.
  destruct (Rlt_dec 0 0); [lra|]. destruct (Rlt_dec 0 1); [|lra]. field.
Qed.

(** PI to seven decimals, from the series of 2 atan (1/3) + atan (1/7). *)
Lemma PI_bounds : 3.1415926 < PI < 3.1415927.
Proof.
  pose proof (PI_2_3_7_ineq 6) as [Hlo Hhi].
  unfold sum_f_R0, tg_alt, PI_2_3_7_tg, Ratan_seq in Hlo, Hhi.
  simpl in Hlo, Hhi. lra.
Qed.

Lemma distance_half_equator_value :
  calculateDistance (Num 0) (Num 0) (Num 0) (Num 180) = Num 20015.09.
Proof.
  rewrite calculateDistance_Num.
  - rewrite haversine_km_half_equator. unfold round2_up.
    pose proof PI_bounds.
    rewrite (floor_unique _ 2001509) by lra. apply f_equal. lra.
  - replace (rad 0) with 0 by (unfold rad; field). rewrite cos_0. lra.
Qed.

(** ** Fares *)

Lemma or_else_rate env : JsNum.or_else env (Num 15) = Num (farePerKmRate env).
Proof.
  destruct env as [r|]; cbn; [|reflexivity].
  unfold JsNum.or_else; cbn. destruct (Req_dec_T r 0); reflexivity.
Qed.

Lemma multiplier_lookup c :
  js_or (get_property rideTypeMultipliers (category_name c)) (JNumber (Num 1.0))
  = JNumber (Num (multiplier c)).
Proof.
  destruct c; cbn; unfold js_or; cbn;
    match goal with |- context [Req_dec_T ?a ?b] => destruct (Req_dec_T a b) end;
    try reflexivity; exfalso; lra.
Qed.

Lemma clamp_Rmax x :
  (if JsNum.ltb (Num x) (Num 80) then Num 80 else Num x) = Num (Rmax x 80).
Proof.
  cbn. unfold Rmax. destruct (Rlt_dec x 80), (Rle_dec x 80); try reflexivity; try lra.
  f_equal. lra.
Qed.

Lemma calculateFare_category env d c :
  calculateFare env (Num d) (Some (category_name c)) =
  let adjusted := adjustedFare (farePerKmRate env) d (multiplier c) in
  {| fb_baseFare := Num (round2_up adjusted);
     fb_gst := Num (round2_up (adjusted * 0.18));
     fb_totalFare := Num (round2_up (adjusted + adjusted * 0.18));
     fb_distance := Num d;
     fb_farePerKm := Num (farePerKmRate env);
     fb_rideType := category_name c |}.
Proof.
  unfold calculateFare.
  cbn [with_default]. rewrite or_else_rate, multiplier_lookup.
  cbn [toNumber JsNum.mul JsNum.add JsNum.lift2].
  rewrite clamp_Rmax. cbn.
  unfold adjustedFare, round2_up. reflexivity.
Qed.

Lemma adjustedFare_ge rate d m : 80 <= adjustedFare rate d m.
Proof. unfold adjustedFare. apply Rmax_r. Qed.

Lemma multiplier_pos c : 0 < multiplier c.
Proof. destruct c; cbn; lra. Qed.

Lemma adjustedFare_mono_multiplier rate d m1 m2 :
  0 < m1 <= m2 -> adjustedFare rate d m1 <= adjustedFare rate d m2.
Proof.
  intros Hm. unfold adjustedFare. generalize (d * rate). intros k.
  apply Rmax_lub; [|apply Rmax_r].
  destruct (Rle_dec 0 k) as [Hk|Hk].
  - apply Rle_trans with (50 + k * m2); [nra|apply Rmax_l].
  - apply Rle_trans with 80; [nra|apply Rmax_r].
Qed.

Lemma adjustedFare_mono_distance rate d1 d2 m :
  0 < m -> 0 <= d1 <= d2 -> adjustedFare rate d1 m <= adjustedFare rate d2 m.
Proof.
  intros Hm Hd. unfold adjustedFare.
  apply Rmax_lub; [|apply Rmax_r].
  destruct (Rle_dec 0 rate) as [Hr|Hr].
  - apply Rle_trans with (50 + d2 * rate * m); [|apply Rmax_l].
    assert (d1 * rate <= d2 * rate) by nra. nra.
  - apply Rle_trans with 80; [|apply Rmax_r].
    assert (d1 * rate <= 0) by nra. nra.
Qed.

(** The economy and luxury fares of that distance at the default rate. *)
Lemma economy_fare_half_equator :
  calculateFare NaN (Num 20015.09) (Some "economy"%string) =
  {| fb_baseFare := Num 300276.35; fb_gst := Num 54049.74;
     fb_totalFare := Num 354326.09; fb_distance := Num 20015.09;
     fb_farePerKm := Num 15; fb_rideType := "economy" |}.
Proof.
  rewrite (calculateFare_category NaN 20015.09 economy
           : calculateFare NaN (Num 20015.09) (Some "economy"%string) = _).
  cbv zeta. cbn [farePerKmRate multiplier category_name].
  unfold adjustedFare. rewrite Rmax_left by lra. unfold round2_up.
  rewrite (floor_unique _ 30027635) by lra.
  rewrite (floor_unique _ 5404974) by lra.
  rewrite (floor_unique _ 35432609) by lra.
  repeat f_equal; lra.
Qed.

Lemma luxury_fare_half_equator :
  calculateFare NaN (Num 20015.09) (Some "luxury"%string) =
  {| fb_baseFare := Num 600502.7; fb_gst := Num 108090.49;
     fb_totalFare := Num 708593.19; fb_distance := Num 20015.09;
     fb_farePerKm := Num 15; fb_rideType := "luxury" |}.
Proof.
  rewrite (calculateFare_category NaN 20015.09 luxury
           : calculateFare NaN (Num 20015.09) (Some "luxury"%string) = _).
  cbv zeta. cbn [farePerKmRate multiplier category_name].
  unfold adjustedFare. rewrite Rmax_left by lra. unfold round2_up.
  rewrite (floor_unique _ 60050270) by lra.
  rewrite (floor_unique _ 10809049) by lra.
  rewrite (floor_unique _ 70859319) by lra.
  repeat f_equal; lra.
Qed.

(** A worked quote, economy at 2.37 km and the default rate: fare 85.55,
    tax 15.40, total 100.95, and five minutes. *)
Example calculateFare_scenario :
  calculateFare NaN (Num 2.37) (Some "economy"%string) =
  {| fb_baseFare := Num 85.55; fb_gst := Num 15.4; fb_totalFare := Num 100.95;
     fb_distance := Num 2.37; fb_farePerKm := Num 15;
     fb_rideType := "economy" |}.
Proof.
  rewrite (calculateFare_category NaN 2.37 economy
           : calculateFare NaN (Num 2.37) (Some "economy"%string) = _).
  cbv zeta. cbn [farePerKmRate multiplier category_name].
  unfold adjustedFare. rewrite Rmax_left by lra.
  unfold round2_up.
  rewrite (floor_unique _ 8555) by lra.
  rewrite (floor_unique _ 1540) by lra.
  rewrite (floor_unique _ 10095) by lra.
  repeat f_equal; lra.
Qed.

Example estimatedTime_scenario :
  Math.ceil ((Num 2.37 / Num 30) * Num 60)%js = Num 5.
Proof.
  cbn. rewrite (floor_unique _ (-5)) by lra. f_equal. lra.
Qed.

Section Fares.

Variable env : Number.

Lemma estimateFare_category pickup drop c d :
  calculateDistance (latitude (coordinates pickup)) (longitude (coordinates pickup))
    (latitude (coordinates drop)) (longitude (coordinates drop)) = Num d ->
  estimateFare env pickup drop (Some (category_name c)) =
  {| fareBreakdown := calculateFare env (Num d) (Some (category_name c));
     estimatedTime := Num (- Math.floor (- (d / 30 * 60)));
     fe_pickup := address pickup;
     fe_drop := address drop |}.
Proof.
  intros Hd. unfold estimateFare. cbn [with_default]. rewrite Hd. reflexivity.
Qed.

Lemma totalFare_mono d1 d2 c1 c2 :
  adjustedFare (farePerKmRate env) d1 (multiplier c1) <=
  adjustedFare (farePerKmRate env) d2 (multiplier c2) ->
  JsNum.le (fb_totalFare (calculateFare env (Num d1) (Some (category_name c1))))
           (fb_totalFare (calculateFare env (Num d2) (Some (category_name c2)))).
Proof.
  intros H. rewrite !calculateFare_category. cbn.
  apply round2_up_mono. lra.
Qed.

Lemma estimate_castable pickup drop c :
  validateCoordinates (latitude (coordinates pickup))
    (longitude (coordinates pickup)) = true ->
  validateCoordinates (latitude (coordinates drop))
    (longitude (coordinates drop)) = true ->
  castable (calculateDistance
              (latitude (coordinates pickup)) (longitude (coordinates pickup))
              (latitude (coordinates drop)) (longitude (coordinates drop))) = true /\
  castable (fb_baseFare (fareBreakdown
              (estimateFare env pickup drop (Some (category_name c))))) = true /\
  castable (fb_totalFare (fareBreakdown
              (estimateFare env pickup drop (Some (category_name c))))) = true.
Proof.
  intros Hp Hd. destruct (valid_distance _ _ Hp Hd) as (d & Hdist & _).
  rewrite (estimateFare_category _ _ c d Hdist), Hdist, calculateFare_category.
  cbn. auto.
Qed.

(** A key found on Object.prototype is truthy, so [||] keeps it, and the
    product with it is NaN. *)
Lemma calculateFare_inherited d key :
  own_property rideTypeMultipliers key = None ->
  mem_string key Object_prototype_keys = true ->
  calculateFare env (Num d) (Some key) =
  {| fb_baseFare := NaN; fb_gst := NaN; fb_totalFare := NaN;
     fb_distance := Num d; fb_farePerKm := Num (farePerKmRate env);
     fb_rideType := key |}.
Proof.
  intros Hown Hinh. unfold calculateFare, get_property.
  cbn [with_default]. rewrite Hown, Hinh, or_else_rate. reflexivity.
Qed.

(** Any other unknown key is undefined and falls back to 1.0. *)
Lemma calculateFare_unknown d key :
  own_property rideTypeMultipliers key = None ->
  mem_string key Object_prototype_keys = false ->
  fb_baseFare (calculateFare env (Num d) (Some key)) =
    fb_baseFare (calculateFare env (Num d) (Some "economy"%string)) /\
  fb_gst (calculateFare env (Num d) (Some key)) =
    fb_gst (calculateFare env (Num d) (Some "economy"%string)) /\
  fb_totalFare (calculateFare env (Num d) (Some key)) =
    fb_totalFare (calculateFare env (Num d) (Some "economy"%string)).
Proof.
  intros Hown Hinh.
  assert (E : js_or (get_property rideTypeMultipliers key) (JNumber (Num 1.0)) =
              js_or (get_property rideTypeMultipliers "economy") (JNumber (Num 1.0))).
  { transitivity (JNumber (Num 1.0)).
    - unfold get_property. rewrite Hown, Hinh. reflexivity.
    - symmetry. exact (multiplier_lookup economy). }
  unfold calculateFare. cbn [with_default]. rewrite E. auto.
Qed.

Lemma calculateFare_omitted d :
  calculateFare env d None = calculateFare env d (Some "economy"%string).
Proof. reflexivity. Qed.

End Fares.

Lemma estimate_half_equator c :
  fareBreakdown (estimateFare NaN null_island date_line (Some (category_name c))) =
  calculateFare NaN (Num 20015.09) (Some (category_name c)).
Proof.
  rewrite (estimateFare_category NaN null_island date_line c 20015.09
             distance_half_equator_value).
  reflexivity.
Qed.

(** ** The document layer *)

Lemma status_eqb_eq a b : status_eqb a b = true <-> a = b.
Proof. destruct a, b; cbn; split; intros H; try reflexivity; discriminate. Qed.

Lemma hooks_frame_trans a b c :
  hooks_frame a b -> hooks_frame b c -> hooks_frame a c.
Proof. unfold hooks_frame. intuition congruence. Qed.

Lemma set_timestamps_frame c u r : hooks_frame r (set_timestamps c u r).
Proof. unfold hooks_frame. cbn. intuition reflexivity. Qed.

Lemma pre_save_duration_frame d :
  loaded (pre_save_duration d) = loaded d /\
  hooks_frame (doc d) (doc (pre_save_duration d)) /\
  history (doc (pre_save_duration d)) = history (doc d) /\
  createdAt (doc (pre_save_duration d)) = createdAt (doc d).
Proof.
  unfold pre_save_duration.
  destruct (isModified_distance d && JsNum.truthy (distance (doc d)));
    cbn; unfold hooks_frame; intuition reflexivity.
Qed.

Lemma pre_save_history_frame now d :
  loaded (pre_save_history now d) = loaded d /\
  hooks_frame (doc d) (doc (pre_save_history now d)) /\
  estimatedDuration (doc (pre_save_history now d)) = estimatedDuration (doc d) /\
  createdAt (doc (pre_save_history now d)) = createdAt (doc d).
Proof.
  unfold pre_save_history.
  destruct (isNew d); [|destruct (isModified_status d)];
    cbn; unfold hooks_frame; intuition reflexivity.
Qed.

Lemma pre_save_history_new now r :
  history (doc (pre_save_history now {| loaded := None; doc := r |})) =
  history r ++ [created_entry now].
Proof. reflexivity. Qed.

Lemma pre_save_history_existing now old cur :
  history (doc (pre_save_history now {| loaded := Some old; doc := cur |})) =
  history cur ++
    (if status_eqb (status old) (status cur) then []
     else [status_entry now (status cur)]).
Proof.
  unfold pre_save_history, isNew, isModified_status. cbn.
  destruct (status_eqb (status old) (status cur)); cbn.
  - now rewrite app_nil_r.
  - reflexivity.
Qed.

Lemma save_new now r db r' db' :
  save now {| loaded := None; doc := r |} db = Some (r', db') ->
  db' = db ++ [r'] /\ hooks_frame r r' /\
  history r' = history r ++ [created_entry now].
Proof.
  unfold save. destruct (validate _); [|discriminate].
  cbn [loaded]. intros H. injection H as <- <-.
  split; [reflexivity|].
  set (d0 := {| loaded := None; doc := r |}).
  destruct (pre_save_duration_frame (pre_save_history now d0)) as (_ & F2 & H2 & _).
  destruct (pre_save_history_frame now d0) as (_ & F1 & _).
  split.
  - eapply hooks_frame_trans; [|apply set_timestamps_frame].
    eapply hooks_frame_trans; [exact F1|exact F2].
  - cbn [history set_timestamps]. rewrite H2. apply pre_save_history_new.
Qed.

Lemma save_existing now old cur db r' db' :
  save now {| loaded := Some old; doc := cur |} db = Some (r', db') ->
  db' = update_by_id r' db /\ hooks_frame cur r' /\
  history r' = history cur ++
    (if status_eqb (status old) (status cur) then []
     else [status_entry now (status cur)]).
Proof.
  unfold save. destruct (validate _); [|discriminate].
  cbn [loaded]. intros H. injection H as <- <-.
  split; [reflexivity|].
  set (d0 := {| loaded := Some old; doc := cur |}).
  destruct (pre_save_duration_frame (pre_save_history now d0)) as (_ & F2 & H2 & _).
  destruct (pre_save_history_frame now d0) as (_ & F1 & _).
  split.
  - eapply hooks_frame_trans; [|apply set_timestamps_frame].
    eapply hooks_frame_trans; [exact F1|exact F2].
  - cbn [history set_timestamps]. rewrite H2. apply pre_save_history_existing.
Qed.

Lemma save_succeeds now d db :
  validate d = true -> exists r' db', save now d db = Some (r', db').
Proof.
  intros H. unfold save. rewrite H. destruct (loaded d); eauto.
Qed.

(** ** The routes *)

Lemma validate_body_location_intro addr x y :
  nonempty addr = true -> -90 <= x <= 90 -> -180 <= y <= 180 ->
  validate_body_location
    {| address := addr;
       coordinates := {| latitude := Num x; longitude := Num y |} |} = true.
Proof.
  intros Ha Hx Hy. unfold validate_body_location.
  cbn [address coordinates latitude longitude].
  rewrite Ha, !isFloat_intro by assumption. reflexivity.
Qed.

Lemma validate_body_location_coordinates l :
  validate_body_location l = true ->
  nonempty (address l) = true /\
  validateCoordinates (latitude (coordinates l)) (longitude (coordinates l)) = true.
Proof.
  unfold validate_body_location. intros H.
  apply andb_true_iff in H. destruct H as [H Hlng].
  apply andb_true_iff in H. destruct H as [Haddr Hlat].
  apply isFloat_true in Hlat, Hlng.
  destruct Hlat as (x & -> & Hx), Hlng as (y & -> & Hy).
  split; [exact Haddr|]. now apply validateCoordinates_intro.
Qed.

Lemma known_rideType t :
  mem_string t ["economy"; "premium"; "luxury"]%string = true ->
  exists c, t = category_name c.
Proof.
  cbn [mem_string]. intros H.
  destruct (String.eqb "economy" t) eqn:E1.
  { apply String.eqb_eq in E1. exists economy. now subst. }
  destruct (String.eqb "premium" t) eqn:E2.
  { apply String.eqb_eq in E2. exists premium. now subst. }
  destruct (String.eqb "luxury" t) eqn:E3.
  { apply String.eqb_eq in E3. exists luxury. now subst. }
  discriminate.
Qed.

Lemma booking_rideType b :
  validateRideBooking b = true ->
  exists c, with_default (body_rideType b) "economy"%string = category_name c.
Proof.
  unfold validateRideBooking. intros H. apply andb_true_iff in H. destruct H as [_ H].
  destruct (body_rideType b) as [t|]; cbn.
  - now apply known_rideType.
  - exists economy. reflexivity.
Qed.

Lemma findOne_Some q db r : findOne q db = Some r -> In r db /\ q r = true.
Proof. apply find_some. Qed.

Lemma find_exists {A} (p : A -> bool) l x :
  In x l -> p x = true -> exists y, find p l = Some y.
Proof.
  intros Hin Hp. destruct (find p l) as [y|] eqn:E; [eauto|].
  rewrite (find_none p l E x Hin) in Hp. discriminate.
Qed.

Lemma find_none_intro {A} (p : A -> bool) l :
  (forall x, In x l -> p x = false) -> find p l = None.
Proof.
  intros H. destruct (find p l) as [y|] eqn:E; [|reflexivity].
  apply find_some in E. destruct E as [Hin Hp].
  rewrite (H y Hin) in Hp. discriminate.
Qed.

Lemma findOne_active_None user db :
  findOne (fun r => Nat.eqb (userId r) user &&
                    status_in active_statuses (status r)) db = None ->
  active_rides_of user db = [].
Proof.
  unfold findOne, active_rides_of, is_active.
  induction db as [|r db IH]; cbn [find filter]; [reflexivity|].
  destruct (Nat.eqb (userId r) user && status_in active_statuses (status r));
    [discriminate|exact IH].
Qed.

Lemma active_rides_of_nil_findOne user db :
  active_rides_of user db = [] ->
  findOne (fun r => Nat.eqb (userId r) user &&
                    status_in active_statuses (status r)) db = None.
Proof.
  unfold findOne, active_rides_of, is_active.
  induction db as [|r db IH]; cbn [find filter]; [reflexivity|].
  destruct (Nat.eqb (userId r) user && status_in active_statuses (status r));
    [discriminate|exact IH].
Qed.

Section RouteEffects.

Variable env : Number.

(** What a response of each route says about the collection. *)
Lemma cancel_inv now user id reason db resp db' :
  cancel now user id reason db = (resp, db') ->
  (db' = db /\ forall r, resp <> RideCancelled r) \/
  exists ride ride',
    findOne (fun r => Nat.eqb (_id r) id && Nat.eqb (userId r) user &&
                      status_in [pending; accepted] (status r)) db = Some ride /\
    resp = RideCancelled ride' /\ db' = update_by_id ride' db /\
    hooks_frame
      (set_cancelledBy (Some by_user)
         (set_cancellationReason (Some (reason_or_default reason))
            (set_status cancelled ride))) ride' /\
    history ride' =
      history ride ++ [cancelled_entry now reason; status_entry now cancelled].
Proof.
  unfold cancel.
  destruct (findOne _ db) as [ride|] eqn:Hfind.
  - destruct (save _ _ _) as [[r' d']|] eqn:Hsave.
    + intros H; injection H as <- <-. right. exists ride, r'.
      apply save_existing in Hsave. destruct Hsave as (Hdb & Hframe & Hhist).
      split; [reflexivity|]. split; [reflexivity|]. split; [exact Hdb|].
      split.
      * unfold hooks_frame in *. cbn in *. intuition.
      * rewrite Hhist. cbn.
        apply findOne_Some in Hfind. destruct Hfind as [_ Hq].
        apply andb_true_iff in Hq. destruct Hq as [_ Hst].
        destruct (status ride); cbn in Hst; try discriminate; cbn;
          rewrite <- app_assoc; reflexivity.
    + intros H; injection H as <- <-. left. split; [reflexivity|discriminate].
  - intros H; injection H as <- <-. left. split; [reflexivity|discriminate].
Qed.

Lemma updateDestination_inv now user id newDrop db resp db' :
  updateDestination env now user id newDrop db = (resp, db') ->
  (db' = db /\ forall r fe, resp <> DestinationUpdated r fe) \/
  exists ride ride',
    validateDestinationUpdate newDrop = true /\
    findOne (fun r => Nat.eqb (_id r) id && Nat.eqb (userId r) user &&
                      status_in [accepted; started] (status r)) db = Some ride /\
    resp = DestinationUpdated ride'
             (estimateFare env (pickupLocation ride) newDrop None) /\
    db' = update_by_id ride' db /\
    hooks_frame
      (set_fare_amounts
         (fb_baseFare (fareBreakdown
            (estimateFare env (pickupLocation ride) newDrop None)))
         (fb_totalFare (fareBreakdown
            (estimateFare env (pickupLocation ride) newDrop None)))
         (set_distance
            (calculateDistance
               (latitude (coordinates (pickupLocation ride)))
               (longitude (coordinates (pickupLocation ride)))
               (latitude (coordinates newDrop))
               (longitude (coordinates newDrop)))
            (set_dropLocation newDrop ride))) ride' /\
    history ride' = history ride ++ [destination_entry now newDrop].
Proof.
  unfold updateDestination.
  destruct (validateDestinationUpdate newDrop) eqn:Hval; cbn [negb].
  2:{ intros H; injection H as <- <-. left. split; [reflexivity|discriminate]. }
  destruct (findOne _ db) as [ride|] eqn:Hfind.
  - destruct (save _ _ _) as [[r' d']|] eqn:Hsave.
    + intros H; injection H as <- <-. right. exists ride, r'.
      apply save_existing in Hsave. destruct Hsave as (Hdb & Hframe & Hhist).
      split; [reflexivity|]. split; [reflexivity|]. split; [reflexivity|].
      split; [exact Hdb|]. split.
      * unfold hooks_frame in *. cbn in *. intuition.
      * rewrite Hhist. cbn.
        replace (status_eqb (status ride) (status ride)) with true
          by (symmetry; apply status_eqb_eq; reflexivity).
        rewrite app_nil_r. reflexivity.
    + intros H; injection H as <- <-. left. split; [reflexivity|discriminate].
  - intros H; injection H as <- <-. left. split; [reflexivity|discriminate].
Qed.

Lemma book_inv now user b db resp db' :
  book env now user b db = (resp, db') ->
  (db' = db /\ forall r fe, resp <> RideBooked r fe) \/
  exists ride,
    validateRideBooking b = true /\
    active_rides_of user db = [] /\
    resp = RideBooked ride
             (estimateFare env (body_pickupLocation b) (body_dropLocation b)
                (Some (with_default (body_rideType b) "economy"%string))) /\
    db' = db ++ [ride] /\
    hooks_frame
      (new_Ride (fresh_id db) user (body_pickupLocation b) (body_dropLocation b)
         (body_dropLocation b)
         (calculateDistance
            (latitude (coordinates (body_pickupLocation b)))
            (longitude (coordinates (body_pickupLocation b)))
            (latitude (coordinates (body_dropLocation b)))
            (longitude (coordinates (body_dropLocation b))))
         (fb_baseFare (fareBreakdown
            (estimateFare env (body_pickupLocation b) (body_dropLocation b)
               (Some (with_default (body_rideType b) "economy"%string)))))
         (fb_totalFare (fareBreakdown
            (estimateFare env (body_pickupLocation b) (body_dropLocation b)
               (Some (with_default (body_rideType b) "economy"%string)))))
         (body_notes b)) ride /\
    history ride = [created_entry now].
Proof.
  unfold book.
  destruct (validateRideBooking b) eqn:Hval; cbn [negb].
  2:{ intros H; injection H as <- <-. left. split; [reflexivity|discriminate]. }
  destruct (findOne _ db) as [active|] eqn:Hfind.
  - intros H; injection H as <- <-. left. split; [reflexivity|discriminate].
  - destruct (save _ _ _) as [[r' d']|] eqn:Hsave.
    + intros H; injection H as <- <-. right. exists r'.
      apply save_new in Hsave. destruct Hsave as (Hdb & Hframe & Hhist).
      apply findOne_active_None in Hfind.
      split; [reflexivity|]. split; [exact Hfind|]. split; [reflexivity|].
      split; [exact Hdb|]. split; [exact Hframe|exact Hhist].
    + intros H; injection H as <- <-. left. split; [reflexivity|discriminate].
Qed.

(** When each route succeeds. *)
Lemma book_succeeds now user b db :
  validateRideBooking b = true ->
  active_rides_of user db = [] ->
  notes_ok (body_notes b) = true ->
  exists ride,
    book env now user b db =
      (RideBooked ride
         (estimateFare env (body_pickupLocation b) (body_dropLocation b)
            (Some (with_default (body_rideType b) "economy"%string))),
       db ++ [ride]) /\
    hooks_frame (booking_ride env (fresh_id db) user b) ride /\
    history ride = [created_entry now].
Proof.
  intros Hval Hact Hnotes.
  destruct (booking_rideType b Hval) as (c & Hc).
  pose proof Hval as Hval'. unfold validateRideBooking in Hval'.
  apply andb_true_iff in Hval'. destruct Hval' as [Hval' _].
  apply andb_true_iff in Hval'. destruct Hval' as [Hp Hd].
  apply validate_body_location_coordinates in Hp, Hd.
  destruct Hp as [Hpa Hpc], Hd as [Hda Hdc].
  destruct (estimate_castable env _ _ c Hpc Hdc) as (C1 & C2 & C3).
  assert (V : validate {| loaded := None;
                          doc := booking_ride env (fresh_id db) user b |} = true).
  { unfold validate, booking_ride, validate_location.
    cbn [doc loaded isNew new_Ride pickupLocation dropLocation distance fare
         baseFare totalFare originalDropLocation notes].
    rewrite Hc, Hpa, Hda, C1, C2, C3. cbn [andb].
    unfold notes_ok in Hnotes. exact Hnotes. }
  destruct (save_succeeds now _ db V) as (r' & db' & Hsave).
  unfold book. rewrite Hval. cbn [negb].
  rewrite (active_rides_of_nil_findOne _ _ Hact).
  fold (booking_ride env (fresh_id db) user b). rewrite Hsave.
  apply save_new in Hsave. destruct Hsave as (-> & F & Hh).
  exists r'. split; [reflexivity|]. split; [exact F|exact Hh].
Qed.

Lemma booked_ride_valid id user b ride :
  validateRideBooking b = true ->
  hooks_frame (booking_ride env id user b) ride ->
  validate {| loaded := Some ride; doc := ride |} = true /\
  validate_body_location (pickupLocation ride) = true.
Proof.
  intros Hval F.
  destruct (booking_rideType b Hval) as (c & Hc).
  pose proof Hval as Hval'. unfold validateRideBooking in Hval'.
  apply andb_true_iff in Hval'. destruct Hval' as [Hval' _].
  apply andb_true_iff in Hval'. destruct Hval' as [Hp Hd].
  pose proof Hp as Hp'.
  apply validate_body_location_coordinates in Hp, Hd.
  destruct Hp as [Hpa Hpc], Hd as [Hda Hdc].
  destruct (estimate_castable env _ _ c Hpc Hdc) as (C1 & C2 & C3).
  unfold hooks_frame, booking_ride, new_Ride in F. rewrite Hc in F.
  cbn [_id userId driverId status pickupLocation dropLocation
       originalDropLocation distance estimatedDuration fare paymentStatus
       paymentMethod rideStartTime rideEndTime cancellationReason cancelledBy
       rating history notes createdAt updatedAt] in F.
  destruct F as (_ & _ & _ & _ & Fp & Fd & _ & Fdist & Ffare & _).
  split.
  - unfold validate, validate_location. cbn [doc loaded isNew].
    rewrite Fp, Fd, Fdist, Ffare. cbn [baseFare totalFare].
    rewrite Hpa, Hda, C1, C2, C3. reflexivity.
  - rewrite Fp. exact Hp'.
Qed.

Lemma updateDestination_succeeds now user id newDrop db ride :
  findOne (fun r => Nat.eqb (_id r) id && Nat.eqb (userId r) user &&
                    status_in [accepted; started] (status r)) db = Some ride ->
  validateDestinationUpdate newDrop = true ->
  validate_body_location (pickupLocation ride) = true ->
  exists ride',
    updateDestination env now user id newDrop db =
      (DestinationUpdated ride'
         (estimateFare env (pickupLocation ride) newDrop None),
       update_by_id ride' db) /\
    hooks_frame
      (set_fare_amounts
         (fb_baseFare (fareBreakdown
            (estimateFare env (pickupLocation ride) newDrop None)))
         (fb_totalFare (fareBreakdown
            (estimateFare env (pickupLocation ride) newDrop None)))
         (set_distance
            (calculateDistance
               (latitude (coordinates (pickupLocation ride)))
               (longitude (coordinates (pickupLocation ride)))
               (latitude (coordinates newDrop))
               (longitude (coordinates newDrop)))
            (set_dropLocation newDrop ride))) ride' /\
    history ride' = history ride ++ [destination_entry now newDrop].
Proof.
  intros Hfind Hval Hpick.
  pose proof Hval as Hd. unfold validateDestinationUpdate in Hd.
  apply validate_body_location_coordinates in Hd, Hpick.
  destruct Hd as [Hda Hdc], Hpick as [Hpa Hpc].
  destruct (estimate_castable env _ _ economy Hpc Hdc) as (C1 & C2 & C3).
  destruct (updateDestination env now user id newDrop db) as [resp db'] eqn:E.
  pose proof E as E'. apply updateDestination_inv in E'.
  destruct E' as [[-> Hno]|(r0 & r' & _ & Hf & -> & -> & F & Hh)].
  - exfalso. unfold updateDestination in E. rewrite Hval, Hfind in E. cbn [negb] in E.
    match type of E with
    | context [save ?n ?d ?s] =>
        assert (V : validate d = true);
        [|destruct (save_succeeds n d s V) as (r' & db'' & Hs); rewrite Hs in E]
    end.
    { unfold validate, validate_location.
      cbn [doc loaded isNew history_push set_history set_fare_amounts set_fare
           set_distance set_dropLocation pickupLocation dropLocation distance
           fare baseFare totalFare].
      change (estimateFare env (pickupLocation ride) newDrop None)
        with (estimateFare env (pickupLocation ride) newDrop
                (Some (category_name economy))).
      rewrite Hpa, Hda, C1, C2, C3. reflexivity. }
    injection E as <- _. eapply Hno. reflexivity.
  - rewrite Hfind in Hf. injection Hf as <-. exists r'. auto.
Qed.

Lemma exec_store_step now c db : store_step db (snd (exec env now c db)).
Proof.
  destruct c as [user b|user id newDrop|user id reason]; cbn [exec].
  - destruct (book env now user b db) as [resp db'] eqn:E. cbn [snd].
    apply book_inv in E. destruct E as [[-> _]|(ride & _ & Hact & _ & -> & F & Hh)].
    + constructor.
    + unfold hooks_frame in F. cbn in F.
      apply step_insert.
      * intuition.
      * replace (userId ride) with user by (symmetry; intuition). exact Hact.
      * exists (created_entry now). split; [exact Hh|reflexivity].
  - destruct (updateDestination env now user id newDrop db) as [resp db'] eqn:E.
    cbn [snd]. apply updateDestination_inv in E.
    destruct E as [[-> _]|(ride & ride' & _ & Hf & _ & -> & F & Hh)].
    + constructor.
    + apply findOne_Some in Hf. destruct Hf as [Hin _].
      unfold hooks_frame in F. cbn in F.
      eapply step_update with (r := ride); try (intuition; fail).
      * unfold is_active. replace (status ride') with (status ride) by (symmetry; intuition).
        auto.
      * exact Hh.
  - destruct (cancel now user id reason db) as [resp db'] eqn:E.
    cbn [snd]. apply cancel_inv in E.
    destruct E as [[-> _]|(ride & ride' & Hf & _ & -> & F & Hh)].
    + constructor.
    + apply findOne_Some in Hf. destruct Hf as [Hin _].
      unfold hooks_frame in F. cbn in F.
      eapply step_update with (r := ride); try (intuition; fail).
      * unfold is_active. replace (status ride') with cancelled by (symmetry; intuition).
        cbn. discriminate.
      * exact Hh.
Qed.

End RouteEffects.

Lemma cancel_succeeds now user id reason db ride :
  findOne (fun r => Nat.eqb (_id r) id && Nat.eqb (userId r) user &&
                    status_in [pending; accepted] (status r)) db = Some ride ->
  validate {| loaded := Some ride; doc := ride |} = true ->
  exists ride',
    cancel now user id reason db = (RideCancelled ride', update_by_id ride' db) /\
    hooks_frame
      (set_cancelledBy (Some by_user)
         (set_cancellationReason (Some (reason_or_default reason))
            (set_status cancelled ride))) ride' /\
    history ride' =
      history ride ++ [cancelled_entry now reason; status_entry now cancelled].
Proof.
  intros Hfind V.
  destruct (cancel now user id reason db) as [resp db'] eqn:E.
  pose proof E as E'. apply cancel_inv in E'.
  destruct E' as [[-> Hno]|(r0 & r' & Hf & -> & -> & F & Hh)].
  - exfalso. unfold cancel in E. rewrite Hfind in E.
    match type of E with
    | context [save ?n ?d ?s] =>
        destruct (save_succeeds n d s V) as (r' & db'' & Hs); rewrite Hs in E
    end.
    injection E as <- _. eapply Hno. reflexivity.
  - rewrite Hfind in Hf. injection Hf as <-. exists r'. auto.
Qed.

(** A ride that is started, completed or cancelled is not found by the
    query of the cancel route. *)
Lemma cancel_rejected now user id reason db :
  (forall r, In r db -> _id r = id -> userId r = user ->
             status_in [started; completed; cancelled] (status r) = true) ->
  cancel now user id reason db =
    (NotFound "Ride not found or cannot be cancelled", db).
Proof.
  intros H. unfold cancel, findOne. rewrite find_none_intro; [reflexivity|].
  intros r Hin.
  destruct (Nat.eqb (_id r) id) eqn:E1; [|reflexivity].
  destruct (Nat.eqb (userId r) user) eqn:E2; [|reflexivity].
  apply Nat.eqb_eq in E1, E2. specialize (H r Hin E1 E2).
  destruct (status r); cbn in *; congruence.
Qed.

(** A ride that is pending, completed or cancelled is not found by the
    query of the update-destination route. *)
Lemma updateDestination_rejected env now user id newDrop db :
  validateDestinationUpdate newDrop = true ->
  (forall r, In r db -> _id r = id -> userId r = user ->
             status_in [pending; completed; cancelled] (status r) = true) ->
  updateDestination env now user id newDrop db =
    (NotFound "Active ride not found or cannot be modified", db).
Proof.
  intros Hval H. unfold updateDestination, findOne. rewrite Hval. cbn [negb].
  rewrite find_none_intro; [reflexivity|].
  intros r Hin.
  destruct (Nat.eqb (_id r) id) eqn:E1; [|reflexivity].
  destruct (Nat.eqb (userId r) user) eqn:E2; [|reflexivity].
  apply Nat.eqb_eq in E1, E2. specialize (H r Hin E1 E2).
  destruct (status r); cbn in *; congruence.
Qed.

(** ** Invariants of the collection *)

Lemma fresh_id_above db r : In r db -> (_id r < fresh_id db)%nat.
Proof.
  unfold fresh_id. induction db as [|x db IH]; cbn; [contradiction|].
  intros [->|Hin]; [lia|]. specialize (IH Hin). lia.
Qed.

Lemma map_id_update r' db : map _id (update_by_id r' db) = map _id db.
Proof.
  induction db as [|x db IH]; cbn; [reflexivity|].
  destruct (Nat.eqb (_id x) (_id r')) eqn:E; cbn.
  - apply Nat.eqb_eq in E. now rewrite E.
  - now rewrite IH.
Qed.

Lemma update_by_id_split r r' db :
  unique_ids db -> In r db -> _id r' = _id r ->
  exists l1 l2, db = l1 ++ r :: l2 /\ update_by_id r' db = l1 ++ r' :: l2.
Proof.
  unfold unique_ids. intros Hnd Hin Hid.
  induction db as [|x db IH]; [contradiction|].
  cbn in Hnd. inversion Hnd as [|? ? Hnotin Hnd']; subst.
  cbn [update_by_id]. destruct Hin as [->|Hin].
  - rewrite Hid, Nat.eqb_refl. exists [], db. split; reflexivity.
  - destruct (Nat.eqb (_id x) (_id r')) eqn:E.
    + apply Nat.eqb_eq in E. exfalso. apply Hnotin.
      rewrite E, Hid. apply in_map. exact Hin.
    + destruct (IH Hnd' Hin) as (l1 & l2 & -> & ->).
      exists (x :: l1), l2. split; reflexivity.
Qed.

Lemma find_by_id_In r db :
  unique_ids db -> In r db -> find_by_id (_id r) db = Some r.
Proof.
  unfold unique_ids, find_by_id. intros Hnd Hin.
  induction db as [|x db IH]; [contradiction|].
  cbn in Hnd. inversion Hnd as [|? ? Hnotin Hnd']; subst.
  cbn [find]. destruct Hin as [->|Hin].
  - now rewrite Nat.eqb_refl.
  - destruct (Nat.eqb (_id x) (_id r)) eqn:E.
    + apply Nat.eqb_eq in E. exfalso. apply Hnotin. rewrite E.
      apply in_map. exact Hin.
    + apply IH; assumption.
Qed.

Lemma active_rides_of_app user l1 l2 :
  active_rides_of user (l1 ++ l2) = active_rides_of user l1 ++ active_rides_of user l2.
Proof. apply filter_app. Qed.

Lemma store_step_unique_ids db db' :
  store_step db db' -> unique_ids db -> unique_ids db'.
Proof.
  unfold unique_ids. intros [|r Hid _ _|r r' extra _ _ _ _ _ _] Hnd.
  - exact Hnd.
  - rewrite map_app. cbn. apply NoDup_app; [exact Hnd|repeat constructor; intros []|].
    intros i Hin [Hi|[]]. apply in_map_iff in Hin. destruct Hin as (x & <- & Hx).
    apply fresh_id_above in Hx. lia.
  - now rewrite map_id_update.
Qed.

Lemma store_step_one_active db db' :
  store_step db db' -> unique_ids db ->
  one_active_ride_per_rider db -> one_active_ride_per_rider db'.
Proof.
  unfold one_active_ride_per_rider.
  intros [|r Hid Hnone _|r r' extra Hin Hid Huser _ Hact _] Hnd Hinv user.
  - apply Hinv.
  - rewrite active_rides_of_app. rewrite length_app.
    unfold active_rides_of at 2. cbn [filter].
    destruct (Nat.eqb (userId r) user) eqn:E; cbn [andb].
    + apply Nat.eqb_eq in E. subst user. rewrite Hnone.
      destruct (is_active r); cbn; lia.
    + cbn. specialize (Hinv user). lia.
  - destruct (update_by_id_split r r' db Hnd Hin Hid) as (l1 & l2 & Hdb & ->).
    specialize (Hinv user). rewrite Hdb in Hinv.
    rewrite active_rides_of_app, length_app in *.
    unfold active_rides_of at 2. unfold active_rides_of at 2 in Hinv.
    cbn [filter] in *. rewrite Huser.
    destruct (Nat.eqb (userId r) user); cbn [andb] in *.
    + destruct (is_active r') eqn:Er'.
      * rewrite (Hact eq_refl) in Hinv. exact Hinv.
      * destruct (is_active r); cbn [List.length] in *; lia.
    + exact Hinv.
Qed.

(** Every ride of the collection is still there after a step, under the
    same id, with the same originalDropLocation and a history that extends
    the old one. *)
Lemma store_step_ride db db' r :
  store_step db db' -> unique_ids db -> In r db ->
  exists r' extra,
    In r' db' /\ _id r' = _id r /\ userId r' = userId r /\
    originalDropLocation r' = originalDropLocation r /\
    history r' = history r ++ extra.
Proof.
  intros [|x _ _ _|x x' extra Hin Hid Huser Horig _ Hh] Hnd Hr.
  - exists r, []. rewrite app_nil_r. auto.
  - exists r, []. rewrite app_nil_r. repeat split; auto. apply in_or_app; auto.
  - destruct (update_by_id_split x x' db Hnd Hin Hid) as (l1 & l2 & Hdb & ->).
    rewrite Hdb in Hr. apply in_app_or in Hr. destruct Hr as [Hr|[<-|Hr]].
    + exists r, []. rewrite app_nil_r. repeat split; auto. apply in_or_app; auto.
    + exists x', extra. repeat split; auto. apply in_or_app; right; left; reflexivity.
    + exists r, []. rewrite app_nil_r. repeat split; auto.
      apply in_or_app; right; right; exact Hr.
Qed.

Lemma store_step_histories db db' :
  store_step db db' -> unique_ids db ->
  histories_nonempty db -> histories_nonempty db'.
Proof.
  unfold histories_nonempty.
  intros [|x _ _ (e & He & _)|x x' extra Hin Hid _ _ _ Hh] Hnd Hinv r Hr.
  - auto.
  - apply in_app_or in Hr. destruct Hr as [Hr|[<-|[]]]; [auto|].
    rewrite He. discriminate.
  - destruct (update_by_id_split x x' db Hnd Hin Hid) as (l1 & l2 & Hdb & E).
    rewrite E in Hr. apply in_app_or in Hr. destruct Hr as [Hr|[<-|Hr]].
    + apply Hinv. rewrite Hdb. apply in_or_app; auto.
    + rewrite Hh. specialize (Hinv x Hin). destruct (history x); [congruence|discriminate].
    + apply Hinv. rewrite Hdb. apply in_or_app; right; right; exact Hr.
Qed.

Section Runs.

Variable env : Number.

Lemma reachable_unique_ids db : reachable env db -> unique_ids db.
Proof.
  induction 1 as [|db now c _ IH].
  - constructor.
  - eapply store_step_unique_ids; [apply exec_store_step|exact IH].
Qed.

Lemma reachable_one_active db : reachable env db -> one_active_ride_per_rider db.
Proof.
  induction 1 as [|db now c Hr IH].
  - intros user. cbn. lia.
  - eapply store_step_one_active; [apply exec_store_step| |exact IH].
    now apply reachable_unique_ids.
Qed.

Lemma reachable_histories db : reachable env db -> histories_nonempty db.
Proof.
  induction 1 as [|db now c Hr IH].
  - intros r [].
  - eapply store_step_histories; [apply exec_store_step| |exact IH].
    now apply reachable_unique_ids.
Qed.

Lemma run_one_active cmds db :
  unique_ids db -> one_active_ride_per_rider db ->
  one_active_ride_per_rider (run env cmds db).
Proof.
  revert db. induction cmds as [|[now c] cmds IH]; intros db H1 H2; cbn [run]; [exact H2|].
  apply IH.
  - eapply store_step_unique_ids; [apply exec_store_step|exact H1].
  - eapply store_step_one_active; [apply exec_store_step|exact H1|exact H2].
Qed.

Lemma run_histories cmds db :
  unique_ids db -> histories_nonempty db -> histories_nonempty (run env cmds db).
Proof.
  revert db. induction cmds as [|[now c] cmds IH]; intros db H1 H2; cbn [run]; [exact H2|].
  apply IH.
  - eapply store_step_unique_ids; [apply exec_store_step|exact H1].
  - eapply store_step_histories; [apply exec_store_step|exact H1|exact H2].
Qed.

Lemma run_ride cmds db r :
  unique_ids db -> In r db ->
  exists r' extra,
    find_by_id (_id r) (run env cmds db) = Some r' /\ userId r' = userId r /\
    originalDropLocation r' = originalDropLocation r /\
    history r' = history r ++ extra.
Proof.
  revert db r. induction cmds as [|[now c] cmds IH]; intros db r Hnd Hin; cbn [run].
  - exists r, []. rewrite app_nil_r. split; [now apply find_by_id_In|auto].
  - pose proof (exec_store_step env now c db) as Hstep.
    destruct (store_step_ride _ _ r Hstep Hnd Hin) as (r1 & e1 & Hin1 & Hid1 & Hu1 & Ho1 & Hh1).
    destruct (IH _ r1 (store_step_unique_ids _ _ Hstep Hnd) Hin1)
      as (r2 & e2 & Hf & Hu2 & Ho2 & Hh2).
    exists r2, (e1 ++ e2). rewrite <- Hid1. split; [exact Hf|].
    split; [congruence|]. split; [congruence|].
    rewrite Hh2, Hh1, app_assoc. reflexivity.
Qed.

End Runs.

(** ** The sample requests are valid *)



Lemma testRide_valid : validateRideBooking testRide = true.
Proof.
  unfold validateRideBooking, testRide, bandra, andheri.
  cbn [body_pickupLocation body_dropLocation body_rideType].
  rewrite !validate_body_location_intro by (try reflexivity; lra).
  reflexivity.
Qed.

Lemma luxury_booking_valid : validateRideBooking luxury_booking = true.
Proof.
  unfold validateRideBooking, luxury_booking, null_island, midway.
  cbn [body_pickupLocation body_dropLocation body_rideType].
  rewrite !validate_body_location_intro by (try reflexivity; lra).
  reflexivity.
Qed.

Lemma date_line_valid : validate_body_location date_line = true.
Proof. apply validate_body_location_intro; [reflexivity|lra|lra]. Qed.

Lemma null_island_valid : validate_body_location null_island = true.
Proof. apply validate_body_location_intro; [reflexivity|lra|lra]. Qed.


(** ** The properties of the specification *)

(** ** The quote and the haversine formula *)



Lemma null_island_coordinates_valid :
  validateCoordinates (latitude (coordinates null_island))
    (longitude (coordinates null_island)) = true.
Proof. apply validateCoordinates_intro; lra. Qed.

Lemma date_line_coordinates_valid :
  validateCoordinates (latitude (coordinates date_line))
    (longitude (coordinates date_line)) = true.
Proof. apply validateCoordinates_intro; lra. Qed.


Section Claims.

Variable env : Number.

(** C1 (the code departs from it).  The claim: cancelling a pending or
    accepted ride appends exactly one history entry.  The code: the route
    pushes a "cancelled" entry and, as the status was modified, the
    pre-save hook pushes a second one.  A ride booked by the sample request
    and then cancelled holds three entries: one "created" and two
    "cancelled". *)
Theorem cancel_appends_two_history_entries :
  exists booked cancelled_ride,
    book env 1000 7 testRide [] =
      (RideBooked booked (estimateFare env bandra andheri (Some "economy"%string)),
       [booked]) /\
    status booked = pending /\
    history booked = [created_entry 1000] /\
    cancel 2000 7 (_id booked) (Some "Change of plans"%string) [booked] =
      (RideCancelled cancelled_ride, [cancelled_ride]) /\
    status cancelled_ride = cancelled /\
    cancellationReason cancelled_ride = Some "Change of plans"%string /\
    cancelledBy cancelled_ride = Some by_user /\
    history cancelled_ride =
      [ created_entry 1000;
        {| action := "cancelled"; timestamp := 2000;
           details := "Change of plans" |};
        {| action := "cancelled"; timestamp := 2000;
           details := "Ride status changed to cancelled" |} ] /\
    List.length (history cancelled_ride) = (List.length (history booked) + 2)%nat.
Proof.
  destruct (book_succeeds env 1000 7 testRide [] testRide_valid eq_refl eq_refl)
    as (booked & Hbook & F & Hh).
  cbn [app] in Hbook.
  destruct (booked_ride_valid env _ _ _ _ testRide_valid F) as [V _].
  assert (Huser : userId booked = 7%nat) by (by_frame F).
  assert (Hst : status booked = pending) by (by_frame F).
  assert (Hfind :
    findOne (fun r => Nat.eqb (_id r) (_id booked) && Nat.eqb (userId r) 7 &&
                      status_in [pending; accepted] (status r)) [booked] = Some booked).
  { unfold findOne. cbn [find]. rewrite Nat.eqb_refl, Huser, Hst. reflexivity. }
  destruct (cancel_succeeds 2000 7 (_id booked) (Some "Change of plans"%string)
              [booked] booked Hfind V) as (r' & Hc & F' & Hh').
  assert (Hid' : _id r' = _id booked) by (by_frame F').
  assert (Hdb : update_by_id r' [booked] = [r']).
  { cbn [update_by_id]. rewrite Hid', Nat.eqb_refl. reflexivity. }
  rewrite Hdb in Hc.
  exists booked, r'.
  split; [exact Hbook|]. split; [exact Hst|]. split; [exact Hh|].
  split; [exact Hc|].
  split; [by_frame F'|].
  split; [by_frame F'|].
  split; [by_frame F'|].
  rewrite Hh', Hh. split; reflexivity.
Qed.

(** C2 (the code departs from it).  The claim: a destination update
    recomputes the fare as a fresh quote for the category of the ride.  The
    code: the route calls estimateFare without a ride type, so the quote is
    the economy one, and the ride does not record its category.  A ride
    booked as luxury and accepted by a driver, then sent from (0, 0) to
    (0, 180), 20015.09 km away, takes the economy fare of the new trip,
    300276.35 and 354326.09 in total, where the luxury quote of that trip
    is 600502.7 and 708593.19 in total.  FARE_PER_KM is unset (NaN once
    parsed). *)
Theorem updateDestination_ignores_ride_category :
  exists booked updated,
    book NaN 1000 7 luxury_booking [] =
      (RideBooked booked (estimateFare NaN null_island midway (Some "luxury"%string)),
       [booked]) /\
    updateDestination NaN 2000 7 (_id booked) date_line
        [set_status accepted booked] =
      (DestinationUpdated updated (estimateFare NaN null_island date_line None),
       [updated]) /\
    dropLocation updated = date_line /\
    distance updated = Num 20015.09 /\
    fare updated =
      {| baseFare := Num 300276.35; totalFare := Num 354326.09;
         currency := "INR" |} /\
    fareBreakdown (estimateFare NaN null_island date_line (Some "luxury"%string)) =
      {| fb_baseFare := Num 600502.7; fb_gst := Num 108090.49;
         fb_totalFare := Num 708593.19; fb_distance := Num 20015.09;
         fb_farePerKm := Num 15; fb_rideType := "luxury" |} /\
    totalFare (fare updated) <>
      fb_totalFare (fareBreakdown
        (estimateFare NaN null_island date_line (Some "luxury"%string))) /\
    history updated = history booked ++ [destination_entry 2000 date_line].
Proof.
  destruct (book_succeeds NaN 1000 7 luxury_booking []
              luxury_booking_valid eq_refl eq_refl) as (booked & Hbook & F & Hh).
  cbn [app] in Hbook.
  assert (Huser : userId booked = 7%nat) by (by_frame F).
  assert (Hpick : pickupLocation booked = null_island) by (by_frame F).
  assert (Hcur : currency (fare booked) = "INR"%string).
  { unfold hooks_frame in F.
    destruct F as (_ & _ & _ & _ & _ & _ & _ & _ & -> & _). reflexivity. }
  set (ride := set_status accepted booked).
  assert (Hfind :
    findOne (fun r => Nat.eqb (_id r) (_id booked) && Nat.eqb (userId r) 7 &&
                      status_in [accepted; started] (status r)) [ride] = Some ride).
  { unfold findOne. cbn [find ride set_status _id userId status].
    rewrite Nat.eqb_refl, Huser. reflexivity. }
  destruct (updateDestination_succeeds NaN 2000 7 (_id booked) date_line [ride] ride
              Hfind date_line_valid) as (updated & Hupd & F' & Hh').
  { cbn [ride set_status pickupLocation]. rewrite Hpick. exact null_island_valid. }
  cbn [ride set_status pickupLocation] in Hupd, F'. rewrite Hpick in Hupd, F'.
  assert (Hid' : _id updated = _id booked) by (by_frame F').
  assert (Hdb : update_by_id updated [ride] = [updated]).
  { cbn [update_by_id ride set_status _id]. rewrite Hid', Nat.eqb_refl. reflexivity. }
  rewrite Hdb in Hupd. subst ride.
  assert (Hfare : fare updated =
    {| baseFare := Num 300276.35; totalFare := Num 354326.09; currency := "INR" |}).
  { unfold hooks_frame in F'.
    destruct F' as (_ & _ & _ & _ & _ & _ & _ & _ & -> & _).
    unfold set_fare_amounts.
    cbn [fare set_fare set_distance set_dropLocation set_status currency].
    rewrite Hcur.
    change (estimateFare NaN null_island date_line None)
      with (estimateFare NaN null_island date_line (Some (category_name economy))).
    rewrite estimate_half_equator.
    rewrite (economy_fare_half_equator
             : calculateFare NaN (Num 20015.09) (Some (category_name economy)) = _).
    reflexivity. }
  assert (Hlux :
    fareBreakdown (estimateFare NaN null_island date_line (Some "luxury"%string)) =
      {| fb_baseFare := Num 600502.7; fb_gst := Num 108090.49;
         fb_totalFare := Num 708593.19; fb_distance := Num 20015.09;
         fb_farePerKm := Num 15; fb_rideType := "luxury" |}).
  { rewrite (estimate_half_equator luxury
             : fareBreakdown (estimateFare NaN null_island date_line
                                (Some "luxury"%string)) = _).
    exact luxury_fare_half_equator. }
  exists booked, updated.
  split; [exact Hbook|]. split; [exact Hupd|].
  split; [by_frame F'|].
  split.
  { unfold hooks_frame in F'.
    destruct F' as (_ & _ & _ & _ & _ & _ & _ & -> & _).
    cbn [distance set_fare_amounts set_fare set_distance].
    exact distance_half_equator_value. }
  split; [exact Hfare|]. split; [exact Hlux|]. split.
  - rewrite Hfare, Hlux. cbn [totalFare fb_totalFare].
    intros H. injection H as H. lra.
  - exact Hh'.
Qed.


(** C4.  Whenever POST /rides/book creates a ride, the ride enters the
    collection with a history that is the single entry "created";
    whatever commands follow, the history of that ride is the old one
    with entries appended, and no ride of the collection has an empty
    history.  In particular no ride of a collection built by the routes
    has an empty history. *)
Theorem history_created_once_then_append_only now user b db ride fe db' cmds :
  unique_ids db ->
  histories_nonempty db ->
  book env now user b db = (RideBooked ride fe, db') ->
  (db' = db ++ [ride] /\
   history ride =
     [ {| action := "created"; timestamp := now;
          details := "Ride request created" |} ] /\
   (exists ride' extra,
      find_by_id (_id ride) (run env cmds db') = Some ride' /\
      history ride' = history ride ++ extra) /\
   histories_nonempty (run env cmds db')) /\
  (forall db'', reachable env db'' -> histories_nonempty db'').
Proof.
  intros Hnd Hne Hbook. split; [|apply reachable_histories].
  pose proof (exec_store_step env now (Book user b) db) as Hstep.
  cbn [exec] in Hstep. rewrite Hbook in Hstep. cbn [snd] in Hstep.
  destruct (book_inv env _ _ _ _ _ _ Hbook)
    as [[_ Hno]|(r & _ & _ & Hr & Hdb & _ & Hh)].
  { exfalso. eapply Hno. reflexivity. }
  injection Hr as <- _. subst db'.
  pose proof (store_step_unique_ids _ _ Hstep Hnd) as Hnd'.
  pose proof (store_step_histories _ _ Hstep Hnd Hne) as Hne'.
  split; [reflexivity|]. split; [exact Hh|]. split.
  - destruct (run_ride env cmds (db ++ [ride]) ride Hnd')
      as (r' & extra & Hf & _ & _ & Hx).
    { apply in_or_app. right. left. reflexivity. }
    exists r', extra. split; assumption.
  - apply run_histories; assumption.
Qed.

(** C5.  When the rider has a ride that is pending, accepted or started,
    a booking that passes request validation is answered 409, a status no
    other response carries, with the id of that ride, and the collection
    is left as it was; and no run of commands gives a rider two active
    rides.  Each handler is taken as one step. *)
Theorem active_ride_blocks_booking now user b db active cmds :
  unique_ids db ->
  one_active_ride_per_rider db ->
  validateRideBooking b = true ->
  In active db -> userId active = user -> is_active active = true ->
  (exists id,
     book env now user b db = (ActiveRideConflict id, db) /\
     statusCode (ActiveRideConflict id) = 409%Z /\
     find_by_id id db = Some active) /\
  (forall resp, statusCode resp = 409%Z -> exists id, resp = ActiveRideConflict id) /\
  one_active_ride_per_rider (run env cmds db) /\
  (forall db', reachable env db' -> one_active_ride_per_rider db').
Proof.
  intros Hnd Hone Hval Hin Huser Hact.
  split; [|split; [|split; [now apply run_one_active|apply reachable_one_active]]].
  2:{ intros resp H. destruct resp; cbn in H; try discriminate. eauto. }
  destruct (find_exists
              (fun r => Nat.eqb (userId r) user &&
                        status_in active_statuses (status r)) db active Hin)
    as (found & Hfound).
  { rewrite Huser, Nat.eqb_refl. exact Hact. }
  exists (_id found). split.
  - unfold book. rewrite Hval. cbn [negb]. unfold findOne. rewrite Hfound. reflexivity.
  - split; [reflexivity|].
    apply find_some in Hfound. destruct Hfound as [Hin' Hq].
    apply andb_true_iff in Hq. destruct Hq as [Hu Ha].
    apply Nat.eqb_eq in Hu.
    assert (found = active).
    { specialize (Hone user). unfold active_rides_of in Hone.
      assert (I1 : In found (filter (fun r => Nat.eqb (userId r) user && is_active r) db)).
      { apply filter_In. split; [exact Hin'|]. rewrite Hu, Nat.eqb_refl. exact Ha. }
      assert (I2 : In active (filter (fun r => Nat.eqb (userId r) user && is_active r) db)).
      { apply filter_In. split; [exact Hin|]. rewrite Huser, Nat.eqb_refl. exact Hact. }
      destruct (filter _ db) as [|x [|y l]]; cbn in *.
      - contradiction.
      - destruct I1 as [<-|[]], I2 as [<-|[]]. reflexivity.
      - lia. }
    subst found. now apply find_by_id_In.
Qed.

(** C6.  A booking stores the requested drop location as
    originalDropLocation, and no run of commands changes the
    originalDropLocation of a ride of the collection, whatever its status:
    a destination update assigns dropLocation, distance and fare and
    leaves originalDropLocation alone. *)
Theorem originalDropLocation_never_reassigned
    now user b db ride fe db1 db2 r cmds :
  book env now user b db = (RideBooked ride fe, db1) ->
  unique_ids db2 -> In r db2 ->
  originalDropLocation ride = Some (body_dropLocation b) /\
  exists r',
    find_by_id (_id r) (run env cmds db2) = Some r' /\
    originalDropLocation r' = originalDropLocation r.
Proof.
  intros Hbook Hnd Hin. split.
  - apply book_inv in Hbook.
    destruct Hbook as [[_ Hno]|(ride0 & _ & _ & E & _ & F & _)].
    + exfalso. eapply Hno. reflexivity.
    + injection E as <- _. unfold hooks_frame in F. cbn in F. intuition.
  - destruct (run_ride env cmds db2 r Hnd Hin) as (r' & extra & Hf & _ & Ho & _).
    exists r'. split; assumption.
Qed.

(** C7.  For a fixed distance d >= 0 and a fixed rate, the total fare of
    economy is at most that of premium, which is at most that of luxury:
    for calculateFare at d, and for the quotes of estimateFare for any
    pickup and drop whose distance is d. *)
Theorem fare_ordered_by_category d :
  0 <= d ->
  (JsNum.le (fb_totalFare (calculateFare env (Num d) (Some "economy"%string)))
            (fb_totalFare (calculateFare env (Num d) (Some "premium"%string))) /\
   JsNum.le (fb_totalFare (calculateFare env (Num d) (Some "premium"%string)))
            (fb_totalFare (calculateFare env (Num d) (Some "luxury"%string)))) /\
  (forall pickup drop,
     calculateDistance
       (latitude (coordinates pickup)) (longitude (coordinates pickup))
       (latitude (coordinates drop)) (longitude (coordinates drop)) = Num d ->
     JsNum.le
       (fb_totalFare (fareBreakdown
          (estimateFare env pickup drop (Some "economy"%string))))
       (fb_totalFare (fareBreakdown
          (estimateFare env pickup drop (Some "premium"%string)))) /\
     JsNum.le
       (fb_totalFare (fareBreakdown
          (estimateFare env pickup drop (Some "premium"%string))))
       (fb_totalFare (fareBreakdown
          (estimateFare env pickup drop (Some "luxury"%string))))).
Proof.
  intros _.
  assert (A :
    JsNum.le (fb_totalFare (calculateFare env (Num d) (Some "economy"%string)))
             (fb_totalFare (calculateFare env (Num d) (Some "premium"%string))) /\
    JsNum.le (fb_totalFare (calculateFare env (Num d) (Some "premium"%string)))
             (fb_totalFare (calculateFare env (Num d) (Some "luxury"%string)))).
  { split.
    - apply (totalFare_mono env d d economy premium).
      apply adjustedFare_mono_multiplier. cbn. lra.
    - apply (totalFare_mono env d d premium luxury).
      apply adjustedFare_mono_multiplier. cbn. lra. }
  split; [exact A|].
  intros pickup drop Hx.
  rewrite (estimateFare_category env pickup drop economy d Hx
           : estimateFare env pickup drop (Some "economy"%string) = _).
  rewrite (estimateFare_category env pickup drop premium d Hx
           : estimateFare env pickup drop (Some "premium"%string) = _).
  rewrite (estimateFare_category env pickup drop luxury d Hx
           : estimateFare env pickup drop (Some "luxury"%string) = _).
  cbn [fareBreakdown]. exact A.
Qed.

(** C8.  For a fixed category and rate, the total fare does not decrease
    with the distance: at distances 0 <= d1 <= d2 for calculateFare, and
    for any two quotes of estimateFare whose distances are d1 and d2. *)
Theorem fare_monotone_in_distance c d1 d2 :
  0 <= d1 <= d2 ->
  JsNum.le (fb_totalFare (calculateFare env (Num d1) (Some (category_name c))))
           (fb_totalFare (calculateFare env (Num d2) (Some (category_name c)))) /\
  forall pickup1 drop1 pickup2 drop2,
    calculateDistance
      (latitude (coordinates pickup1)) (longitude (coordinates pickup1))
      (latitude (coordinates drop1)) (longitude (coordinates drop1)) = Num d1 ->
    calculateDistance
      (latitude (coordinates pickup2)) (longitude (coordinates pickup2))
      (latitude (coordinates drop2)) (longitude (coordinates drop2)) = Num d2 ->
    JsNum.le
      (fb_totalFare (fareBreakdown
         (estimateFare env pickup1 drop1 (Some (category_name c)))))
      (fb_totalFare (fareBreakdown
         (estimateFare env pickup2 drop2 (Some (category_name c))))).
Proof.
  intros H.
  assert (A : JsNum.le
    (fb_totalFare (calculateFare env (Num d1) (Some (category_name c))))
    (fb_totalFare (calculateFare env (Num d2) (Some (category_name c))))).
  { apply totalFare_mono.
    apply adjustedFare_mono_distance; [apply multiplier_pos|exact H]. }
  split; [exact A|].
  intros pickup1 drop1 pickup2 drop2 H1 H2.
  rewrite (estimateFare_category env _ _ c d1 H1).
  rewrite (estimateFare_category env _ _ c d2 H2).
  cbn [fareBreakdown]. exact A.
Qed.


(** C10 (the code departs from it).  The claim: every ride type outside
    the three known ones is priced as economy.  The code: the multipliers
    are read from an object literal, and a name such as "constructor" finds
    a member of Object.prototype, which is truthy and multiplies to NaN:
    base fare, tax and total are NaN, where economy gives a number.  GET
    /rides/estimate does not validate rideType and returns that quote. *)
Theorem inherited_rideType_gives_NaN_fare (d : R) :
  let fb := calculateFare env (Num d) (Some "constructor"%string) in
  (fb_baseFare fb = NaN /\ fb_gst fb = NaN /\ fb_totalFare fb = NaN) /\
  JsNum.is_finite
    (fb_totalFare (calculateFare env (Num d) (Some "economy"%string))) /\
  exists data,
    estimate env constructor_query = FareEstimated data /\
    fb_totalFare (fareBreakdown data) = NaN.
Proof.
  cbv zeta. rewrite calculateFare_inherited by reflexivity. cbn [fb_baseFare fb_gst fb_totalFare].
  split; [auto|]. split.
  - rewrite (calculateFare_category env d economy
              : calculateFare env (Num d) (Some "economy"%string) = _).
    exact I.
  - unfold estimate.
    assert (V : validateFareEstimate constructor_query = true).
    { unfold validateFareEstimate. cbn [constructor_query fromLat fromLng toLat toLng fromAddress toAddress].
      rewrite !isFloat_intro by lra. reflexivity. }
    rewrite V. cbn [negb]. eexists. split; [reflexivity|].
    unfold estimateFare. cbn [with_default constructor_query query_rideType fareBreakdown
      fromLat fromLng toLat toLng coordinates latitude longitude].
    rewrite (calculateDistance_diag 0 0) by lra.
    rewrite calculateFare_inherited by reflexivity. reflexivity.
Qed.

End Claims.

(** ** The properties at sample inputs *)


Lemma history_created_once_then_append_only_witness :
  exists ride,
    unique_ids [] /\
    histories_nonempty [] /\
    book NaN 1000 7 testRide [] =
      (RideBooked ride (estimateFare NaN bandra andheri (Some "economy"%string)),
       [ride]) /\
    ([ride] = [] ++ [ride] /\
     history ride =
       [ {| action := "created"; timestamp := 1000;
            details := "Ride request created" |} ] /\
     (exists ride' extra,
        find_by_id (_id ride)
          (run NaN [(2000%Z, Cancel 7 1 None)] [ride]) = Some ride' /\
        history ride' = history ride ++ extra) /\
     histories_nonempty (run NaN [(2000%Z, Cancel 7 1 None)] [ride])) /\
    (forall db'', reachable NaN db'' -> histories_nonempty db'').
Proof.
  destruct (book_succeeds NaN 1000 7 testRide [] testRide_valid eq_refl eq_refl)
    as (ride & Hbook & _ & _).
  exists ride.
  assert (H1 : unique_ids []) by constructor.
  assert (H2 : histories_nonempty []) by (intros r []).
  exact (conj H1 (conj H2 (conj Hbook
           (history_created_once_then_append_only NaN 1000 7 testRide [] ride _
              [ride] [(2000%Z, Cancel 7 1 None)] H1 H2 Hbook)))).
Defined.

Lemma active_ride_blocks_booking_witness :
  unique_ids [pending_testRide] /\
  one_active_ride_per_rider [pending_testRide] /\
  validateRideBooking testRide = true /\
  In pending_testRide [pending_testRide] /\
  userId pending_testRide = 7%nat /\
  is_active pending_testRide = true /\
  ((exists id,
      book NaN 3000 7 testRide [pending_testRide] =
        (ActiveRideConflict id, [pending_testRide]) /\
      statusCode (ActiveRideConflict id) = 409%Z /\
      find_by_id id [pending_testRide] = Some pending_testRide) /\
   (forall resp, statusCode resp = 409%Z ->
                 exists id, resp = ActiveRideConflict id) /\
   one_active_ride_per_rider
     (run NaN [(4000%Z, Book 7 testRide)] [pending_testRide]) /\
   (forall db', reachable NaN db' -> one_active_ride_per_rider db')).
Proof.
  assert (H1 : unique_ids [pending_testRide]).
  { unfold unique_ids. cbn [map]. constructor; [intros []|constructor]. }
  assert (H2 : one_active_ride_per_rider [pending_testRide]).
  { intros user. unfold active_rides_of. cbn [filter].
    destruct (Nat.eqb (userId pending_testRide) user && is_active pending_testRide);
      cbn [List.length]; lia. }
  assert (H3 : In pending_testRide [pending_testRide]) by (left; reflexivity).
  exact (conj H1 (conj H2 (conj testRide_valid (conj H3 (conj eq_refl (conj eq_refl
           (active_ride_blocks_booking NaN 3000 7 testRide [pending_testRide]
              pending_testRide [(4000%Z, Book 7 testRide)]
              H1 H2 testRide_valid H3 eq_refl eq_refl))))))).
Defined.

Lemma originalDropLocation_never_reassigned_witness :
  exists ride,
    book NaN 1000 7 testRide [] =
      (RideBooked ride (estimateFare NaN bandra andheri (Some "economy"%string)),
       [ride]) /\
    unique_ids [set_status accepted ride] /\
    In (set_status accepted ride) [set_status accepted ride] /\
    originalDropLocation ride = Some andheri /\
    exists r',
      find_by_id (_id ride)
        (run NaN [(2000%Z, UpdateDestination 7 (_id ride) bandra)]
           [set_status accepted ride]) = Some r' /\
      originalDropLocation r' = originalDropLocation ride.
Proof.
  destruct (book_succeeds NaN 1000 7 testRide [] testRide_valid eq_refl eq_refl)
    as (ride & Hbook & _ & _).
  exists ride.
  assert (H1 : unique_ids [set_status accepted ride]).
  { unfold unique_ids. cbn [map]. constructor; [intros []|constructor]. }
  assert (H2 : In (set_status accepted ride) [set_status accepted ride])
    by (left; reflexivity).
  exact (conj Hbook (conj H1 (conj H2
           (originalDropLocation_never_reassigned NaN 1000 7 testRide [] ride _
              [ride] [set_status accepted ride] (set_status accepted ride)
              [(2000%Z, UpdateDestination 7 (_id ride) bandra)] Hbook H1 H2)))).
Defined.

Lemma fare_ordered_by_category_witness :
  0 <= 10 /\
  (JsNum.le (fb_totalFare (calculateFare NaN (Num 10) (Some "economy"%string)))
            (fb_totalFare (calculateFare NaN (Num 10) (Some "premium"%string))) /\
   JsNum.le (fb_totalFare (calculateFare NaN (Num 10) (Some "premium"%string)))
            (fb_totalFare (calculateFare NaN (Num 10) (Some "luxury"%string)))) /\
  (forall pickup drop,
     calculateDistance
       (latitude (coordinates pickup)) (longitude (coordinates pickup))
       (latitude (coordinates drop)) (longitude (coordinates drop)) = Num 10 ->
     JsNum.le
       (fb_totalFare (fareBreakdown
          (estimateFare NaN pickup drop (Some "economy"%string))))
       (fb_totalFare (fareBreakdown
          (estimateFare NaN pickup drop (Some "premium"%string)))) /\
     JsNum.le
       (fb_totalFare (fareBreakdown
          (estimateFare NaN pickup drop (Some "premium"%string))))
       (fb_totalFare (fareBreakdown
          (estimateFare NaN pickup drop (Some "luxury"%string))))).
Proof.
  assert (H0 : 0 <= 10) by lra.
  exact (conj H0 (fare_ordered_by_category NaN 10 H0)).
Defined.

Lemma fare_monotone_in_distance_witness :
  0 <= 2 <= 10 /\
  JsNum.le (fb_totalFare (calculateFare NaN (Num 2) (Some "premium"%string)))
           (fb_totalFare (calculateFare NaN (Num 10) (Some "premium"%string))).
Proof.
  assert (H : 0 <= 2 <= 10) by lra.
  exact (conj H (proj1 (fare_monotone_in_distance NaN premium 2 10 H))).
Defined.


(** ** The quote in doubles *)

Section Doubles.

Import Floats.




End Doubles.

(** * Further properties of the code *)

(** ** The fare floor and the rounding of the three amounts *)

Lemma floor_le_IZR x z : x < IZR z + 1 -> Math.floor x <= IZR z.
Proof.
  intros H. destruct (floor_bounds x) as [H1 _]. unfold Math.floor in *.
  apply IZR_le. apply Z.lt_succ_r. apply lt_IZR. rewrite succ_IZR. lra.
Qed.

Lemma floor_ge_IZR x z : IZR z <= x -> IZR z <= Math.floor x.
Proof.
  intros H. rewrite <- (floor_IZR z). now apply floor_mono.
Qed.

Lemma round2_up_int x : exists n : Z, round2_up x = IZR n / 100 /\
  IZR n - / 2 <= x * 100 < IZR n + / 2.
Proof.
  exists (Int_part (x * 100 + / 2)). split; [reflexivity|].
  destruct (floor_bounds (x * 100 + / 2)). unfold Math.floor in *. lra.
Qed.

Lemma round2_up_exact n : round2_up (IZR n / 100) = IZR n / 100.
Proof.
  unfold round2_up. rewrite (floor_unique _ n); [reflexivity|lra].
Qed.

(** At the default rate, 2.0016 km in economy: 80.02 and 14.4 are shown
    beside a total of 94.43. *)
Lemma rounding_discrepancy_example :
  let fb := calculateFare NaN (Num 2.0016) (Some "economy"%string) in
  fb_baseFare fb = Num 80.02 /\ fb_gst fb = Num 14.4 /\ fb_totalFare fb = Num 94.43.
Proof.
  cbv zeta.
  rewrite (calculateFare_category NaN 2.0016 economy
           : calculateFare NaN (Num 2.0016) (Some "economy"%string) = _).
  cbv zeta. cbn [farePerKmRate multiplier category_name fb_baseFare fb_gst fb_totalFare].
  unfold adjustedFare. rewrite Rmax_left by lra. unfold round2_up.
  rewrite (floor_unique _ 8002) by lra.
  rewrite (floor_unique _ 1440) by lra.
  rewrite (floor_unique _ 9443) by lra.
  repeat split; apply f_equal; lra.
Qed.

Section FareBounds.

Variable env : Number.

Lemma round2_up_80 : round2_up 80 = 80.
Proof. replace 80 with (IZR 8000 / 100) by lra. apply round2_up_exact. Qed.

Lemma round2_up_14_4 : round2_up 14.4 = 14.4.
Proof. replace 14.4 with (IZR 1440 / 100) by lra. apply round2_up_exact. Qed.

Lemma round2_up_94_4 : round2_up 94.4 = 94.4.
Proof. replace 94.4 with (IZR 9440 / 100) by lra. apply round2_up_exact. Qed.

Lemma calculateFare_at_least_minimum d c :
  let fb := calculateFare env (Num d) (Some (category_name c)) in
  JsNum.le (Num 80) (fb_baseFare fb) /\
  JsNum.le (Num 14.4) (fb_gst fb) /\
  JsNum.le (Num 94.4) (fb_totalFare fb).
Proof.
  cbv zeta. rewrite calculateFare_category. cbv zeta.
  cbn [fb_baseFare fb_gst fb_totalFare JsNum.le].
  set (a := adjustedFare (farePerKmRate env) d (multiplier c)).
  pose proof (adjustedFare_ge (farePerKmRate env) d (multiplier c)) as Ha. fold a in Ha.
  split; [|split].
  - rewrite <- round2_up_80. apply round2_up_mono. exact Ha.
  - rewrite <- round2_up_14_4. apply round2_up_mono. lra.
  - rewrite <- round2_up_94_4. apply round2_up_mono. lra.
Qed.

Lemma calculateFare_short_trip d c :
  d * farePerKmRate env * multiplier c <= 30 ->
  let fb := calculateFare env (Num d) (Some (category_name c)) in
  fb_baseFare fb = Num 80 /\ fb_gst fb = Num 14.4 /\ fb_totalFare fb = Num 94.4.
Proof.
  intros Hshort. cbv zeta. rewrite calculateFare_category. cbv zeta.
  cbn [fb_baseFare fb_gst fb_totalFare].
  assert (Ea : adjustedFare (farePerKmRate env) d (multiplier c) = 80).
  { unfold adjustedFare. apply Rmax_right. lra. }
  rewrite Ea.
  replace (80 * 0.18) with 14.4 by lra. replace (80 + 14.4) with 94.4 by lra.
  rewrite round2_up_80, round2_up_14_4, round2_up_94_4. auto.
Qed.

(** X1.  calculateFare never quotes less than the minimum fare: for every
    finite distance, negative ones included, and every category the base
    fare is at least 80, the tax at least 14.4 and the total at least
    94.4; and while distance * rate * multiplier stays within 30, the
    quote is exactly 80, 14.4 and 94.4. *)
Theorem minimum_fare_floor d c :
  let fb := calculateFare env (Num d) (Some (category_name c)) in
  (JsNum.le (Num 80) (fb_baseFare fb) /\
   JsNum.le (Num 14.4) (fb_gst fb) /\
   JsNum.le (Num 94.4) (fb_totalFare fb)) /\
  (d * farePerKmRate env * multiplier c <= 30 ->
   fb_baseFare fb = Num 80 /\ fb_gst fb = Num 14.4 /\ fb_totalFare fb = Num 94.4).
Proof.
  cbv zeta. split.
  - exact (calculateFare_at_least_minimum d c).
  - intros Hshort. exact (calculateFare_short_trip d c Hshort).
Qed.

(** X2.  calculateFare rounds the base fare, the tax and the total each on
    its own, so the total it returns is not always the sum of the two
    parts it returns: while distance * rate * multiplier stays within a
    thousand million either way, the three amounts are whole hundredths
    and, counted in hundredths, baseFare + gst differs from totalFare by
    0 or by 1 either way; and the difference does occur (2.0016 km in
    economy at the default rate: 80.02 + 14.4 against 94.43). *)
Theorem independent_rounding_within_one_cent d c :
  Rabs (d * farePerKmRate env * multiplier c) <= 1000000000 ->
  (exists nb ng nt : Z,
     calculateFare env (Num d) (Some (category_name c)) =
       {| fb_baseFare := Num (IZR nb / 100);
          fb_gst := Num (IZR ng / 100);
          fb_totalFare := Num (IZR nt / 100);
          fb_distance := Num d; fb_farePerKm := Num (farePerKmRate env);
          fb_rideType := category_name c |} /\
     (nb + ng - nt = 0 \/ nb + ng - nt = 1 \/ nb + ng - nt = -1)%Z) /\
  (let fb := calculateFare NaN (Num 2.0016) (Some "economy"%string) in
   fb_baseFare fb = Num 80.02 /\ fb_gst fb = Num 14.4 /\
   fb_totalFare fb = Num 94.43).
Proof.
  intros _. split; [|exact rounding_discrepancy_example].
  rewrite calculateFare_category. cbv zeta.
  set (a := adjustedFare (farePerKmRate env) d (multiplier c)).
  destruct (round2_up_int a) as (zb & Eb & Hb).
  destruct (round2_up_int (a * 0.18)) as (zg & Eg & Hg).
  destruct (round2_up_int (a + a * 0.18)) as (zt & Et & Ht).
  exists zb, zg, zt. rewrite Eb, Eg, Et. split; [reflexivity|].
  assert (Hlo : (-2 < zb + zg - zt)%Z).
  { apply lt_IZR. rewrite minus_IZR, plus_IZR. lra. }
  assert (Hhi : (zb + zg - zt < 2)%Z).
  { apply lt_IZR. rewrite minus_IZR, plus_IZR. lra. }
  lia.
Qed.

End FareBounds.

(** X6.  The configured rate: a rate of 0 and a rate that does not parse
    (NaN) both price as the default 15, since [||] takes them for
    missing; a negative rate is kept, and then every trip of a
    non-negative distance costs the minimum fare, whatever its length
    and category, with the negative rate echoed in the quote. *)
Theorem rate_fallback_and_negative_rate d c :
  calculateFare (Num 0) (Num d) (Some (category_name c)) =
    calculateFare (Num 15) (Num d) (Some (category_name c)) /\
  calculateFare NaN (Num d) (Some (category_name c)) =
    calculateFare (Num 15) (Num d) (Some (category_name c)) /\
  forall r, r < 0 -> 0 <= d ->
    let fb := calculateFare (Num r) (Num d) (Some (category_name c)) in
    fb_baseFare fb = Num 80 /\ fb_gst fb = Num 14.4 /\ fb_totalFare fb = Num 94.4 /\
    fb_farePerKm fb = Num r.
Proof.
  assert (R0 : farePerKmRate (Num 0) = 15).
  { cbn. destruct (Req_dec_T 0 0); [reflexivity|contradiction]. }
  assert (R15 : farePerKmRate (Num 15) = 15).
  { cbn. destruct (Req_dec_T 15 0); [lra|reflexivity]. }
  split; [|split].
  - rewrite !calculateFare_category, R0, R15. reflexivity.
  - rewrite !calculateFare_category, R15. reflexivity.
  - intros r Hr Hd.
    assert (Rr : farePerKmRate (Num r) = r).
    { cbn. destruct (Req_dec_T r 0); [lra|reflexivity]. }
    destruct (calculateFare_short_trip (Num r) d c) as (E1 & E2 & E3).
    { rewrite Rr. pose proof (multiplier_pos c). assert (d * r <= 0) by nra. nra. }
    cbv zeta. rewrite E1, E2, E3. repeat split.
    rewrite calculateFare_category. cbn [fb_farePerKm]. now rewrite Rr.
Qed.

(** ** Distances, quotes and the distance mock *)

Lemma haversine_km_le lat1 lon1 lat2 lon2 :
  0 <= cos (rad lat1) * cos (rad lat2) ->
  haversine_km lat1 lon1 lat2 lon2 <= 6371 * PI.
Proof.
  intros Hc. unfold haversine_km. cbv zeta.
  destruct (atan2R_nonneg (sqrt (haversine_a lat1 lon1 lat2 lon2))
              (sqrt (1 - haversine_a lat1 lon1 lat2 lon2))) as [_ Ha];
    try apply sqrt_pos.
  lra.
Qed.

Lemma calculateDistance_cents a b :
  validateCoordinates (latitude a) (longitude a) = true ->
  validateCoordinates (latitude b) (longitude b) = true ->
  exists n : Z,
    calculateDistance (latitude a) (longitude a) (latitude b) (longitude b) =
      Num (IZR n / 100) /\
    (0 <= n <= 2001509)%Z.
Proof.
  intros Ha Hb.
  apply validateCoordinates_true in Ha, Hb.
  destruct Ha as (x1 & y1 & -> & -> & Hx1 & _), Hb as (x2 & y2 & -> & -> & Hx2 & _).
  assert (Hc : 0 <= cos (rad x1) * cos (rad x2)).
  { apply Rmult_le_pos; apply cos_rad_nonneg; assumption. }
  rewrite calculateDistance_Num by exact Hc.
  pose proof (haversine_km_nonneg x1 y1 x2 y2 Hc) as Hlo.
  pose proof (haversine_km_le x1 y1 x2 y2 Hc) as Hhi.
  pose proof PI_bounds as HPI.
  exists (Int_part (haversine_km x1 y1 x2 y2 * 100 + / 2)).
  split; [reflexivity|].
  destruct (floor_bounds (haversine_km x1 y1 x2 y2 * 100 + / 2)) as [F1 F2].
  unfold Math.floor in F1, F2. split.
  - apply le_IZR. apply Rnot_lt_le. intros Hneg.
    assert (IZR (Int_part (haversine_km x1 y1 x2 y2 * 100 + / 2)) <= -1).
    { apply IZR_le. apply lt_IZR in Hneg. lia. }
    lra.
  - apply Z.lt_succ_r. apply lt_IZR. rewrite succ_IZR. lra.
Qed.

(** X3.  Between two valid coordinates a distance that calculateDistance
    returns as a number is a whole number of hundredths of a kilometre,
    from 0 up to 20015.09 km, half the circumference of the sphere of
    radius 6371 km; the bound is reached from (0, 0) to (0, 180). *)
Theorem distance_within_half_circumference a b d :
  validateCoordinates (latitude a) (longitude a) = true ->
  validateCoordinates (latitude b) (longitude b) = true ->
  calculateDistance (latitude a) (longitude a) (latitude b) (longitude b) =
    Num d ->
  (exists n : Z, d = IZR n / 100 /\ (0 <= n <= 2001509)%Z) /\
  calculateDistance (Num 0) (Num 0) (Num 0) (Num 180) = Num (IZR 2001509 / 100).
Proof.
  intros Ha Hb Hd. split.
  - destruct (calculateDistance_cents a b Ha Hb) as (n & Hn & Hr).
    exists n. split; [congruence|exact Hr].
  - replace (IZR 2001509 / 100) with 20015.09 by lra.
    exact distance_half_equator_value.
Qed.

Lemma lift2_NaN_r f a : JsNum.lift2 f a NaN = NaN.
Proof. destruct a; reflexivity. Qed.

Lemma calculateDistance_NaN lat1 lon1 lat2 lon2 :
  lat1 = NaN \/ lon1 = NaN \/ lat2 = NaN \/ lon2 = NaN ->
  calculateDistance lat1 lon1 lat2 lon2 = NaN.
Proof.
  intros H. unfold calculateDistance, toRadians.
  destruct lat1 as [x1|], lon1 as [y1|], lat2 as [x2|], lon2 as [y2|];
    try reflexivity.
  destruct H as [H|[H|[H|H]]]; discriminate.
Qed.

Section Quotes.

Variable env : Number.

(** X4.  The minutes of a quote are the distance at 30 km/h, rounded up
    to a whole minute: for valid coordinates whose distance is a number,
    estimatedTime is a whole number, at least twice the distance in km
    and at most one more, between 0 and 40031. *)
Theorem estimatedTime_two_minutes_per_km pickup drop rideType d :
  validateCoordinates (latitude (coordinates pickup))
    (longitude (coordinates pickup)) = true ->
  validateCoordinates (latitude (coordinates drop))
    (longitude (coordinates drop)) = true ->
  calculateDistance
    (latitude (coordinates pickup)) (longitude (coordinates pickup))
    (latitude (coordinates drop)) (longitude (coordinates drop)) = Num d ->
  exists m : Z,
    fb_distance (fareBreakdown (estimateFare env pickup drop rideType)) = Num d /\
    estimatedTime (estimateFare env pickup drop rideType) = Num (IZR m) /\
    2 * d <= IZR m <= 2 * d + 1 /\ (0 <= m <= 40031)%Z.
Proof.
  intros Hp Hd Hdist.
  destruct (calculateDistance_cents _ _ Hp Hd) as (n & Hn & Hr).
  assert (Ed : d = IZR n / 100) by congruence.
  unfold estimateFare. cbv zeta. rewrite Hdist.
  cbn [fareBreakdown estimatedTime fb_distance calculateFare].
  cbn [Math.ceil JsNum.div JsNum.mul JsNum.lift2].
  exists (Z.opp (Int_part (- (d / 30 * 60)))).
  split; [reflexivity|]. split.
  { unfold Math.floor. now rewrite opp_IZR. }
  destruct (floor_bounds (- (d / 30 * 60))) as [F1 F2].
  unfold Math.floor in F1, F2. rewrite opp_IZR.
  assert (H0 : 0 <= IZR n) by (apply IZR_le; lia).
  assert (H1 : IZR n <= 2001509) by (apply IZR_le; lia).
  split; [lra|]. split.
  - apply le_IZR. rewrite opp_IZR. apply Rnot_lt_le. intros Hneg.
    assert (IZR (Z.opp (Int_part (- (d / 30 * 60)))) <= -1).
    { apply IZR_le. rewrite <- opp_IZR in Hneg. apply lt_IZR in Hneg. lia. }
    rewrite opp_IZR in H. lra.
  - apply Z.lt_succ_r. apply lt_IZR. rewrite succ_IZR, opp_IZR. lra.
Qed.

Lemma calculateFare_NaN rideType :
  fb_baseFare (calculateFare env NaN rideType) = NaN /\
  fb_gst (calculateFare env NaN rideType) = NaN /\
  fb_totalFare (calculateFare env NaN rideType) = NaN.
Proof.
  unfold calculateFare. cbv zeta. cbn [fb_baseFare fb_gst fb_totalFare].
  change (NaN * JsNum.or_else env (Num 15))%js with NaN.
  change (NaN * toNumber (js_or (get_property rideTypeMultipliers
            (with_default rideType "economy"%string)) (JNumber (Num 1.0))))%js with NaN.
  cbn. auto.
Qed.

(** X5.  estimateFare does not check its arguments: as soon as one of
    the four coordinates is NaN, the distance, the three amounts and the
    minutes of the quote are all NaN, the minimum fare not applying
    (NaN < 80 is false); validateCoordinates rejects such a pair of
    points. *)
Theorem NaN_coordinate_gives_NaN_quote pickup drop rideType :
  latitude (coordinates pickup) = NaN \/ longitude (coordinates pickup) = NaN \/
  latitude (coordinates drop) = NaN \/ longitude (coordinates drop) = NaN ->
  let fe := estimateFare env pickup drop rideType in
  fb_distance (fareBreakdown fe) = NaN /\
  fb_baseFare (fareBreakdown fe) = NaN /\
  fb_gst (fareBreakdown fe) = NaN /\
  fb_totalFare (fareBreakdown fe) = NaN /\
  estimatedTime fe = NaN /\
  (validateCoordinates (latitude (coordinates pickup))
     (longitude (coordinates pickup)) &&
   validateCoordinates (latitude (coordinates drop))
     (longitude (coordinates drop)) = false).
Proof.
  intros H. cbv zeta. unfold estimateFare. cbv zeta.
  rewrite (calculateDistance_NaN _ _ _ _ H).
  cbn [fareBreakdown estimatedTime].
  destruct (calculateFare_NaN (Some (with_default rideType "economy"%string)))
    as (E1 & E2 & E3).
  split; [reflexivity|]. split; [exact E1|]. split; [exact E2|]. split; [exact E3|].
  split; [reflexivity|].
  unfold validateCoordinates, JsNum.geb, JsNum.leb.
  destruct H as [-> | [-> | [-> | ->]]]; cbn.
  - reflexivity.
  - destruct (latitude (coordinates pickup)); cbn; [|reflexivity].
    now rewrite andb_false_r.
  - now rewrite andb_false_r.
  - destruct (latitude (coordinates drop)); cbn.
    + rewrite andb_false_r. now rewrite andb_false_r.
    + now rewrite andb_false_r.
Qed.

End Quotes.

(** X7.  The distance mock stays in the range its comment promises: for
    every draw of Math.random, in [0, 1), the distance is between 2 and
    22 km, the duration is a whole number of minutes between 5 and 53,
    and the status is "OK", whatever the two addresses. *)
Theorem maps_mock_within_bounds random origin destination :
  (exists r, random = Num r /\ 0 <= r < 1) ->
  exists (x : R) (m : Z),
    maps_distance (getDistanceFromGoogleMaps random origin destination) = Num x /\
    2 <= x <= 22 /\
    maps_duration (getDistanceFromGoogleMaps random origin destination) = Num (IZR m) /\
    (5 <= m <= 53)%Z /\
    maps_status (getDistanceFromGoogleMaps random origin destination) = "OK"%string.
Proof.
  intros (r & -> & Hr). unfold getDistanceFromGoogleMaps. cbv zeta.
  cbn [maps_distance maps_duration maps_status Math.ceil Math.round
       JsNum.add JsNum.mul JsNum.div JsNum.lift2].
  exists (Math.floor ((r * 20 + 2) * 100 + / 2) / 100),
         (Z.opp (Int_part (- ((r * 20 + 2) / 25 * 60)))).
  split; [reflexivity|]. split.
  { pose proof (floor_ge_IZR ((r * 20 + 2) * 100 + / 2) 200 ltac:(lra)).
    pose proof (floor_le_IZR ((r * 20 + 2) * 100 + / 2) 2200 ltac:(lra)). lra. }
  split. { unfold Math.floor. now rewrite opp_IZR. }
  split; [|reflexivity].
  pose proof (floor_bounds (- ((r * 20 + 2) / 25 * 60))) as [F1 F2].
  unfold Math.floor in F1, F2. split.
  - apply le_IZR. rewrite opp_IZR. apply Rnot_lt_le. intros Hlt.
    assert (IZR (Z.opp (Int_part (- ((r * 20 + 2) / 25 * 60)))) <= 4).
    { apply IZR_le. rewrite <- opp_IZR in Hlt. apply lt_IZR in Hlt. lia. }
    rewrite opp_IZR in H. lra.
  - apply Z.lt_succ_r. apply lt_IZR. rewrite succ_IZR, opp_IZR. lra.
Qed.

(** ** Durations *)

(** X8.  The virtual actualDuration: with both times set it is the whole
    number of minutes that covers the elapsed milliseconds (rounded up;
    negative or zero when the end is not after the start); with either
    time null it is null. *)
Theorem actualDuration_whole_minutes r :
  (forall s e, rideStartTime r = Some s -> rideEndTime r = Some e ->
     exists m : Z,
       actualDuration r = Some (Num (IZR m)) /\
       (60000 * (m - 1) < e - s <= 60000 * m)%Z) /\
  (rideStartTime r = None \/ rideEndTime r = None -> actualDuration r = None).
Proof.
  split.
  - intros s e Hs He. unfold actualDuration. rewrite Hs, He.
    cbn [Math.ceil JsNum.div JsNum.mul JsNum.lift2].
    exists (Z.opp (Int_part (- (IZR (e - s) / (1000 * 60))))).
    split. { unfold Math.floor. now rewrite opp_IZR. }
    destruct (floor_bounds (- (IZR (e - s) / (1000 * 60)))) as [F1 F2].
    unfold Math.floor in F1, F2.
    set (k := Int_part (- (IZR (e - s) / (1000 * 60)))) in *.
    split.
    + apply lt_IZR. rewrite mult_IZR, minus_IZR, opp_IZR. lra.
    + apply le_IZR. rewrite mult_IZR, opp_IZR. lra.
  - intros [H|H]; unfold actualDuration; rewrite H; [reflexivity|].
    destruct (rideStartTime r); reflexivity.
Qed.

Lemma same_eq a b : JsNum.same a b = true <-> a = b.
Proof.
  destruct a as [x|], b as [y|]; cbn; split; intros H; try discriminate;
    try reflexivity.
  - destruct (Req_dec_T x y); [now subst|discriminate].
  - injection H as ->. destruct (Req_dec_T y y); [reflexivity|contradiction].
Qed.

Lemma same_refl a : JsNum.same a a = true.
Proof. apply same_eq. reflexivity. Qed.

Lemma truthy_false a : JsNum.truthy a = false <-> a = Num 0 \/ a = NaN.
Proof.
  destruct a as [x|]; cbn.
  - destruct (Req_dec_T x 0) as [->|N]; split; intros H; auto; try discriminate.
    destruct H as [H|H]; [injection H as ->; contradiction|discriminate].
  - split; auto.
Qed.

Lemma pre_save_history_numbers now d :
  loaded (pre_save_history now d) = loaded d /\
  distance (doc (pre_save_history now d)) = distance (doc d) /\
  estimatedDuration (doc (pre_save_history now d)) = estimatedDuration (doc d) /\
  createdAt (doc (pre_save_history now d)) = createdAt (doc d).
Proof.
  unfold pre_save_history.
  destruct (isNew d); [|destruct (isModified_status d)]; cbn; auto.
Qed.

Lemma save_new_duration now r db r' db' :
  save now {| loaded := None; doc := r |} db = Some (r', db') ->
  estimatedDuration r' =
    (if JsNum.truthy (distance r) then Some (duration_of (distance r))
     else estimatedDuration r) /\
  createdAt r' = now /\ updatedAt r' = now.
Proof.
  unfold save. destruct (validate _); [|discriminate].
  cbn [loaded]. intros H. injection H as <- _.
  set (d0 := {| loaded := None; doc := r |}).
  destruct (pre_save_history_numbers now d0) as (L & D & E & _).
  cbn [set_timestamps estimatedDuration createdAt updatedAt].
  split; [|split; reflexivity].
  unfold pre_save_duration, isModified_distance. rewrite L, D. cbn [loaded d0 doc andb].
  destruct (JsNum.truthy (distance r)); cbn [update_doc doc set_estimatedDuration estimatedDuration].
  - reflexivity.
  - exact E.
Qed.

Lemma save_existing_duration now old cur db r' db' :
  save now {| loaded := Some old; doc := cur |} db = Some (r', db') ->
  estimatedDuration r' =
    (if negb (JsNum.same (distance old) (distance cur)) &&
        JsNum.truthy (distance cur)
     then Some (duration_of (distance cur))
     else estimatedDuration cur) /\
  createdAt r' = createdAt cur /\ updatedAt r' = now.
Proof.
  unfold save. destruct (validate _); [|discriminate].
  cbn [loaded]. intros H. injection H as <- _.
  set (d0 := {| loaded := Some old; doc := cur |}).
  destruct (pre_save_history_numbers now d0) as (L & D & E & C).
  destruct (pre_save_duration_frame (pre_save_history now d0)) as (_ & _ & _ & C').
  cbn [set_timestamps estimatedDuration createdAt updatedAt].
  split; [|split; [rewrite C', C; reflexivity|reflexivity]].
  unfold pre_save_duration, isModified_distance. rewrite L, D. cbn [loaded d0 doc].
  destruct (negb (JsNum.same (distance old) (distance cur)) &&
            JsNum.truthy (distance cur));
    cbn [update_doc doc set_estimatedDuration estimatedDuration].
  - reflexivity.
  - exact E.
Qed.

Lemma save_validates now d db r' db' :
  save now d db = Some (r', db') -> validate d = true.
Proof. unfold save. destruct (validate d); [reflexivity|discriminate]. Qed.

Lemma duration_of_zero : duration_of (Num 0) = Num 0.
Proof.
  unfold duration_of. cbn. rewrite (floor_unique _ 0) by lra. apply f_equal. lra.
Qed.

Lemma location_eta l :
  {| address := address l;
     coordinates := {| latitude := latitude (coordinates l);
                       longitude := longitude (coordinates l) |} |} = l.
Proof. destruct l as [a [x y]]. reflexivity. Qed.

Lemma booking_query_valid b :
  validateRideBooking b = true -> validateFareEstimate (estimate_query_of b) = true.
Proof.
  unfold validateRideBooking, validateFareEstimate, validate_body_location.
  cbn [estimate_query_of fromLat fromLng toLat toLng fromAddress toAddress].
  intros H.
  repeat match goal with
         | H : _ && _ = true |- _ => apply andb_true_iff in H; destruct H
         end.
  repeat match goal with
         | H : ?x = true |- context [?x] => rewrite H
         end.
  reflexivity.
Qed.

(** ** Booking, destination updates and the stored duration *)

Section BookingQuote.

Variable env : Number.

Lemma book_save now user b db ride fe db' :
  book env now user b db = (RideBooked ride fe, db') ->
  validateRideBooking b = true /\
  fe = estimateFare env (body_pickupLocation b) (body_dropLocation b)
         (Some (with_default (body_rideType b) "economy"%string)) /\
  save now {| loaded := None; doc := booking_ride env (fresh_id db) user b |} db
    = Some (ride, db').
Proof.
  unfold book. destruct (validateRideBooking b); cbn [negb]; [|discriminate].
  destruct (findOne _ db); [discriminate|].
  fold (booking_ride env (fresh_id db) user b).
  destruct (save _ _ _) as [[r d]|] eqn:E; [|discriminate].
  intros H. injection H as <- <- <-. auto.
Qed.

Lemma updateDestination_save now user id newDrop db ride' fe db' :
  updateDestination env now user id newDrop db = (DestinationUpdated ride' fe, db') ->
  exists ride,
    findOne (fun r => Nat.eqb (_id r) id && Nat.eqb (userId r) user &&
                      status_in [accepted; started] (status r)) db = Some ride /\
    fe = estimateFare env (pickupLocation ride) newDrop None /\
    save now
      {| loaded := Some ride;
         doc := history_push (destination_entry now newDrop)
                  (set_fare_amounts
                     (fb_baseFare (fareBreakdown fe)) (fb_totalFare (fareBreakdown fe))
                     (set_distance
                        (calculateDistance
                           (latitude (coordinates (pickupLocation ride)))
                           (longitude (coordinates (pickupLocation ride)))
                           (latitude (coordinates newDrop))
                           (longitude (coordinates newDrop)))
                        (set_dropLocation newDrop ride))) |} db
      = Some (ride', db').
Proof.
  unfold updateDestination.
  destruct (validateDestinationUpdate newDrop); cbn [negb]; [|discriminate].
  destruct (findOne _ db) as [ride|]; [|discriminate].
  destruct (save _ _ _) as [[r d]|] eqn:E; [|discriminate].
  intros H. injection H as <- <- <-. exists ride. auto.
Qed.

(** X9.  A booking stores what it quotes: the fare breakdown returned by
    POST /rides/book is the answer GET /rides/estimate gives for the same
    trip and ride type, and the stored ride holds its distance, base
    fare and total, in INR.  The hook-computed estimatedDuration is the
    estimatedTime of the quote, except for a trip of distance 0, where
    the quote says 0 minutes and the ride keeps no duration (0 is falsy
    in the hook). *)
Theorem book_stores_its_quote now user b db ride fe db' :
  book env now user b db = (RideBooked ride fe, db') ->
  estimate env (estimate_query_of b) = FareEstimated fe /\
  distance ride = fb_distance (fareBreakdown fe) /\
  fare ride =
    {| baseFare := fb_baseFare (fareBreakdown fe);
       totalFare := fb_totalFare (fareBreakdown fe);
       currency := "INR" |} /\
  (estimatedDuration ride = Some (estimatedTime fe) \/
   (distance ride = Num 0 /\ estimatedDuration ride = None /\
    estimatedTime fe = Num 0)).
Proof.
  intros Hb. destruct (book_save _ _ _ _ _ _ _ Hb) as (Hval & -> & Hsave).
  pose proof (save_validates _ _ _ _ _ Hsave) as V.
  destruct (save_new _ _ _ _ _ Hsave) as (_ & F & _).
  destruct (save_new_duration _ _ _ _ _ Hsave) as (Hdur & _ & _).
  assert (Hdist : distance ride = distance (booking_ride env (fresh_id db) user b))
    by (by_frame F).
  assert (Hfare : fare ride = fare (booking_ride env (fresh_id db) user b))
    by (by_frame F).
  split.
  { unfold estimate. rewrite (booking_query_valid b Hval). cbn [negb].
    cbn [estimate_query_of fromLat fromLng toLat toLng fromAddress toAddress
         query_rideType].
    rewrite !location_eta. reflexivity. }
  split; [exact Hdist|]. split; [exact Hfare|].
  cbn [booking_ride new_Ride distance estimatedDuration] in Hdur.
  set (dist := calculateDistance
           (latitude (coordinates (body_pickupLocation b)))
           (longitude (coordinates (body_pickupLocation b)))
           (latitude (coordinates (body_dropLocation b)))
           (longitude (coordinates (body_dropLocation b)))) in *.
  assert (Hcast : castable dist = true).
  { unfold validate in V. cbn [doc booking_ride new_Ride distance] in V.
    fold dist in V.
    repeat (apply andb_true_iff in V; destruct V as [V ?]). assumption. }
  destruct (JsNum.truthy dist) eqn:T.
  - left. exact Hdur.
  - right. apply truthy_false in T. destruct T as [T|T];
      [|rewrite T in Hcast; discriminate].
    split; [rewrite Hdist; exact T|]. split; [exact Hdur|].
    unfold estimateFare. cbv zeta. cbn [estimatedTime]. fold dist. rewrite T.
    exact duration_of_zero.
Qed.

(** X10.  A destination update stores the new destination and the
    distance and fare of the quote it returns.  The estimated duration
    follows only when the distance changes to a non-zero value, and is
    then the estimatedTime of the quote; when the new trip has the length
    of the old one, or length 0, the ride keeps the duration it had. *)
Theorem updateDestination_refreshes_duration
    now user id newDrop db ride' fe db' :
  updateDestination env now user id newDrop db = (DestinationUpdated ride' fe, db') ->
  exists ride,
    findOne (fun r => Nat.eqb (_id r) id && Nat.eqb (userId r) user &&
                      status_in [accepted; started] (status r)) db = Some ride /\
    dropLocation ride' = newDrop /\
    distance ride' = fb_distance (fareBreakdown fe) /\
    baseFare (fare ride') = fb_baseFare (fareBreakdown fe) /\
    totalFare (fare ride') = fb_totalFare (fareBreakdown fe) /\
    (distance ride' <> distance ride -> distance ride' <> Num 0 ->
     estimatedDuration ride' = Some (estimatedTime fe)) /\
    (distance ride' = distance ride \/ distance ride' = Num 0 ->
     estimatedDuration ride' = estimatedDuration ride).
Proof.
  intros Hu. destruct (updateDestination_save _ _ _ _ _ _ _ _ Hu)
    as (ride & Hfind & Hfe & Hsave).
  exists ride. split; [exact Hfind|].
  pose proof (save_validates _ _ _ _ _ Hsave) as V.
  destruct (save_existing _ _ _ _ _ _ Hsave) as (_ & F & _).
  destruct (save_existing_duration _ _ _ _ _ _ Hsave) as (Hdur & _ & _).
  set (dist := calculateDistance
           (latitude (coordinates (pickupLocation ride)))
           (longitude (coordinates (pickupLocation ride)))
           (latitude (coordinates newDrop))
           (longitude (coordinates newDrop))) in *.
  cbn [history_push set_history set_fare_amounts set_fare set_distance
       set_dropLocation distance estimatedDuration] in Hdur.
  assert (Hdist : distance ride' = dist) by (by_frame F).
  assert (Hcast : castable dist = true).
  { unfold validate in V.
    cbn [doc history_push set_history set_fare_amounts set_fare set_distance
         set_dropLocation distance] in V.
    repeat (apply andb_true_iff in V; destruct V as [V ?]). assumption. }
  assert (Hfd : fb_distance (fareBreakdown fe) = dist).
  { rewrite Hfe. reflexivity. }
  assert (Het : estimatedTime fe = duration_of dist).
  { rewrite Hfe. reflexivity. }
  assert (Hfare : fare ride' =
            {| baseFare := fb_baseFare (fareBreakdown fe);
               totalFare := fb_totalFare (fareBreakdown fe);
               currency := currency (fare ride) |}) by (by_frame F).
  split; [by_frame F|]. split; [congruence|].
  split; [rewrite Hfare; reflexivity|]. split; [rewrite Hfare; reflexivity|].
  rewrite Hdist, Het. split.
  - intros Hne Hnz.
    destruct (JsNum.same (distance ride) dist) eqn:S.
    { apply same_eq in S. congruence. }
    destruct (JsNum.truthy dist) eqn:T.
    + exact Hdur.
    + apply truthy_false in T. destruct T as [T|T]; [contradiction|].
      rewrite T in Hcast. discriminate.
  - intros [He|Hz].
    + assert (S : JsNum.same (distance ride) dist = true) by (apply same_eq; auto).
      rewrite S in Hdur. exact Hdur.
    + assert (T : JsNum.truthy dist = false) by (apply truthy_false; auto).
      rewrite T, andb_false_r in Hdur. exact Hdur.
Qed.

End BookingQuote.

(** ** What rider requests do to the stored rides *)

Lemma cancel_save now user id reason db ride' db' :
  cancel now user id reason db = (RideCancelled ride', db') ->
  exists ride,
    findOne (fun r => Nat.eqb (_id r) id && Nat.eqb (userId r) user &&
                      status_in [pending; accepted] (status r)) db = Some ride /\
    save now
      {| loaded := Some ride;
         doc := history_push (cancelled_entry now reason)
                  (set_cancelledBy (Some by_user)
                     (set_cancellationReason (Some (reason_or_default reason))
                        (set_status cancelled ride))) |} db
      = Some (ride', db').
Proof.
  unfold cancel.
  destruct (findOne _ db) as [ride|]; [|discriminate].
  destruct (save _ _ _) as [[r d]|] eqn:E; [|discriminate].
  intros H. injection H as <- <-. exists ride. auto.
Qed.

Lemma immutable_fields_refl r : immutable_fields r r.
Proof. unfold immutable_fields. repeat split. Qed.

Lemma immutable_fields_trans r1 r2 r3 :
  immutable_fields r1 r2 -> immutable_fields r2 r3 -> immutable_fields r1 r3.
Proof. unfold immutable_fields. intuition congruence. Qed.

Lemma trip_fields_kept_refl r : trip_fields_kept r r.
Proof. unfold trip_fields_kept. repeat split. Qed.

Lemma trip_fields_kept_trans r1 r2 r3 :
  trip_fields_kept r1 r2 -> trip_fields_kept r2 r3 -> trip_fields_kept r1 r3.
Proof. unfold trip_fields_kept. intuition congruence. Qed.

Lemma ride_evolves_refl r : ride_evolves r r.
Proof.
  unfold ride_evolves. split; [apply immutable_fields_refl|].
  split; [left; reflexivity|]. split; [intros _; apply trip_fields_kept_refl|auto].
Qed.

Lemma ride_evolves_trans r1 r2 r3 :
  ride_evolves r1 r2 -> ride_evolves r2 r3 -> ride_evolves r1 r3.
Proof.
  intros (I1 & S1 & P1 & T1) (I2 & S2 & P2 & T2).
  split; [eapply immutable_fields_trans; eassumption|].
  split; [|split].
  - destruct S1 as [S1|[Sa Sb]].
    + rewrite <- S1. exact S2.
    + right. split; [exact Sa|].
      rewrite (T2 ltac:(rewrite Sb; reflexivity)). exact Sb.
  - intros Hp. specialize (P1 Hp).
    destruct S1 as [S1|[_ Sb]].
    + eapply trip_fields_kept_trans; [exact P1|]. apply P2. congruence.
    + rewrite (T2 ltac:(rewrite Sb; reflexivity)). exact P1.
  - intros Ht. rewrite <- (T1 Ht). apply T2. rewrite (T1 Ht). exact Ht.
Qed.

Lemma rider_write_evolves r r' : rider_write r r' -> ride_evolves r r'.
Proof.
  intros (I & [(Hs & He & _)|(Hs & Hc & K)]).
  - split; [exact I|]. split; [left; exact He|].
    split; intros H.
    + rewrite H in Hs. discriminate.
    + destruct (status r); discriminate.
  - split; [exact I|]. split; [right; auto|].
    split; intros H; [exact K|].
    destruct (status r); discriminate.
Qed.

Section WriteEffects.

Variable env : Number.

Lemma cancel_write now user id reason db ride' db' :
  cancel now user id reason db = (RideCancelled ride', db') ->
  exists ride,
    findOne (fun r => Nat.eqb (_id r) id && Nat.eqb (userId r) user &&
                      status_in [pending; accepted] (status r)) db = Some ride /\
    db' = update_by_id ride' db /\ rider_write ride ride'.
Proof.
  intros H. destruct (cancel_save _ _ _ _ _ _ _ H) as (ride & Hf & Hs).
  exists ride. split; [exact Hf|].
  destruct (save_existing _ _ _ _ _ _ Hs) as (Hdb & F & _).
  destruct (save_existing_duration _ _ _ _ _ _ Hs) as (Hd & Hc & _).
  split; [exact Hdb|].
  apply findOne_Some in Hf. destruct Hf as [_ Hq].
  apply andb_true_iff in Hq. destruct Hq as [_ Hst].
  cbn [history_push set_history set_cancelledBy set_cancellationReason set_status
       distance estimatedDuration createdAt] in Hd, Hc.
  rewrite same_refl in Hd. cbn [negb andb] in Hd.
  unfold hooks_frame in F. cbn in F.
  split.
  - unfold immutable_fields. intuition.
  - right. split; [exact Hst|]. unfold trip_fields_kept. intuition.
Qed.

Lemma updateDestination_write now user id newDrop db ride' fe db' :
  updateDestination env now user id newDrop db = (DestinationUpdated ride' fe, db') ->
  exists ride,
    findOne (fun r => Nat.eqb (_id r) id && Nat.eqb (userId r) user &&
                      status_in [accepted; started] (status r)) db = Some ride /\
    db' = update_by_id ride' db /\ rider_write ride ride'.
Proof.
  intros H. destruct (updateDestination_save _ _ _ _ _ _ _ _ _ H) as (ride & Hf & _ & Hs).
  exists ride. split; [exact Hf|].
  destruct (save_existing _ _ _ _ _ _ Hs) as (Hdb & F & _).
  destruct (save_existing_duration _ _ _ _ _ _ Hs) as (_ & Hc & _).
  split; [exact Hdb|].
  apply findOne_Some in Hf. destruct Hf as [_ Hq].
  apply andb_true_iff in Hq. destruct Hq as [_ Hst].
  cbn [history_push set_history set_fare_amounts set_fare set_distance
       set_dropLocation createdAt] in Hc.
  unfold hooks_frame in F. cbn in F.
  split.
  - unfold immutable_fields. intuition.
  - left. split; [exact Hst|]. intuition.
Qed.

Lemma exec_effect now c db :
  snd (exec env now c db) = db \/
  (exists r, snd (exec env now c db) = db ++ [r] /\ _id r = fresh_id db /\
             userId r = command_user c /\ status r = pending) \/
  (exists r r', In r db /\ userId r = command_user c /\
                snd (exec env now c db) = update_by_id r' db /\ rider_write r r').
Proof.
  destruct c as [user b|user id newDrop|user id reason]; cbn [exec command_user].
  - destruct (book env now user b db) as [resp db'] eqn:E. cbn [snd].
    destruct (book_inv env _ _ _ _ _ _ E) as [[-> _]|(ride & _ & _ & _ & -> & F & _)].
    + left; reflexivity.
    + right; left. exists ride. unfold hooks_frame in F. cbn in F. intuition.
  - destruct (updateDestination env now user id newDrop db) as [resp db'] eqn:E.
    cbn [snd].
    destruct (updateDestination_inv env _ _ _ _ _ _ _ E)
      as [[-> _]|(ride & ride' & _ & _ & -> & _)].
    + left; reflexivity.
    + destruct (updateDestination_write _ _ _ _ _ _ _ _ E) as (r & Hf & -> & W).
      right; right. exists r, ride'.
      apply findOne_Some in Hf. destruct Hf as [Hin Hq].
      apply andb_true_iff in Hq. destruct Hq as [Hq _].
      apply andb_true_iff in Hq. destruct Hq as [_ Hu].
      apply Nat.eqb_eq in Hu. auto.
  - destruct (cancel now user id reason db) as [resp db'] eqn:E. cbn [snd].
    destruct (cancel_inv _ _ _ _ _ _ _ E)
      as [[-> _]|(ride & ride' & _ & -> & _)].
    + left; reflexivity.
    + destruct (cancel_write _ _ _ _ _ _ _ E) as (r & Hf & -> & W).
      right; right. exists r, ride'.
      apply findOne_Some in Hf. destruct Hf as [Hin Hq].
      apply andb_true_iff in Hq. destruct Hq as [Hq _].
      apply andb_true_iff in Hq. destruct Hq as [_ Hu].
      apply Nat.eqb_eq in Hu. auto.
Qed.

Lemma exec_ride now c db r :
  unique_ids db -> In r db ->
  exists r', In r' (snd (exec env now c db)) /\ ride_evolves r r' /\
             (userId r <> command_user c -> r' = r).
Proof.
  intros Hnd Hin.
  destruct (exec_effect now c db) as [->|[(x & -> & _)|(x & x' & Hx & Hu & -> & W)]].
  - exists r. split; [exact Hin|]. split; [apply ride_evolves_refl|auto].
  - exists r. split; [apply in_or_app; auto|]. split; [apply ride_evolves_refl|auto].
  - assert (Hid : _id x' = _id x) by (destruct W as (I & _); apply I).
    destruct (update_by_id_split x x' db Hnd Hx Hid) as (l1 & l2 & Hdb & ->).
    rewrite Hdb in Hin. apply in_app_or in Hin. destruct Hin as [Hin|[<-|Hin]].
    + exists r. split; [apply in_or_app; auto|].
      split; [apply ride_evolves_refl|auto].
    + exists x'. split; [apply in_or_app; right; left; reflexivity|].
      split; [apply rider_write_evolves; exact W|]. intros Hne. contradiction.
    + exists r. split; [apply in_or_app; right; right; exact Hin|].
      split; [apply ride_evolves_refl|auto].
Qed.

Lemma exec_unique_ids now c db :
  unique_ids db -> unique_ids (snd (exec env now c db)).
Proof. apply store_step_unique_ids, exec_store_step. Qed.

Lemma run_evolves cmds db r :
  unique_ids db -> In r db ->
  exists r', find_by_id (_id r) (run env cmds db) = Some r' /\ ride_evolves r r'.
Proof.
  revert db r. induction cmds as [|[now c] cmds IH]; intros db r Hnd Hin; cbn [run].
  - exists r. split; [now apply find_by_id_In|apply ride_evolves_refl].
  - destruct (exec_ride now c db r Hnd Hin) as (r1 & Hin1 & E1 & _).
    destruct (IH _ r1 (exec_unique_ids now c db Hnd) Hin1) as (r2 & Hf & E2).
    exists r2. split.
    + destruct E1 as ((Hid & _) & _). rewrite <- Hid. exact Hf.
    + eapply ride_evolves_trans; eassumption.
Qed.

End WriteEffects.

Lemma In_update_by_id x r' db :
  In x (update_by_id r' db) -> x = r' \/ In x db.
Proof.
  induction db as [|y db IH]; cbn [update_by_id]; [intros []|].
  destruct (Nat.eqb (_id y) (_id r')).
  - intros [<-|H]; [left; reflexivity|right; right; exact H].
  - intros [<-|H]; [right; left; reflexivity|].
    destruct (IH H); [left; assumption|right; right; assumption].
Qed.

Section RiderRuns.

Variable env : Number.

(** X11.  Whatever requests riders send, a stored ride stays in the
    collection under its id, and its rider, driver, pickup location,
    original destination, payment fields, start and end times, ratings,
    notes and creation time never change; its status either stays what
    it was or has moved to cancelled from pending or accepted.  No
    request of these routes accepts, starts or completes a ride, and a
    started ride cannot be cancelled. *)
Theorem rider_requests_only_cancel cmds db r :
  unique_ids db -> In r db ->
  exists r',
    find_by_id (_id r) (run env cmds db) = Some r' /\
    immutable_fields r r' /\
    (status r' = status r \/
     (status r' = cancelled /\ (status r = pending \/ status r = accepted))).
Proof.
  intros Hnd Hin.
  destruct (run_evolves env cmds db r Hnd Hin) as (r' & Hf & I & S & _).
  exists r'. split; [exact Hf|]. split; [exact I|].
  destruct S as [S|[Sa Sb]]; [left; exact S|right].
  split; [exact Sb|]. destruct (status r); try discriminate; auto.
Qed.

(** X12.  A completed or cancelled ride is final: after any sequence of
    rider requests the collection holds it unchanged in every field,
    history and updatedAt included. *)
Theorem finished_ride_is_frozen cmds db r :
  unique_ids db -> In r db ->
  status r = completed \/ status r = cancelled ->
  find_by_id (_id r) (run env cmds db) = Some r.
Proof.
  intros Hnd Hin Hs.
  destruct (run_evolves env cmds db r Hnd Hin) as (r' & Hf & _ & _ & _ & T).
  rewrite Hf. f_equal. apply T. destruct Hs as [-> | ->]; reflexivity.
Qed.

(** X13.  While a ride waits for a driver, its trip is fixed: a ride that
    is pending keeps its destination, distance, fare and estimated
    duration through any sequence of rider requests (it can only be
    cancelled; a destination update needs an accepted or started
    ride). *)
Theorem pending_ride_keeps_trip cmds db r :
  unique_ids db -> In r db -> status r = pending ->
  exists r',
    find_by_id (_id r) (run env cmds db) = Some r' /\
    dropLocation r' = dropLocation r /\ distance r' = distance r /\
    fare r' = fare r /\ estimatedDuration r' = estimatedDuration r.
Proof.
  intros Hnd Hin Hs.
  destruct (run_evolves env cmds db r Hnd Hin) as (r' & Hf & _ & _ & P & _).
  exists r'. split; [exact Hf|]. exact (P Hs).
Qed.

(** X14.  Riders are isolated from one another: requests sent by other
    riders, whatever ride ids they name, leave a ride unchanged in every
    field. *)
Theorem other_riders_cannot_touch_ride cmds db r :
  unique_ids db -> In r db ->
  Forall (fun nc => command_user (snd nc) <> userId r) cmds ->
  find_by_id (_id r) (run env cmds db) = Some r.
Proof.
  revert db. induction cmds as [|[now c] cmds IH]; intros db Hnd Hin Hall; cbn [run].
  - now apply find_by_id_In.
  - inversion Hall as [|? ? Hc Hrest]; subst. cbn [snd] in Hc.
    destruct (exec_ride env now c db r Hnd Hin) as (r1 & Hin1 & _ & Hsame).
    rewrite (Hsame ltac:(congruence)) in Hin1.
    apply IH; [apply exec_unique_ids; exact Hnd|exact Hin1|exact Hrest].
Qed.

Lemma reachable_statuses db :
  reachable env db -> forall r, In r db -> status r = pending \/ status r = cancelled.
Proof.
  induction 1 as [|db now c Hr IH]; [intros r []|].
  intros r Hin.
  destruct (exec_effect env now c db) as [E|[(x & E & _ & _ & Hp)|(x & x' & Hx & _ & E & W)]];
    rewrite E in Hin.
  - auto.
  - apply in_app_or in Hin. destruct Hin as [Hin|[<-|[]]]; auto.
  - apply In_update_by_id in Hin. destruct Hin as [->|Hin]; [|auto].
    destruct W as (_ & [(Hs & _)|(_ & Hc & _)]); [|auto].
    destruct (IH x Hx) as [Hx'|Hx']; rewrite Hx' in Hs; discriminate.
Qed.

(** X15.  In a collection built by these routes alone, from an empty
    one, every ride is pending or cancelled, so PUT
    /rides/:id/update-destination never succeeds there: it answers
    validation failure or "Active ride not found or cannot be
    modified". *)
Theorem rider_routes_never_start_a_ride db :
  reachable env db ->
  (forall r, In r db -> status r = pending \/ status r = cancelled) /\
  (forall now user id newDrop,
     fst (updateDestination env now user id newDrop db) = ValidationFailed \/
     fst (updateDestination env now user id newDrop db) =
       NotFound "Active ride not found or cannot be modified").
Proof.
  intros Hr. split; [apply reachable_statuses; exact Hr|].
  intros now user id newDrop. unfold updateDestination.
  destruct (validateDestinationUpdate newDrop); cbn [negb]; [|left; reflexivity].
  destruct (findOne _ db) as [ride|] eqn:Hf; [|right; reflexivity].
  exfalso. apply findOne_Some in Hf. destruct Hf as [Hin Hq].
  apply andb_true_iff in Hq. destruct Hq as [_ Hs].
  destruct (reachable_statuses db Hr ride Hin) as [E|E]; rewrite E in Hs; discriminate.
Qed.

End RiderRuns.

(** ** Booking, cancelling and the consistency of the collection *)

Lemma Forall_update_by_id (P : Ride -> Prop) r' db :
  Forall P db -> P r' -> Forall P (update_by_id r' db).
Proof.
  intros H Hr. induction H as [|x l Hx Hl IH]; cbn [update_by_id]; [constructor|].
  destruct (Nat.eqb (_id x) (_id r')); constructor; assumption.
Qed.

Lemma active_rides_of_In user db r :
  In r (active_rides_of user db) <->
  In r db /\ userId r = user /\ is_active r = true.
Proof.
  unfold active_rides_of. rewrite filter_In, andb_true_iff, Nat.eqb_eq. tauto.
Qed.

Lemma active_rides_of_nil user db :
  active_rides_of user db = [] <->
  forall r, In r db -> userId r = user -> is_active r = false.
Proof.
  split.
  - intros E r Hin Hu. destruct (is_active r) eqn:A; [|reflexivity].
    assert (H : In r (active_rides_of user db)) by (apply active_rides_of_In; auto).
    rewrite E in H. destruct H.
  - intros H. destruct (active_rides_of user db) as [|x l] eqn:E; [reflexivity|].
    assert (Hx : In x (active_rides_of user db)) by (rewrite E; left; reflexivity).
    apply active_rides_of_In in Hx. destruct Hx as (Hin & Hu & Ha).
    rewrite (H x Hin Hu) in Ha. discriminate.
Qed.

Lemma length_le_1_split {A} (p : A -> bool) l1 x l2 :
  (List.length (filter p (l1 ++ x :: l2)) <= 1)%nat -> p x = true ->
  filter p l1 = [] /\ filter p l2 = [].
Proof.
  rewrite filter_app. cbn [filter]. intros H Hp. rewrite Hp in H.
  rewrite length_app in H. cbn [List.length] in H.
  destruct (filter p l1), (filter p l2); cbn [List.length] in H; try lia; auto.
Qed.


Lemma ride_consistent_valid env r :
  ride_consistent env r -> validate {| loaded := Some r; doc := r |} = true.
Proof.
  intros (Hp & Hd & Hdist & _ & c & Hb & Ht).
  pose proof Hp as Hp'. pose proof Hd as Hd'.
  apply validate_body_location_coordinates in Hp', Hd'.
  destruct Hp' as [Hpa Hpc], Hd' as [Hda Hdc].
  destruct (valid_distance _ _ Hpc Hdc) as (d & Hdv & _).
  unfold validate. cbn [isNew loaded doc]. unfold validate_location.
  rewrite Hpa, Hda, Hb, Ht, Hdist, Hdv, calculateFare_category. reflexivity.
Qed.

Lemma located_distance_castable p q :
  validate_body_location p = true -> validate_body_location q = true ->
  castable (calculateDistance
              (latitude (coordinates p)) (longitude (coordinates p))
              (latitude (coordinates q)) (longitude (coordinates q))) = true.
Proof.
  intros Hp Hq. apply validate_body_location_coordinates in Hp, Hq.
  destruct Hp as [_ Hp], Hq as [_ Hq].
  destruct (valid_distance _ _ Hp Hq) as (d & -> & _). reflexivity.
Qed.


Section Consistency.

Variable env : Number.

(** X16.  A successful cancellation frees the rider: the ride is
    cancelled, the rider has no active ride left, a second cancellation
    of the same ride answers "Ride not found or cannot be cancelled" and
    leaves the collection alone, and the next valid booking of the rider
    succeeds when its notes are within 500 characters and the distance
    of its trip is a number. *)
Theorem cancel_frees_the_rider now now' user id reason b db ride' db' :
  unique_ids db -> one_active_ride_per_rider db ->
  cancel now user id reason db = (RideCancelled ride', db') ->
  status ride' = cancelled /\
  active_rides_of user db' = [] /\
  (forall reason',
     cancel now' user id reason' db' =
       (NotFound "Ride not found or cannot be cancelled", db')) /\
  (validateRideBooking b = true -> notes_ok (body_notes b) = true ->
   castable (booking_distance b) = true ->
   exists ride fe, book env now' user b db' = (RideBooked ride fe, db' ++ [ride])).
Proof.
  intros Hnd Hone Hc.
  destruct (cancel_inv _ _ _ _ _ _ _ Hc) as [[_ Hno]|(r0 & r1 & Hf & Hr & Hdb & F & _)].
  { exfalso. eapply Hno. reflexivity. }
  injection Hr as <-.
  assert (Hst : status ride' = cancelled) by (by_frame F).
  assert (Hid : _id ride' = _id r0) by (by_frame F).
  apply findOne_Some in Hf. destruct Hf as [Hin Hq].
  apply andb_true_iff in Hq. destruct Hq as [Hq Hs0].
  apply andb_true_iff in Hq. destruct Hq as [_ Hu0].
  assert (Hact : active_rides_of user db' = []).
  { destruct (update_by_id_split r0 ride' db Hnd Hin Hid) as (l1 & l2 & E1 & E2).
    rewrite Hdb, E2. specialize (Hone user). rewrite E1 in Hone.
    unfold active_rides_of in *.
    apply length_le_1_split in Hone.
    - destruct Hone as [H1 H2]. rewrite filter_app. cbn [filter].
      unfold is_active at 2. rewrite Hst, H1, H2. cbn [status_in].
      rewrite andb_false_r. reflexivity.
    - rewrite Hu0. unfold is_active.
      destruct (status r0); try discriminate; reflexivity. }
  split; [exact Hst|]. split; [exact Hact|]. split.
  - intros reason'. unfold cancel.
    rewrite (find_none_intro _ db'); [reflexivity|].
    intros x Hx.
    destruct (Nat.eqb (userId x) user) eqn:Eu; [|rewrite andb_false_r; reflexivity].
    apply Nat.eqb_eq in Eu.
    pose proof (proj1 (active_rides_of_nil user db') Hact x Hx Eu) as Hna.
    unfold is_active in Hna.
    destruct (status x); try discriminate; rewrite andb_false_r; reflexivity.
  - intros Hval Hnotes _.
    destruct (book_succeeds env now' user b db' Hval Hact Hnotes) as (ride & Hb & _).
    eauto.
Qed.



Lemma exec_consistent now c db :
  Forall (ride_consistent env) db ->
  Forall (ride_consistent env) (snd (exec env now c db)).
Proof.
  intros Hall.
  destruct c as [user b|user id newDrop|user id reason]; cbn [exec].
  - destruct (book env now user b db) as [resp db'] eqn:E. cbn [snd].
    destruct (book_inv env _ _ _ _ _ _ E) as [[-> _]|(ride & Hval & _ & _ & -> & F & _)];
      [exact Hall|].
    apply Forall_app. split; [exact Hall|]. constructor; [|constructor].
    destruct (booking_rideType b Hval) as (c & Hc).
    unfold validateRideBooking in Hval.
    apply andb_true_iff in Hval. destruct Hval as [Hval _].
    apply andb_true_iff in Hval. destruct Hval as [Hp Hd].
    unfold hooks_frame in F. cbn in F.
    destruct F as (_ & _ & _ & _ & Fp & Fd & _ & Fdist & Ffare & _).
    unfold ride_consistent. rewrite Fp, Fd, Fdist, Ffare.
    split; [exact Hp|]. split; [exact Hd|]. split; [reflexivity|].
    split; [exact (located_distance_castable _ _ Hp Hd)|].
    exists c. cbn [baseFare totalFare]. rewrite Hc. split; reflexivity.
  - destruct (updateDestination env now user id newDrop db) as [resp db'] eqn:E.
    cbn [snd].
    destruct (updateDestination_inv env _ _ _ _ _ _ _ E)
      as [[-> _]|(ride & ride' & Hval & Hf & _ & -> & F & _)]; [exact Hall|].
    apply Forall_update_by_id; [exact Hall|].
    apply findOne_Some in Hf. destruct Hf as [Hin _].
    rewrite Forall_forall in Hall. destruct (Hall ride Hin) as (Hp & _).
    unfold hooks_frame in F. cbn in F.
    destruct F as (_ & _ & _ & _ & Fp & Fd & _ & Fdist & Ffare & _).
    unfold ride_consistent. rewrite Fp, Fd, Fdist, Ffare.
    split; [exact Hp|]. split; [exact Hval|]. split; [reflexivity|].
    split; [exact (located_distance_castable _ _ Hp Hval)|].
    exists economy. cbn [baseFare totalFare]. split; reflexivity.
  - destruct (cancel now user id reason db) as [resp db'] eqn:E. cbn [snd].
    destruct (cancel_inv _ _ _ _ _ _ _ E)
      as [[-> _]|(ride & ride' & Hf & _ & -> & F & _)]; [exact Hall|].
    apply Forall_update_by_id; [exact Hall|].
    apply findOne_Some in Hf. destruct Hf as [Hin _].
    rewrite Forall_forall in Hall. pose proof (Hall ride Hin) as Hc.
    unfold hooks_frame in F. cbn in F.
    destruct F as (_ & _ & _ & _ & Fp & Fd & _ & Fdist & Ffare & _).
    unfold ride_consistent in *. rewrite Fp, Fd, Fdist, Ffare. exact Hc.
Qed.

Lemma run_consistent cmds db :
  Forall (ride_consistent env) db -> Forall (ride_consistent env) (run env cmds db).
Proof.
  revert db. induction cmds as [|[now c] cmds IH]; intros db H; cbn [run]; [exact H|].
  apply IH, exec_consistent, H.
Qed.

Lemma reachable_consistent db :
  reachable env db -> Forall (ride_consistent env) db.
Proof.
  induction 1 as [|db now c _ IH]; [constructor|apply exec_consistent, IH].
Qed.

Lemma ride_consistent_bounded r :
  ride_consistent env r -> ride_amounts_bounded r.
Proof.
  intros (Hp & Hd & Hdist & _ & c & Hb & Ht).
  apply validate_body_location_coordinates in Hp, Hd.
  destruct Hp as [_ Hpc], Hd as [_ Hdc].
  destruct (calculateDistance_cents _ _ Hpc Hdc) as (n & Hn & Hlo & Hhi).
  rewrite <- Hdist in Hn. rewrite Hn in Hb, Ht.
  destruct (calculateFare_at_least_minimum env (IZR n / 100) c) as (B & _ & T).
  cbv zeta in B, T. rewrite <- Hb in B. rewrite <- Ht in T.
  exists (IZR n / 100). split; [exact Hn|].
  apply IZR_le in Hlo, Hhi.
  split; [lra|]. split; [exact B|exact T].
Qed.

(** X18.  The numbers of the stored rides stay consistent with their
    locations: if every ride of the collection has valid locations, a
    distance that is a number and the one calculateDistance gives between
    them, and a fare calculateFare gives for that distance in some
    category, then so has every ride after any sequence of rider
    requests; and such a ride has a distance between 0 and 20015.09 km,
    a base fare of at least 80 and a total of at least 94.4.  Every
    collection the routes build from an empty one is of this kind. *)
Theorem stored_rides_stay_consistent cmds db :
  Forall (ride_consistent env) db ->
  Forall (fun r => ride_consistent env r /\ ride_amounts_bounded r)
         (run env cmds db) /\
  (forall db', reachable env db' -> Forall (ride_consistent env) db').
Proof.
  intros H. split; [|exact reachable_consistent].
  apply (run_consistent cmds) in H.
  rewrite Forall_forall in *. intros r Hin.
  split; [auto|apply ride_consistent_bounded; auto].
Qed.


End Consistency.

(** ** The reading routes *)

Lemma insert_by_createdAt_perm r l : Permutation (insert_by_createdAt r l) (r :: l).
Proof.
  induction l as [|x l IH]; cbn [insert_by_createdAt]; [reflexivity|].
  destruct (Z.leb (createdAt x) (createdAt r)); [reflexivity|].
  rewrite IH. apply perm_swap.
Qed.

Lemma sort_createdAt_desc_perm l : Permutation (sort_createdAt_desc l) l.
Proof.
  induction l as [|x l IH]; cbn; [reflexivity|].
  rewrite insert_by_createdAt_perm. now constructor.
Qed.

Lemma insert_by_createdAt_sorted r l :
  newest_first l -> newest_first (insert_by_createdAt r l).
Proof.
  unfold newest_first.
  induction 1 as [|x l Hs IH Hx]; cbn [insert_by_createdAt].
  - constructor; constructor.
  - destruct (Z.leb (createdAt x) (createdAt r)) eqn:E.
    + apply Z.leb_le in E. constructor; [constructor; assumption|].
      constructor; [exact E|].
      rewrite Forall_forall in *. intros y Hy. specialize (Hx y Hy). lia.
    + apply Z.leb_gt in E. constructor; [exact IH|].
      rewrite Forall_forall in *. intros y Hy.
      apply (Permutation_in _ (insert_by_createdAt_perm r l)) in Hy.
      destruct Hy as [<-|Hy]; [lia|auto].
Qed.

Lemma sort_createdAt_desc_sorted l : newest_first (sort_createdAt_desc l).
Proof.
  induction l as [|x l IH]; cbn; [constructor|].
  apply insert_by_createdAt_sorted, IH.
Qed.

Lemma sort_createdAt_desc_length l :
  List.length (sort_createdAt_desc l) = List.length l.
Proof. apply Permutation_length, sort_createdAt_desc_perm. Qed.

Lemma sort_createdAt_desc_single x : sort_createdAt_desc [x] = [x].
Proof. reflexivity. Qed.

Lemma sort_createdAt_desc_nil_inv l : sort_createdAt_desc l = [] -> l = [].
Proof.
  intros H. apply Permutation_nil. rewrite <- H.
  apply sort_createdAt_desc_perm.
Qed.

(** *** GET /rides/:id/status and GET /rides/active *)

Lemma find_app_fresh {A} (p : A -> bool) l x :
  (forall y, In y l -> p y = false) -> p x = true -> find p (l ++ [x]) = Some x.
Proof.
  intros Hl Hx. induction l as [|y l IH]; cbn [app find].
  - rewrite Hx. reflexivity.
  - rewrite (Hl y (or_introl eq_refl)). apply IH. intros z Hz. apply Hl. right. exact Hz.
Qed.

Lemma find_by_id_query r db id user :
  unique_ids db -> In r db -> _id r = id -> userId r = user ->
  findOne (fun r => Nat.eqb (_id r) id && Nat.eqb (userId r) user) db = Some r.
Proof.
  unfold unique_ids, findOne. intros Hnd Hin Hid Hu.
  induction db as [|x db IH]; [contradiction|].
  cbn in Hnd. inversion Hnd as [|? ? Hnotin Hnd']; subst.
  cbn [find]. destruct Hin as [->|Hin].
  - now rewrite !Nat.eqb_refl.
  - destruct (Nat.eqb (_id x) (_id r)) eqn:E.
    + apply Nat.eqb_eq in E. exfalso. apply Hnotin. rewrite E.
      apply in_map. exact Hin.
    + cbn [andb]. apply IH; assumption.
Qed.

(** X20.  GET /rides/:id/status shows a ride to its rider only: with
    unique ids it returns the ride of that id when the caller is its
    rider, and "Ride not found" both when no ride has the id and when
    the ride belongs to someone else; whatever it returns is a ride of
    the collection with the asked id and the caller as rider. *)
Theorem ride_status_owner_only user id db :
  unique_ids db ->
  (forall r, In r db -> _id r = id -> userId r = user ->
     getRideStatus user id db = RideRetrieved "Ride status retrieved successfully" r) /\
  ((forall r, In r db -> _id r = id -> userId r <> user) ->
     getRideStatus user id db = ReadNotFound "Ride not found") /\
  (forall msg r, getRideStatus user id db = RideRetrieved msg r ->
     In r db /\ _id r = id /\ userId r = user).
Proof.
  intros Hnd. unfold getRideStatus. split; [|split].
  - intros r Hin Hid Hu. rewrite (find_by_id_query r db id user Hnd Hin Hid Hu).
    reflexivity.
  - intros Hno. rewrite (find_none_intro _ db); [reflexivity|].
    intros x Hx. destruct (Nat.eqb (_id x) id) eqn:E; [|reflexivity].
    apply Nat.eqb_eq in E. cbn [andb]. apply Nat.eqb_neq. apply Hno; assumption.
  - intros msg r. destruct (findOne _ db) as [x|] eqn:Hf; [|discriminate].
    intros H. injection H as _ <-.
    apply findOne_Some in Hf. destruct Hf as [Hin Hq].
    apply andb_true_iff in Hq. destruct Hq as [H1 H2].
    apply Nat.eqb_eq in H1, H2. auto.
Qed.

Lemma getActiveRide_of_active user db :
  getActiveRide user db =
  match sort_createdAt_desc (active_rides_of user db) with
  | [] => ReadNotFound "No active ride found"
  | activeRide :: _ => RideRetrieved "Active ride retrieved successfully" activeRide
  end.
Proof. reflexivity. Qed.

Lemma find_hd_filter {A} (p : A -> bool) l : find p l = hd_error (filter p l).
Proof.
  induction l as [|x l IH]; cbn; [reflexivity|]. destruct (p x); [reflexivity|exact IH].
Qed.

Section ReadRoutes.

Variable env : Number.

(** X21.  GET /rides/active and the conflict check of POST /rides/book
    agree: with at most one active ride per rider, a ride returned by
    /active is an active ride of the caller and a valid booking is
    refused with 409 naming that ride; when /active answers 404 the
    rider has no active ride and a booking is never refused with 409. *)
Theorem active_route_matches_booking_conflict now user b db :
  one_active_ride_per_rider db ->
  validateRideBooking b = true ->
  (forall msg r, getActiveRide user db = RideRetrieved msg r ->
     userId r = user /\ is_active r = true /\
     book env now user b db = (ActiveRideConflict (_id r), db)) /\
  (forall msg, getActiveRide user db = ReadNotFound msg ->
     active_rides_of user db = [] /\
     forall id, book env now user b db <> (ActiveRideConflict id, db)).
Proof.
  intros Hone Hval. rewrite getActiveRide_of_active.
  specialize (Hone user).
  assert (Hfind : findOne (fun r => Nat.eqb (userId r) user &&
                           status_in active_statuses (status r)) db
                  = hd_error (active_rides_of user db)).
  { unfold findOne. apply find_hd_filter. }
  destruct (active_rides_of user db) as [|x [|y l]] eqn:E;
    [| |cbn [List.length] in Hone; lia].
  - split; [intros msg r H; discriminate|].
    intros msg _. split; [reflexivity|]. intros id.
    unfold book. rewrite Hval. cbn [negb]. rewrite Hfind. cbn [hd_error].
    destruct (save _ _ _) as [[? ?]|]; discriminate.
  - rewrite sort_createdAt_desc_single. split; [|intros msg H; discriminate].
    intros msg r H. injection H as _ <-.
    assert (Hx : In x (active_rides_of user db)) by (rewrite E; left; reflexivity).
    apply active_rides_of_In in Hx. destruct Hx as (_ & Hu & Ha).
    split; [exact Hu|]. split; [exact Ha|].
    unfold book. rewrite Hval. cbn [negb]. rewrite Hfind. reflexivity.
Qed.

(** X22.  A booked ride can be read back at once: after a successful
    booking, GET /rides/:id/status with the new id and GET /rides/active
    both return the ride as it was stored, for the rider who booked;
    for any other rider the status route answers "Ride not found". *)
Theorem booked_ride_is_readable now user b db ride fe db' :
  unique_ids db ->
  book env now user b db = (RideBooked ride fe, db') ->
  getRideStatus user (_id ride) db' =
    RideRetrieved "Ride status retrieved successfully" ride /\
  getActiveRide user db' =
    RideRetrieved "Active ride retrieved successfully" ride /\
  (forall other, other <> user ->
     getRideStatus other (_id ride) db' = ReadNotFound "Ride not found").
Proof.
  intros Hnd Hb.
  destruct (book_inv env _ _ _ _ _ _ Hb) as [[_ Hno]|(r & _ & Hact & Hr & -> & F & _)].
  { exfalso. eapply Hno. reflexivity. }
  injection Hr as <-.
  assert (Hid : _id ride = fresh_id db) by (by_frame F).
  assert (Hu : userId ride = user) by (by_frame F).
  assert (Hs : status ride = pending) by (by_frame F).
  assert (Hfresh : forall y, In y db -> Nat.eqb (_id y) (_id ride) = false).
  { intros y Hy. apply Nat.eqb_neq. apply fresh_id_above in Hy. lia. }
  split; [|split].
  - unfold getRideStatus, findOne. rewrite find_app_fresh; [reflexivity| |].
    + intros y Hy. rewrite (Hfresh y Hy). reflexivity.
    + rewrite Hu, !Nat.eqb_refl. reflexivity.
  - rewrite getActiveRide_of_active, active_rides_of_app, Hact.
    unfold active_rides_of. cbn [filter app]. unfold is_active.
    rewrite Hu, Hs, Nat.eqb_refl. reflexivity.
  - intros other Hne. unfold getRideStatus, findOne.
    rewrite find_none_intro; [reflexivity|].
    intros y Hy. apply in_app_or in Hy. destruct Hy as [Hy|[<-|[]]].
    + rewrite (Hfresh y Hy). reflexivity.
    + rewrite Hu. apply andb_false_iff. right. apply Nat.eqb_neq. auto.
Qed.

(** X23.  After a successful cancellation the status route returns the
    cancelled ride, with the reason given (or "Cancelled by user") and
    cancelledBy "user", and GET /rides/active answers "No active ride
    found". *)
Theorem cancelled_ride_is_readable_not_active now user id reason db ride' db' :
  unique_ids db -> one_active_ride_per_rider db ->
  cancel now user id reason db = (RideCancelled ride', db') ->
  getRideStatus user id db' =
    RideRetrieved "Ride status retrieved successfully" ride' /\
  cancellationReason ride' = Some (reason_or_default reason) /\
  cancelledBy ride' = Some by_user /\
  getActiveRide user db' = ReadNotFound "No active ride found".
Proof.
  intros Hnd Hone Hc.
  destruct (cancel_inv _ _ _ _ _ _ _ Hc) as [[_ Hno]|(r0 & r1 & Hf & Hr & Hdb & F & _)].
  { exfalso. eapply Hno. reflexivity. }
  injection Hr as <-.
  pose proof (findOne_Some _ _ _ Hf) as [Hin Hq].
  apply andb_true_iff in Hq. destruct Hq as [Hq Hs0].
  apply andb_true_iff in Hq. destruct Hq as [Hi0 Hu0].
  apply Nat.eqb_eq in Hi0, Hu0.
  assert (Hid : _id ride' = _id r0) by (by_frame F).
  assert (Hu : userId ride' = userId r0) by (by_frame F).
  assert (Hst : status ride' = cancelled) by (by_frame F).
  destruct (update_by_id_split r0 ride' db Hnd Hin Hid) as (l1 & l2 & E1 & E2).
  split; [|split; [by_frame F|split; [by_frame F|]]].
  - unfold getRideStatus.
    rewrite (find_by_id_query ride' db' id user); [reflexivity| | |congruence|congruence].
    + unfold unique_ids. rewrite Hdb, map_id_update. exact Hnd.
    + rewrite Hdb, E2. apply in_or_app. right. left. reflexivity.
  - rewrite getActiveRide_of_active.
    specialize (Hone user). rewrite E1 in Hone. unfold active_rides_of in *.
    apply length_le_1_split in Hone.
    + destruct Hone as [H1 H2]. rewrite Hdb, E2, filter_app. cbn [filter].
      unfold is_active at 2. rewrite Hst, H1, H2. cbn [status_in].
      rewrite andb_false_r. reflexivity.
    + rewrite Hu0, Nat.eqb_refl. unfold is_active.
      destruct (status r0); try discriminate; reflexivity.
Qed.

End ReadRoutes.

(** *** GET /rides/history *)

Lemma ceil_div_bounds a b :
  (1 <= b)%nat ->
  (b * ((a + b - 1) / b) < a + b)%nat /\ (a <= b * ((a + b - 1) / b))%nat.
Proof.
  intros Hb.
  pose proof (Nat.Div0.mul_div_le (a + b - 1) b) as H1.
  pose proof (Nat.mul_succ_div_gt (a + b - 1) b ltac:(lia)) as H2.
  lia.
Qed.

Lemma ceil_quotient a b :
  (1 <= b)%nat ->
  Math.ceil (Num (INR a) / Num (INR b))%js = Num (INR ((a + b - 1) / b)).
Proof.
  intros Hb. destruct (ceil_div_bounds a b Hb) as [H1 H2].
  set (q := ((a + b - 1) / b)%nat) in *.
  cbn [Math.ceil JsNum.div JsNum.lift2]. f_equal.
  assert (Hbpos : 0 < INR b) by (apply lt_0_INR; lia).
  apply lt_INR in H1. apply le_INR in H2.
  rewrite mult_INR, plus_INR in H1. rewrite mult_INR in H2.
  assert (Hq1 : INR q - 1 < INR a / INR b).
  { apply (Rmult_lt_reg_r (INR b)); [exact Hbpos|].
    unfold Rdiv. rewrite Rmult_assoc, Rinv_l by lra. lra. }
  assert (Hq2 : INR a / INR b <= INR q).
  { apply (Rmult_le_reg_r (INR b)); [exact Hbpos|].
    unfold Rdiv. rewrite Rmult_assoc, Rinv_l by lra. lra. }
  rewrite (floor_unique _ (- Z.of_nat q)).
  - rewrite opp_IZR, <- INR_IZR_INZ. lra.
  - rewrite opp_IZR, <- INR_IZR_INZ. lra.
Qed.

Lemma ltb_INR p q : JsNum.ltb (Num (INR p)) (Num (INR q)) = Nat.ltb p q.
Proof.
  cbn [JsNum.ltb]. destruct (Rlt_dec (INR p) (INR q)) as [H|H].
  - apply INR_lt in H. symmetry. apply Nat.ltb_lt. exact H.
  - symmetry. apply Nat.ltb_ge. apply INR_le. lra.
Qed.

Lemma lt_ceil_div p total l :
  (1 <= l)%nat -> (p < (total + l - 1) / l <-> p * l < total)%nat.
Proof.
  intros Hl. destruct (ceil_div_bounds total l Hl) as [H1 H2].
  set (q := ((total + l - 1) / l)%nat) in *. split; intros H; nia.
Qed.

Lemma In_firstn {A} n (l : list A) x : In x (firstn n l) -> In x l.
Proof.
  revert l. induction n as [|n IH]; intros [|y l]; cbn; try tauto.
  intros [->|H]; auto.
Qed.

Lemma In_skipn {A} n (l : list A) x : In x (skipn n l) -> In x l.
Proof.
  revert l. induction n as [|n IH]; intros [|y l]; cbn; try tauto.
  intros H. right. auto.
Qed.

Lemma StronglySorted_firstn {A} (R : A -> A -> Prop) n l :
  StronglySorted R l -> StronglySorted R (firstn n l).
Proof.
  revert l. induction n as [|n IH]; intros l H; [constructor|].
  destruct H as [|x l Hs Hx]; cbn [firstn]; constructor; [apply IH, Hs|].
  rewrite Forall_forall in *. intros y Hy. apply Hx. eapply In_firstn, Hy.
Qed.

Lemma StronglySorted_skipn {A} (R : A -> A -> Prop) n l :
  StronglySorted R l -> StronglySorted R (skipn n l).
Proof.
  revert l. induction n as [|n IH]; intros l H; [exact H|].
  destruct H as [|x l Hs Hx]; cbn [skipn]; [constructor|apply IH, Hs].
Qed.

Lemma pages_concat {A} (l : list A) m n :
  (List.length l <= n * m)%nat ->
  List.concat (map (fun k => firstn m (skipn (k * m) l)) (seq 0 n)) = l.
Proof.
  revert l. induction n as [|n IH]; intros l H.
  - destruct l; [reflexivity|cbn in H; lia].
  - cbn [seq map List.concat]. rewrite <- seq_shift, map_map.
    cbn [Nat.mul skipn].
    transitivity (firstn m l ++ skipn m l); [|apply firstn_skipn].
    f_equal.
    rewrite <- (IH (skipn m l)) by (rewrite length_skipn; lia).
    f_equal. apply map_ext. intros k.
    rewrite skipn_skipn. f_equal. f_equal. cbn. lia.
Qed.

Lemma firstn_skipn_nonempty {A} (l : list A) m s :
  (1 <= m)%nat -> (firstn m (skipn s l) <> [] <-> (s < List.length l)%nat).
Proof.
  intros Hm. split.
  - intros H. destruct (Nat.lt_ge_cases s (List.length l)) as [|Hge]; [assumption|].
    exfalso. apply H. rewrite skipn_all2 by exact Hge. apply firstn_nil.
  - intros Hs E. apply (f_equal (@List.length A)) in E.
    rewrite length_firstn, length_skipn in E. cbn in E. lia.
Qed.

(** X24.  A page of GET /rides/history, for a positive page number and
    limit: it holds min(limit, total - (page - 1) * limit) rides, all of
    them rides of the caller that match the status filter, newest first;
    totalRides counts the matching rides and totalPages is that count
    divided by the limit, rounded up; hasNextPage is true exactly when
    the next page is not empty, and hasPrevPage exactly when the page is
    not the first. *)
Theorem history_page_flags user page limit status_filter db :
  let total := List.length (filter (history_query user status_filter) db) in
  let p := Pos.to_nat page in
  let l := Pos.to_nat limit in
  exists rides pg,
    getRideHistory user (Some page) (Some limit) status_filter db =
      HistoryRetrieved rides pg /\
    List.length rides = Nat.min l (total - (p - 1) * l) /\
    Forall (fun r => In r db /\ history_query user status_filter r = true) rides /\
    newest_first rides /\
    totalRides pg = Num (INR total) /\
    totalPages pg = Num (INR ((total + l - 1) / l)) /\
    (hasNextPage pg = true <->
     page_rides (getRideHistory user (Some (Pos.succ page)) (Some limit)
                   status_filter db) <> []) /\
    (hasPrevPage pg = true <-> (1 < p)%nat).
Proof.
  intros total p l. unfold getRideHistory. fold p l total.
  assert (Hl : (1 <= l)%nat) by (unfold l; lia).
  assert (Hp : (1 <= p)%nat) by (unfold p; lia).
  set (all := sort_createdAt_desc (filter (history_query user status_filter) db)).
  assert (Hlen : List.length all = total) by apply sort_createdAt_desc_length.
  eexists _, _. split; [reflexivity|].
  cbn [totalRides totalPages hasNextPage hasPrevPage page_rides].
  split; [|split; [|split; [|split; [|split; [|split]]]]].
  - rewrite length_firstn, length_skipn, Hlen. reflexivity.
  - rewrite Forall_forall. intros r Hr.
    apply In_firstn, In_skipn in Hr.
    apply (Permutation_in _ (sort_createdAt_desc_perm _)) in Hr.
    apply filter_In in Hr. exact Hr.
  - apply StronglySorted_firstn, StronglySorted_skipn, sort_createdAt_desc_sorted.
  - reflexivity.
  - apply ceil_quotient, Hl.
  - rewrite ceil_quotient by exact Hl. rewrite ltb_INR, Nat.ltb_lt.
    rewrite (lt_ceil_div p total l Hl).
    rewrite Pos2Nat.inj_succ. fold p.
    replace (S p - 1)%nat with p by lia.
    rewrite (firstn_skipn_nonempty all l (p * l) Hl), Hlen. reflexivity.
  - replace 1 with (INR 1) by reflexivity. rewrite ltb_INR. apply Nat.ltb_lt.
Qed.

Lemma newest_first_strict l :
  newest_first l -> NoDup (map createdAt l) ->
  StronglySorted (fun a b => (createdAt b < createdAt a)%Z) l.
Proof.
  unfold newest_first. induction 1 as [|x l Hs IH Hx]; intros Hnd; [constructor|].
  cbn [map] in Hnd. inversion Hnd as [|? ? Hnotin Hnd']; subst.
  constructor; [apply IH, Hnd'|].
  rewrite Forall_forall in *. intros y Hy. specialize (Hx y Hy).
  assert (createdAt y <> createdAt x).
  { intros E. apply Hnotin. rewrite <- E. apply in_map. exact Hy. }
  lia.
Qed.

Lemma history_listing user limit status_filter db :
  let matching := filter (history_query user status_filter) db in
  let l := Pos.to_nat limit in
  List.concat
    (map (fun k => page_rides
                     (getRideHistory user (Some (Pos.of_nat k)) (Some limit)
                        status_filter db))
         (seq 1 ((List.length matching + l - 1) / l))) =
  sort_createdAt_desc matching.
Proof.
  intros matching l.
  assert (Hl : (1 <= l)%nat) by (unfold l; lia).
  rewrite <- seq_shift, map_map.
  rewrite <- (pages_concat (sort_createdAt_desc matching) l
                ((List.length matching + l - 1) / l)) at 1.
  - f_equal. apply map_ext. intros k.
    unfold getRideHistory. cbn [page_rides]. fold matching l.
    rewrite Nat2Pos.id by discriminate.
    replace (S k - 1)%nat with k by lia. reflexivity.
  - rewrite sort_createdAt_desc_length.
    destruct (ceil_div_bounds (List.length matching) l Hl) as [_ H]. lia.
Qed.

(** X25.  Paging through the history lists every ride once: when the
    matching rides have distinct creation times (the order among equal
    ones is not fixed by the sort), the pages 1 to totalPages, one after
    the other, hold exactly the matching rides of the collection, each
    once, in strictly decreasing order of creation. *)
Theorem history_pages_list_every_ride_once user limit status_filter db :
  let matching := filter (history_query user status_filter) db in
  let l := Pos.to_nat limit in
  let listing :=
    List.concat
      (map (fun k => page_rides
                       (getRideHistory user (Some (Pos.of_nat k)) (Some limit)
                          status_filter db))
           (seq 1 ((List.length matching + l - 1) / l))) in
  NoDup (map createdAt matching) ->
  Permutation listing matching /\
  StronglySorted (fun a b => (createdAt b < createdAt a)%Z) listing.
Proof.
  intros matching l listing Hnd. unfold listing, l, matching.
  rewrite history_listing. split; [apply sort_createdAt_desc_perm|].
  apply newest_first_strict; [apply sort_createdAt_desc_sorted|].
  eapply Permutation_NoDup; [|exact Hnd].
  apply Permutation_map. symmetry. apply sort_createdAt_desc_perm.
Qed.

(** ** GET /rides/estimate and unlisted ride types *)

Lemma own_property_unlisted key :
  mem_string key ["economy"; "premium"; "luxury"]%string = false ->
  own_property rideTypeMultipliers key = None.
Proof.
  cbn [mem_string own_property rideTypeMultipliers]. intros H.
  apply orb_false_iff in H. destruct H as [H1 H].
  apply orb_false_iff in H. destruct H as [H2 H].
  apply orb_false_iff in H. destruct H as [H3 _].
  rewrite H1, H2, H3. reflexivity.
Qed.

Lemma validateFareEstimate_coordinates q :
  validateFareEstimate q = true ->
  validateCoordinates (fromLat q) (fromLng q) = true /\
  validateCoordinates (toLat q) (toLng q) = true.
Proof.
  unfold validateFareEstimate. intros H.
  repeat match goal with
         | H : _ && _ = true |- _ => apply andb_true_iff in H; destruct H
         end.
  repeat match goal with
         | H : isFloat _ _ _ = true |- _ => apply isFloat_true in H; destruct H as (? & -> & ?)
         end.
  split; apply validateCoordinates_intro; assumption.
Qed.

Section EstimateRoute.

Variable env : Number.

(** X26.  GET /rides/estimate accepts ride types POST /rides/book
    refuses: for a valid query whose rideType is none of economy,
    premium and luxury (and not the name of a member of
    Object.prototype), the route answers 200 with the amounts of the
    economy quote of the trip, under the ride type as sent;
    a booking with that ride type is answered 400 and stores
    nothing. *)
Theorem estimate_accepts_unlisted_rideType q key :
  validateFareEstimate q = true ->
  query_rideType q = Some key ->
  mem_string key ["economy"; "premium"; "luxury"]%string = false ->
  mem_string key Object_prototype_keys = false ->
  (exists data eco,
     estimate env q = FareEstimated data /\
     estimate env (set_query_rideType None q) = FareEstimated eco /\
     fb_rideType (fareBreakdown data) = key /\
     fb_rideType (fareBreakdown eco) = "economy"%string /\
     fb_baseFare (fareBreakdown data) = fb_baseFare (fareBreakdown eco) /\
     fb_gst (fareBreakdown data) = fb_gst (fareBreakdown eco) /\
     fb_totalFare (fareBreakdown data) = fb_totalFare (fareBreakdown eco)) /\
  (forall now user b db,
     body_rideType b = Some key ->
     book env now user b db = (ValidationFailed, db)).
Proof.
  intros Hval Hkey Hunl Hinh. split.
  - assert (Hval' : validateFareEstimate (set_query_rideType None q) = true)
      by exact Hval.
    unfold estimate. rewrite Hval, Hval'. cbn [negb].
    cbn [set_query_rideType fromLat fromLng toLat toLng fromAddress toAddress
         query_rideType].
    rewrite Hkey. cbn [with_default].
    eexists _, _. split; [reflexivity|]. split; [reflexivity|].
    unfold estimateFare. cbv zeta. cbn [fareBreakdown with_default coordinates
      latitude longitude].
    destruct (validateFareEstimate_coordinates q Hval) as [Hp Hd].
    destruct (valid_distance {| latitude := fromLat q; longitude := fromLng q |}
                {| latitude := toLat q; longitude := toLng q |} Hp Hd)
      as (d & Hdv & _).
    cbn [latitude longitude] in Hdv. rewrite Hdv.
    destruct (calculateFare_unknown env d key (own_property_unlisted key Hunl) Hinh)
      as (E1 & E2 & E3).
    split; [reflexivity|]. split; [reflexivity|].
    split; [exact E1|]. split; [exact E2|]. exact E3.
  - intros now user b db Hb. unfold book, validateRideBooking.
    rewrite Hb, Hunl, andb_false_r. reflexivity.
Qed.

End EstimateRoute.


(** ** Distances and amounts that are not finite numbers *)

Section DoublesAtTheEdges.

Import Floats.

Local Open Scope float_scope.

Lemma sampled_atan2_NaN y : Binary64.sampled_atan2 y nan = nan.
Proof.
  unfold Binary64.sampled_atan2, Binary64.atan2_samples.
  cbn [Binary64.sampled2].
  repeat match goal with
  | |- context [(?k =? nan)%float] =>
      change (k =? nan)%float with false
  end.
  rewrite !andb_false_r. reflexivity.
Qed.

(** X27.  In doubles two coordinates that pass validateCoordinates can
    have no distance: from (-82, -180) to (82, 0) the haversine term [a]
    comes out as 1.0000000000000002, the square root of [1 - a] is NaN
    and so are the distance and the quote.  This holds for every engine
    whose Math.sin and Math.cos are within one unit in the last place at
    the three arguments reached (the sine not below the nearest double),
    whose Math.sin is 1 at the double nearest to pi / 2, and whose
    Math.atan2 is NaN at NaN. *)
Theorem near_antipodal_distance_is_NaN
    (Math_sin Math_cos : float -> float) (Math_atan2 : float -> float -> float) :
  In (Math_sin 0x1.6e6127ff9d971p+0)
     [0x1.fb046a930947ap-1; 0x1.fb046a930947bp-1]%float ->
  In (Math_cos 0x1.6e6127ff9d971p+0)
     [0x1.1d06c968d9e19p-3; 0x1.1d06c968d9e1ap-3; 0x1.1d06c968d9e1bp-3]%float ->
  In (Math_cos (-0x1.6e6127ff9d971p+0))
     [0x1.1d06c968d9e19p-3; 0x1.1d06c968d9e1ap-3; 0x1.1d06c968d9e1bp-3]%float ->
  Math_sin 0x1.921fb54442d18p+0 = 1%float ->
  (forall y, Math_atan2 y nan = nan) ->
  Binary64.validateCoordinates (-82) (-180) = true /\
  Binary64.validateCoordinates 82 0 = true /\
  Binary64.calculateDistance Math_sin Math_cos Math_atan2 (-82) (-180) 82 0 = nan /\
  Binary64.fb_totalFare
    (Binary64.calculateFare nan
       (Binary64.calculateDistance Math_sin Math_cos Math_atan2 (-82) (-180) 82 0)
       (Some "economy"%string)) = nan.
Proof.
  intros Hs Hc Hc' H1 Hat.
  assert (E : Binary64.calculateDistance Math_sin Math_cos Math_atan2
                (-82) (-180) 82 0 = nan).
  { unfold Binary64.calculateDistance. cbv zeta.
    change (Binary64.toRadians (82 - -82) / 2)%float with 0x1.6e6127ff9d971p+0%float.
    change (Binary64.toRadians (0 - -180) / 2)%float with 0x1.921fb54442d18p+0%float.
    change (Binary64.toRadians (-82)) with (-0x1.6e6127ff9d971p+0)%float.
    change (Binary64.toRadians 82) with 0x1.6e6127ff9d971p+0%float.
    rewrite H1.
    cbn [In] in Hs, Hc, Hc'.
    destruct Hs as [<-|[<-|[]]];
    destruct Hc as [<-|[<-|[<-|[]]]];
    destruct Hc' as [<-|[<-|[<-|[]]]];
    match goal with
    | |- context [Math_atan2 ?y (PrimFloat.sqrt ?z)] =>
        replace (PrimFloat.sqrt z) with nan by (vm_compute; reflexivity)
    end; rewrite Hat; vm_compute; reflexivity. }
  split; [vm_compute; reflexivity|]. split; [vm_compute; reflexivity|].
  split; [exact E|]. rewrite E. vm_compute. reflexivity.
Qed.

(** X28.  In doubles the amounts of calculateFare are not always finite:
    at the default rate a distance of 1e306 km, a finite double, gives
    Infinity for the base fare, the tax and the total; and the minimum
    fare still applies to a distance of -1e306 km. *)
Theorem calculateFare_overflows :
  (let fb := Binary64.calculateFare nan 1e306 None in
   Binary64.fb_baseFare fb = infinity /\
   Binary64.fb_gst fb = infinity /\
   Binary64.fb_totalFare fb = infinity) /\
  (let fb := Binary64.calculateFare nan (-1e306) None in
   Binary64.fb_baseFare fb = 80%float /\
   Binary64.fb_gst fb = 14.4%float /\
   Binary64.fb_totalFare fb = 94.4%float).
Proof.
  vm_compute. repeat split.
Qed.

End DoublesAtTheEdges.
(** ** The further properties at sample inputs *)

Lemma bandra_valid : validate_body_location bandra = true.
Proof.
  pose proof testRide_valid as H. unfold validateRideBooking in H.
  apply andb_true_iff in H. destruct H as [H _].
  apply andb_true_iff in H. destruct H as [H _]. exact H.
Qed.

Lemma andheri_valid : validate_body_location andheri = true.
Proof.
  pose proof testRide_valid as H. unfold validateRideBooking in H.
  apply andb_true_iff in H. destruct H as [H _].
  apply andb_true_iff in H. destruct H as [_ H]. exact H.
Qed.

Lemma unique_ids_single r : unique_ids [r].
Proof. unfold unique_ids. cbn [map]. constructor; [intros []|constructor]. Qed.

Lemma one_active_single r : one_active_ride_per_rider [r].
Proof.
  intros user. unfold active_rides_of. cbn [filter].
  destruct (Nat.eqb (userId r) user && is_active r); cbn [List.length]; lia.
Qed.

Lemma pending_testRide_consistent : ride_consistent NaN pending_testRide.
Proof.
  split; [exact bandra_valid|]. split; [exact andheri_valid|].
  split; [reflexivity|].
  split; [exact (located_distance_castable _ _ bandra_valid andheri_valid)|].
  exists economy. split; reflexivity.
Qed.

Lemma pending_testRide_valid :
  validate {| loaded := Some pending_testRide; doc := pending_testRide |} = true.
Proof. apply (ride_consistent_valid NaN), pending_testRide_consistent. Qed.

Lemma suv_query_valid : validateFareEstimate suv_query = true.
Proof.
  unfold validateFareEstimate.
  cbn [suv_query fromLat fromLng toLat toLng fromAddress toAddress].
  rewrite !isFloat_intro by lra. reflexivity.
Qed.

Lemma half_is_a_draw : exists r, Num (/ 2) = Num r /\ 0 <= r < 1.
Proof. exists (/ 2). split; [reflexivity|lra]. Qed.

Lemma ten_km_economy_moderate :
  Rabs (10 * farePerKmRate NaN * multiplier economy) <= 1000000000.
Proof. cbn [farePerKmRate multiplier]. rewrite Rabs_pos_eq; lra. Qed.

Lemma independent_rounding_within_one_cent_witness :
  Rabs (10 * farePerKmRate NaN * multiplier economy) <= 1000000000 /\
  (exists nb ng nt : Z,
     calculateFare NaN (Num 10) (Some (category_name economy)) =
       {| fb_baseFare := Num (IZR nb / 100);
          fb_gst := Num (IZR ng / 100);
          fb_totalFare := Num (IZR nt / 100);
          fb_distance := Num 10; fb_farePerKm := Num (farePerKmRate NaN);
          fb_rideType := category_name economy |} /\
     (nb + ng - nt = 0 \/ nb + ng - nt = 1 \/ nb + ng - nt = -1)%Z) /\
  (fb_baseFare (calculateFare NaN (Num 2.0016) (Some "economy"%string)) =
     Num 80.02 /\
   fb_gst (calculateFare NaN (Num 2.0016) (Some "economy"%string)) = Num 14.4 /\
   fb_totalFare (calculateFare NaN (Num 2.0016) (Some "economy"%string)) =
     Num 94.43).
Proof.
  exact (conj ten_km_economy_moderate
           (independent_rounding_within_one_cent NaN 10 economy
              ten_km_economy_moderate)).
Defined.

Lemma distance_within_half_circumference_witness :
  validateCoordinates (latitude (coordinates null_island))
    (longitude (coordinates null_island)) = true /\
  validateCoordinates (latitude (coordinates date_line))
    (longitude (coordinates date_line)) = true /\
  calculateDistance
    (latitude (coordinates null_island)) (longitude (coordinates null_island))
    (latitude (coordinates date_line)) (longitude (coordinates date_line)) =
    Num 20015.09 /\
  (exists n : Z, 20015.09 = IZR n / 100 /\ (0 <= n <= 2001509)%Z) /\
  calculateDistance (Num 0) (Num 0) (Num 0) (Num 180) = Num (IZR 2001509 / 100).
Proof.
  exact (conj null_island_coordinates_valid
           (conj date_line_coordinates_valid
              (conj distance_half_equator_value
                 (distance_within_half_circumference
                    (coordinates null_island) (coordinates date_line) 20015.09
                    null_island_coordinates_valid date_line_coordinates_valid
                    distance_half_equator_value)))).
Defined.

Lemma estimatedTime_two_minutes_per_km_witness :
  validateCoordinates (latitude (coordinates null_island))
    (longitude (coordinates null_island)) = true /\
  validateCoordinates (latitude (coordinates date_line))
    (longitude (coordinates date_line)) = true /\
  calculateDistance
    (latitude (coordinates null_island)) (longitude (coordinates null_island))
    (latitude (coordinates date_line)) (longitude (coordinates date_line)) =
    Num 20015.09 /\
  exists m : Z,
    fb_distance (fareBreakdown
      (estimateFare NaN null_island date_line (Some "premium"%string))) =
      Num 20015.09 /\
    estimatedTime (estimateFare NaN null_island date_line (Some "premium"%string)) =
      Num (IZR m) /\
    2 * 20015.09 <= IZR m <= 2 * 20015.09 + 1 /\ (0 <= m <= 40031)%Z.
Proof.
  exact (conj null_island_coordinates_valid
           (conj date_line_coordinates_valid
              (conj distance_half_equator_value
                 (estimatedTime_two_minutes_per_km NaN null_island date_line
                    (Some "premium"%string) 20015.09
                    null_island_coordinates_valid date_line_coordinates_valid
                    distance_half_equator_value)))).
Defined.

Lemma NaN_coordinate_gives_NaN_quote_witness :
  (latitude (coordinates unlocated) = NaN \/
   longitude (coordinates unlocated) = NaN \/
   latitude (coordinates andheri) = NaN \/
   longitude (coordinates andheri) = NaN) /\
  fb_distance (fareBreakdown (estimateFare NaN unlocated andheri None)) = NaN /\
  fb_baseFare (fareBreakdown (estimateFare NaN unlocated andheri None)) = NaN /\
  fb_gst (fareBreakdown (estimateFare NaN unlocated andheri None)) = NaN /\
  fb_totalFare (fareBreakdown (estimateFare NaN unlocated andheri None)) = NaN /\
  estimatedTime (estimateFare NaN unlocated andheri None) = NaN /\
  (validateCoordinates (latitude (coordinates unlocated))
     (longitude (coordinates unlocated)) &&
   validateCoordinates (latitude (coordinates andheri))
     (longitude (coordinates andheri)) = false).
Proof.
  exact (conj (or_introl eq_refl)
           (NaN_coordinate_gives_NaN_quote NaN unlocated andheri None
              (or_introl eq_refl))).
Defined.

Lemma maps_mock_within_bounds_witness :
  (exists r, Num (/ 2) = Num r /\ 0 <= r < 1) /\
  exists (x : R) (m : Z),
    maps_distance (getDistanceFromGoogleMaps (Num (/ 2)) "Bandra" "Andheri") = Num x /\
    2 <= x <= 22 /\
    maps_duration (getDistanceFromGoogleMaps (Num (/ 2)) "Bandra" "Andheri") =
      Num (IZR m) /\
    (5 <= m <= 53)%Z /\
    maps_status (getDistanceFromGoogleMaps (Num (/ 2)) "Bandra" "Andheri") =
      "OK"%string.
Proof.
  exact (conj half_is_a_draw
           (maps_mock_within_bounds (Num (/ 2)) "Bandra" "Andheri" half_is_a_draw)).
Defined.

Lemma book_stores_its_quote_witness :
  exists ride,
    book NaN 1000 7 testRide [] =
      (RideBooked ride (estimateFare NaN bandra andheri (Some "economy"%string)),
       [ride]) /\
    estimate NaN (estimate_query_of testRide) =
      FareEstimated (estimateFare NaN bandra andheri (Some "economy"%string)) /\
    distance ride =
      fb_distance (fareBreakdown
        (estimateFare NaN bandra andheri (Some "economy"%string))) /\
    fare ride =
      {| baseFare := fb_baseFare (fareBreakdown
           (estimateFare NaN bandra andheri (Some "economy"%string)));
         totalFare := fb_totalFare (fareBreakdown
           (estimateFare NaN bandra andheri (Some "economy"%string)));
         currency := "INR" |} /\
    (estimatedDuration ride =
       Some (estimatedTime
               (estimateFare NaN bandra andheri (Some "economy"%string))) \/
     (distance ride = Num 0 /\ estimatedDuration ride = None /\
      estimatedTime (estimateFare NaN bandra andheri (Some "economy"%string)) =
        Num 0)).
Proof.
  destruct (book_succeeds NaN 1000 7 testRide [] testRide_valid eq_refl eq_refl)
    as (ride & Hbook & _ & _).
  exists ride.
  exact (conj Hbook
           (book_stores_its_quote NaN 1000 7 testRide [] ride _ [ride] Hbook)).
Defined.

Lemma updateDestination_refreshes_duration_witness :
  exists ride' db',
    updateDestination NaN 2000 7 1 date_line [accepted_testRide] =
      (DestinationUpdated ride'
         (estimateFare NaN bandra date_line None), db') /\
    exists ride,
      findOne (fun r => Nat.eqb (_id r) 1 && Nat.eqb (userId r) 7 &&
                        status_in [accepted; started] (status r))
        [accepted_testRide] = Some ride /\
      dropLocation ride' = date_line /\
      distance ride' =
        fb_distance (fareBreakdown (estimateFare NaN bandra date_line None)) /\
      baseFare (fare ride') =
        fb_baseFare (fareBreakdown (estimateFare NaN bandra date_line None)) /\
      totalFare (fare ride') =
        fb_totalFare (fareBreakdown (estimateFare NaN bandra date_line None)) /\
      (distance ride' <> distance ride -> distance ride' <> Num 0 ->
       estimatedDuration ride' =
         Some (estimatedTime (estimateFare NaN bandra date_line None))) /\
      (distance ride' = distance ride \/ distance ride' = Num 0 ->
       estimatedDuration ride' = estimatedDuration ride).
Proof.
  destruct (updateDestination_succeeds NaN 2000 7 1 date_line [accepted_testRide]
              accepted_testRide eq_refl date_line_valid bandra_valid)
    as (ride' & Hupd & _).
  exists ride', (update_by_id ride' [accepted_testRide]).
  exact (conj Hupd
           (updateDestination_refreshes_duration NaN 2000 7 1 date_line
              [accepted_testRide] ride' _ _ Hupd)).
Defined.

Lemma rider_requests_only_cancel_witness :
  unique_ids [pending_testRide] /\
  In pending_testRide [pending_testRide] /\
  exists r',
    find_by_id (_id pending_testRide)
      (run NaN [(2000%Z, Cancel 7 1 None)] [pending_testRide]) = Some r' /\
    immutable_fields pending_testRide r' /\
    (status r' = status pending_testRide \/
     (status r' = cancelled /\
      (status pending_testRide = pending \/ status pending_testRide = accepted))).
Proof.
  exact (conj (unique_ids_single pending_testRide)
           (conj (or_introl eq_refl)
              (rider_requests_only_cancel NaN [(2000%Z, Cancel 7 1 None)]
                 [pending_testRide] pending_testRide
                 (unique_ids_single pending_testRide) (or_introl eq_refl)))).
Defined.

Lemma finished_ride_is_frozen_witness :
  unique_ids [completed_testRide] /\
  In completed_testRide [completed_testRide] /\
  (status completed_testRide = completed \/ status completed_testRide = cancelled) /\
  find_by_id (_id completed_testRide)
    (run NaN [(2000%Z, Cancel 7 1 None); (3000%Z, UpdateDestination 7 1 date_line)]
       [completed_testRide]) = Some completed_testRide.
Proof.
  exact (conj (unique_ids_single completed_testRide)
           (conj (or_introl eq_refl)
              (conj (or_introl eq_refl)
                 (finished_ride_is_frozen NaN
                    [(2000%Z, Cancel 7 1 None);
                     (3000%Z, UpdateDestination 7 1 date_line)]
                    [completed_testRide] completed_testRide
                    (unique_ids_single completed_testRide) (or_introl eq_refl)
                    (or_introl eq_refl))))).
Defined.

Lemma pending_ride_keeps_trip_witness :
  unique_ids [pending_testRide] /\
  In pending_testRide [pending_testRide] /\
  status pending_testRide = pending /\
  exists r',
    find_by_id (_id pending_testRide)
      (run NaN [(2000%Z, UpdateDestination 7 1 date_line)] [pending_testRide]) =
      Some r' /\
    dropLocation r' = dropLocation pending_testRide /\
    distance r' = distance pending_testRide /\
    fare r' = fare pending_testRide /\
    estimatedDuration r' = estimatedDuration pending_testRide.
Proof.
  exact (conj (unique_ids_single pending_testRide)
           (conj (or_introl eq_refl)
              (conj eq_refl
                 (pending_ride_keeps_trip NaN
                    [(2000%Z, UpdateDestination 7 1 date_line)]
                    [pending_testRide] pending_testRide
                    (unique_ids_single pending_testRide) (or_introl eq_refl)
                    eq_refl)))).
Defined.

Lemma other_riders_cannot_touch_ride_witness :
  unique_ids [pending_testRide] /\
  In pending_testRide [pending_testRide] /\
  Forall (fun nc => command_user (snd nc) <> userId pending_testRide)
    [(2000%Z, Cancel 8 1 None); (3000%Z, UpdateDestination 9 1 date_line)] /\
  find_by_id (_id pending_testRide)
    (run NaN [(2000%Z, Cancel 8 1 None); (3000%Z, UpdateDestination 9 1 date_line)]
       [pending_testRide]) = Some pending_testRide.
Proof.
  assert (H : Forall (fun nc => command_user (snd nc) <> userId pending_testRide)
                [(2000%Z, Cancel 8 1 None);
                 (3000%Z, UpdateDestination 9 1 date_line)]).
  { repeat constructor; cbn; discriminate. }
  exact (conj (unique_ids_single pending_testRide)
           (conj (or_introl eq_refl)
              (conj H
                 (other_riders_cannot_touch_ride NaN
                    [(2000%Z, Cancel 8 1 None);
                     (3000%Z, UpdateDestination 9 1 date_line)]
                    [pending_testRide] pending_testRide
                    (unique_ids_single pending_testRide) (or_introl eq_refl) H)))).
Defined.

Lemma rider_routes_never_start_a_ride_witness :
  reachable NaN (snd (exec NaN 1000 (Book 7 testRide) [])) /\
  (forall r, In r (snd (exec NaN 1000 (Book 7 testRide) [])) ->
     status r = pending \/ status r = cancelled) /\
  (forall now user id newDrop,
     fst (updateDestination NaN now user id newDrop
            (snd (exec NaN 1000 (Book 7 testRide) []))) = ValidationFailed \/
     fst (updateDestination NaN now user id newDrop
            (snd (exec NaN 1000 (Book 7 testRide) []))) =
       NotFound "Active ride not found or cannot be modified").
Proof.
  assert (H : reachable NaN (snd (exec NaN 1000 (Book 7 testRide) [])))
    by (apply reachable_exec, reachable_empty).
  exact (conj H (rider_routes_never_start_a_ride NaN _ H)).
Defined.

Lemma cancel_frees_the_rider_witness :
  exists ride',
    unique_ids [pending_testRide] /\
    one_active_ride_per_rider [pending_testRide] /\
    cancel 2000 7 1 None [pending_testRide] =
      (RideCancelled ride', update_by_id ride' [pending_testRide]) /\
    status ride' = cancelled /\
    active_rides_of 7 (update_by_id ride' [pending_testRide]) = [] /\
    (forall reason',
       cancel 3000 7 1 reason' (update_by_id ride' [pending_testRide]) =
         (NotFound "Ride not found or cannot be cancelled",
          update_by_id ride' [pending_testRide])) /\
    (validateRideBooking testRide = true ->
     notes_ok (body_notes testRide) = true ->
     castable (booking_distance testRide) = true ->
     exists ride fe,
       book NaN 3000 7 testRide (update_by_id ride' [pending_testRide]) =
         (RideBooked ride fe, update_by_id ride' [pending_testRide] ++ [ride])).
Proof.
  destruct (cancel_succeeds 2000 7 1 None [pending_testRide] pending_testRide
              eq_refl pending_testRide_valid) as (ride' & Hc & _).
  exists ride'.
  exact (conj (unique_ids_single pending_testRide)
           (conj (one_active_single pending_testRide)
              (conj Hc
                 (cancel_frees_the_rider NaN 2000 3000 7 1 None testRide
                    [pending_testRide] ride' _
                    (unique_ids_single pending_testRide)
                    (one_active_single pending_testRide) Hc)))).
Defined.

Lemma stored_rides_stay_consistent_witness :
  Forall (ride_consistent NaN) [pending_testRide] /\
  Forall (fun r => ride_consistent NaN r /\ ride_amounts_bounded r)
    (run NaN [(2000%Z, Cancel 7 1 None); (3000%Z, Book 7 luxury_booking)]
       [pending_testRide]) /\
  (forall db', reachable NaN db' -> Forall (ride_consistent NaN) db').
Proof.
  assert (H : Forall (ride_consistent NaN) [pending_testRide])
    by (constructor; [exact pending_testRide_consistent|constructor]).
  exact (conj H
           (stored_rides_stay_consistent NaN
              [(2000%Z, Cancel 7 1 None); (3000%Z, Book 7 luxury_booking)]
              [pending_testRide] H)).
Defined.



Lemma ride_status_owner_only_witness :
  unique_ids [pending_testRide] /\
  (forall r, In r [pending_testRide] -> _id r = 1%nat -> userId r = 7%nat ->
     getRideStatus 7 1 [pending_testRide] =
       RideRetrieved "Ride status retrieved successfully" r) /\
  ((forall r, In r [pending_testRide] -> _id r = 1%nat -> userId r <> 7%nat) ->
     getRideStatus 7 1 [pending_testRide] = ReadNotFound "Ride not found") /\
  (forall msg r, getRideStatus 7 1 [pending_testRide] = RideRetrieved msg r ->
     In r [pending_testRide] /\ _id r = 1%nat /\ userId r = 7%nat).
Proof.
  exact (conj (unique_ids_single pending_testRide)
           (ride_status_owner_only 7 1 [pending_testRide]
              (unique_ids_single pending_testRide))).
Defined.

Lemma active_route_matches_booking_conflict_witness :
  one_active_ride_per_rider [pending_testRide] /\
  validateRideBooking testRide = true /\
  (forall msg r, getActiveRide 7 [pending_testRide] = RideRetrieved msg r ->
     userId r = 7%nat /\ is_active r = true /\
     book NaN 3000 7 testRide [pending_testRide] =
       (ActiveRideConflict (_id r), [pending_testRide])) /\
  (forall msg, getActiveRide 7 [pending_testRide] = ReadNotFound msg ->
     active_rides_of 7 [pending_testRide] = [] /\
     forall id, book NaN 3000 7 testRide [pending_testRide] <>
                (ActiveRideConflict id, [pending_testRide])).
Proof.
  exact (conj (one_active_single pending_testRide)
           (conj testRide_valid
              (active_route_matches_booking_conflict NaN 3000 7 testRide
                 [pending_testRide] (one_active_single pending_testRide)
                 testRide_valid))).
Defined.

Lemma booked_ride_is_readable_witness :
  exists ride,
    unique_ids [] /\
    book NaN 1000 7 testRide [] =
      (RideBooked ride (estimateFare NaN bandra andheri (Some "economy"%string)),
       [ride]) /\
    getRideStatus 7 (_id ride) [ride] =
      RideRetrieved "Ride status retrieved successfully" ride /\
    getActiveRide 7 [ride] =
      RideRetrieved "Active ride retrieved successfully" ride /\
    (forall other, other <> 7%nat ->
       getRideStatus other (_id ride) [ride] = ReadNotFound "Ride not found").
Proof.
  destruct (book_succeeds NaN 1000 7 testRide [] testRide_valid eq_refl eq_refl)
    as (ride & Hbook & _ & _).
  exists ride.
  assert (H : unique_ids []) by constructor.
  exact (conj H
           (conj Hbook
              (booked_ride_is_readable NaN 1000 7 testRide [] ride _ [ride]
                 H Hbook))).
Defined.

Lemma cancelled_ride_is_readable_not_active_witness :
  exists ride',
    unique_ids [pending_testRide] /\
    one_active_ride_per_rider [pending_testRide] /\
    cancel 2000 7 1 (Some "Change of plans"%string) [pending_testRide] =
      (RideCancelled ride', update_by_id ride' [pending_testRide]) /\
    getRideStatus 7 1 (update_by_id ride' [pending_testRide]) =
      RideRetrieved "Ride status retrieved successfully" ride' /\
    cancellationReason ride' =
      Some (reason_or_default (Some "Change of plans"%string)) /\
    cancelledBy ride' = Some by_user /\
    getActiveRide 7 (update_by_id ride' [pending_testRide]) =
      ReadNotFound "No active ride found".
Proof.
  destruct (cancel_succeeds 2000 7 1 (Some "Change of plans"%string)
              [pending_testRide] pending_testRide eq_refl pending_testRide_valid)
    as (ride' & Hc & _).
  exists ride'.
  exact (conj (unique_ids_single pending_testRide)
           (conj (one_active_single pending_testRide)
              (conj Hc
                 (cancelled_ride_is_readable_not_active 2000 7 1
                    (Some "Change of plans"%string) [pending_testRide] ride' _
                    (unique_ids_single pending_testRide)
                    (one_active_single pending_testRide) Hc)))).
Defined.

Lemma history_pages_list_every_ride_once_witness :
  NoDup (map createdAt
           (filter (history_query 7 None) [completed_testRide; later_ride])) /\
  Permutation
    (List.concat
       (map (fun k => page_rides
                        (getRideHistory 7 (Some (Pos.of_nat k)) (Some 1%positive)
                           None [completed_testRide; later_ride]))
            (seq 1
               ((List.length
                   (filter (history_query 7 None) [completed_testRide; later_ride])
                 + Pos.to_nat 1 - 1) / Pos.to_nat 1))))
    (filter (history_query 7 None) [completed_testRide; later_ride]) /\
  StronglySorted (fun a b => (createdAt b < createdAt a)%Z)
    (List.concat
       (map (fun k => page_rides
                        (getRideHistory 7 (Some (Pos.of_nat k)) (Some 1%positive)
                           None [completed_testRide; later_ride]))
            (seq 1
               ((List.length
                   (filter (history_query 7 None) [completed_testRide; later_ride])
                 + Pos.to_nat 1 - 1) / Pos.to_nat 1)))).
Proof.
  assert (H : NoDup (map createdAt
                (filter (history_query 7 None) [completed_testRide; later_ride]))).
  { change (NoDup [0%Z; 5000%Z]).
    constructor; [intros [E|[]]; discriminate|].
    constructor; [intros []|constructor]. }
  exact (conj H
           (history_pages_list_every_ride_once 7 1%positive None
              [completed_testRide; later_ride] H)).
Defined.

Lemma estimate_accepts_unlisted_rideType_witness :
  validateFareEstimate suv_query = true /\
  query_rideType suv_query = Some "suv"%string /\
  mem_string "suv" ["economy"; "premium"; "luxury"]%string = false /\
  mem_string "suv" Object_prototype_keys = false /\
  (exists data eco,
     estimate NaN suv_query = FareEstimated data /\
     estimate NaN (set_query_rideType None suv_query) = FareEstimated eco /\
     fb_rideType (fareBreakdown data) = "suv"%string /\
     fb_rideType (fareBreakdown eco) = "economy"%string /\
     fb_baseFare (fareBreakdown data) = fb_baseFare (fareBreakdown eco) /\
     fb_gst (fareBreakdown data) = fb_gst (fareBreakdown eco) /\
     fb_totalFare (fareBreakdown data) = fb_totalFare (fareBreakdown eco)) /\
  (forall now user b db,
     body_rideType b = Some "suv"%string ->
     book NaN now user b db = (ValidationFailed, db)).
Proof.
  exact (conj suv_query_valid
           (conj eq_refl
              (conj eq_refl
                 (conj eq_refl
                    (estimate_accepts_unlisted_rideType NaN suv_query "suv"
                       suv_query_valid eq_refl eq_refl eq_refl))))).
Defined.

Section DoublesWitnesses.

Import Floats.

Local Open Scope float_scope.

Lemma near_antipodal_distance_is_NaN_witness :
  Binary64.validateCoordinates (-82) (-180) = true /\
  Binary64.validateCoordinates 82 0 = true /\
  Binary64.calculateDistance Binary64.sampled_sin Binary64.sampled_cos
    Binary64.sampled_atan2 (-82) (-180) 82 0 = nan /\
  Binary64.fb_totalFare
    (Binary64.calculateFare nan
       (Binary64.calculateDistance Binary64.sampled_sin Binary64.sampled_cos
          Binary64.sampled_atan2 (-82) (-180) 82 0)
       (Some "economy"%string)) = nan.
Proof.
  apply (near_antipodal_distance_is_NaN Binary64.sampled_sin Binary64.sampled_cos
           Binary64.sampled_atan2).
  - left. vm_compute. reflexivity.
  - right. left. vm_compute. reflexivity.
  - right. left. vm_compute. reflexivity.
  - vm_compute. reflexivity.
  - exact sampled_atan2_NaN.
Defined.

End DoublesWitnesses.
